(** * ollie: model references, manifests, archives

    A shallow embedding of the Go sources of the [ollie] command line
    tool ([cmd/save.go], [cmd/load.go], [cmd/util.go]) and the properties
    of its specification that are settled against it.

    Go strings are byte strings: they are modelled by [string], a sequence
    of 8-bit [ascii] codes.  The regular expressions of [parseModelName]
    only distinguish the bytes ['/'], [':'] and newline, which never occur
    inside a multi-byte UTF-8 sequence, so matching byte by byte consumes
    the same spans as Go's rune by rune matching. *)

From Stdlib Require Import ZArith Ascii String List Bool Lia.
From stdpp Require Import base option list gmap strings.

Local Open Scope char_scope.
Local Open Scope stdpp_scope.

(** ** Errors and results *)

(** Every [fmt.Errorf] of the sources, named after the error kinds of the
    specification, with the values the message is formatted from. *)
Inductive error : Type :=
| InvalidReference (name : string)
   (* "invalid model name format: %s" *)
| ManifestReadError (path : string)
   (* "failed to read manifest: %w" *)
| ManifestParseError
   (* "failed to parse manifest: %w" *)
| StatError (absPath : string)
   (* "failed to stat %s: %w" *)
| HeaderError (relPath : string)
   (* "failed to create header for %s: %w" *)
| CopyError (relPath : string)
   (* "failed to write %s to tarball: %w" *)
| RefusedTerminalOutput (name : string)
   (* "refusing to write binary tarball to terminal ..." *)
| HomeDirError
   (* "failed to get home directory: %w" *)
| ParseUIDError
   (* "failed to parse UID: %w" *)
| ParseGIDError
   (* "failed to parse GID: %w" *)
| LookupError (e : error)
   (* "failed to get ollama user/group: %w" *)
| OpenError
   (* "failed to open file: %w" *)
| CodecError
   (* "failed to create xz reader: %w", "failed to create gzip reader: %w" *)
| UnsupportedFormat (fileName : string)
   (* "unsupported file extension for %s" *)
| ReadHeaderError
   (* "failed to read tar header: %w" *)
| MkdirError (targetPath : string)
   (* "failed to create directory %s: %w",
      "failed to create parent directory for %s: %w" *)
| ChownError (path : string)
   (* "failed to set ownership for ... %s: %w" *)
| CreateFileError (targetPath : string)
   (* "failed to create file %s: %w" *)
| WriteFileError (targetPath : string)
   (* "failed to write file %s: %w" *)
| WriteHeaderError (relPath : string)
   (* "failed to write header for %s: %w" *)
| OpenSourceError (absPath : string)
   (* "failed to open %s: %w" *)
| OSError
   (* an error of the operating system or of a library, before it is
      wrapped *).

Inductive result (A : Type) : Type :=
| OK (a : A)
| Err (e : error).
Arguments OK {A} a.
Arguments Err {A} e.

(** ** Byte strings *)

Fixpoint str_all (p : ascii -> bool) (s : string) : bool :=
  match s with
  | EmptyString => true
  | String c s' => p c && str_all p s'
  end.

Fixpoint str_take (n : nat) (s : string) : string :=
  match n, s with
  | S n', String c s' => String c (str_take n' s')
  | _, _ => EmptyString
  end.

Fixpoint str_rev (s : string) : string :=
  match s with
  | EmptyString => EmptyString
  | String c s' => str_rev s' +:+ String c EmptyString
  end.

Definition is_not (d : ascii) (c : ascii) : bool := negb (Ascii.eqb c d).

(** [strings.HasPrefix], [strings.TrimPrefix], [strings.HasSuffix]. *)
Fixpoint HasPrefix (s prefix : string) {struct prefix} : bool :=
  match prefix, s with
  | EmptyString, _ => true
  | String p prefix', String c s' => Ascii.eqb c p && HasPrefix s' prefix'
  | String _ _, EmptyString => false
  end.

Fixpoint str_drop (n : nat) (s : string) : string :=
  match n, s with
  | S n', String _ s' => str_drop n' s'
  | _, _ => s
  end.

(** [if HasPrefix(s, prefix) { return s[len(prefix):] }; return s]. *)
Definition TrimPrefix (s prefix : string) : string :=
  if HasPrefix s prefix then str_drop (String.length prefix) s else s.

(** [len(s) >= len(suffix) && s[len(s)-len(suffix):] == suffix]. *)
Definition HasSuffix (s suffix : string) : bool :=
  (String.length suffix <=? String.length s)%nat
  && String.eqb (str_drop (String.length s - String.length suffix) s) suffix.

(** ** The fragment of Go's [regexp] used by the sources

    [regexp.MustCompile] parses the pattern text into a syntax tree; the
    five patterns of [parseModelName] are written below as the trees the
    parser builds.  Matching is leftmost-first (Perl-like): a greedy [+]
    first tries the longest repetition and gives characters back one at a
    time.  By default [.] does not match a newline, a negated class
    [[^c]] does, and [^] and [$] match only at the ends of the text. *)
Module regexp.

Inductive charClass : Type :=
| NotChar (c : ascii)     (* [^c] *)
| AnyCharNotNL.           (* .    *)

Definition classMatches (cl : charClass) (c : ascii) : bool :=
  match cl with
  | NotChar d => is_not d c
  | AnyCharNotNL => is_not "010" c
  end.

Inductive Regexp : Type :=
| EmptyMatch
| BeginText                                           (* ^ *)
| EndText                                             (* $ *)
| Literal (c : ascii)
| Plus (cl : charClass)                               (* cl+ *)
| Capture (index : nat) (name : string) (sub : Regexp) (* (?P<name>sub) *)
| Concat (r1 r2 : Regexp).

(** The text consumed between two positions of the input: [s'] is the
    suffix of [s] that remains. *)
Definition consumed (s s' : string) : string :=
  str_take (String.length s - String.length s') s.

(** Where a run of [cl] has to end: at the end of the text or in front of
    a character outside the class. *)
Definition stops (cl : charClass) (rest : string) : bool :=
  match rest with
  | EmptyString => true
  | String c _ => negb (classMatches cl c)
  end.

(** [cl+] in continuation-passing style: [k] is tried after the longest
    run first, then after each shorter one. *)
Fixpoint plusLoop {R : Type} (cl : charClass) (k : nat -> string -> option R)
    (pos : nat) (s : string) : option R :=
  match s with
  | EmptyString => None
  | String c s' =>
      if classMatches cl c then
        match plusLoop cl k (S pos) s' with
        | Some r => Some r
        | None => k (S pos) s'
        end
      else None
  end.

(** A backtracking matcher: [pos] is the offset of [s] in the text and
    [cap] the text of the groups closed so far, by group index. *)
Fixpoint run (re : Regexp)
    (k : nat -> string -> list string -> option (list string))
    (pos : nat) (s : string) (cap : list string) : option (list string) :=
  match re with
  | EmptyMatch => k pos s cap
  | BeginText => if Nat.eqb pos 0 then k pos s cap else None
  | EndText =>
      match s with
      | EmptyString => k pos s cap
      | String _ _ => None
      end
  | Literal c =>
      match s with
      | String c' s' => if Ascii.eqb c' c then k (S pos) s' cap else None
      | EmptyString => None
      end
  | Plus cl => plusLoop cl (fun pos' s' => k pos' s' cap) pos s
  | Capture i _ sub =>
      run sub (fun pos' s' cap' => k pos' s' (<[i := consumed s s']> cap'))
          pos s cap
  | Concat r1 r2 => run r1 (run r2 k) pos s cap
  end.

Fixpoint groupNames (re : Regexp) : list string :=
  match re with
  | Capture _ name sub => name :: groupNames sub
  | Concat r1 r2 => groupNames r1 ++ groupNames r2
  | _ => []
  end.

(** [re.SubexpNames()]: the name of group 0 is the empty string. *)
Definition SubexpNames (re : Regexp) : list string := "" :: groupNames re.

(** A match attempt at one offset; group 0 is the whole match. *)
Definition matchAt (re : Regexp) (pos : nat) (s : string) : option (list string) :=
  run re (fun _ s' cap => Some (<[0 := consumed s s']> cap)) pos s
      (replicate (length (SubexpNames re)) "").

(** [re.FindStringSubmatch(s)]: the leftmost match, [None] for Go's nil. *)
Fixpoint searchFrom (re : Regexp) (pos : nat) (s : string) : option (list string) :=
  match matchAt re pos s with
  | Some m => Some m
  | None =>
      match s with
      | EmptyString => None
      | String _ s' => searchFrom re (S pos) s'
      end
  end.

Definition FindStringSubmatch (re : Regexp) (s : string) : option (list string) :=
  searchFrom re 0 s.

Definition sequence (rs : list Regexp) : Regexp := foldr Concat EmptyMatch rs.

End regexp.

(** ** cmd/save.go: model names *)

Record ModelName : Type := mkModelName {
  Host : string;
  Namespace : string;
  Model : string;
  Tag : string
}.

Import regexp.

Definition group (index : nat) (name : string) (cl : charClass) : Regexp :=
  Capture index name (Plus cl).

(** The [patterns] slice of [parseModelName], in source order. *)
Definition pattern_host_namespace_model_tag : Regexp :=
  (* ^(?P<host>[^/]+)/(?P<namespace>[^/]+)/(?P<model>[^:]+):(?P<tag>.+)$ *)
  sequence [BeginText; group 1 "host" (NotChar "/"); Literal "/";
            group 2 "namespace" (NotChar "/"); Literal "/";
            group 3 "model" (NotChar ":"); Literal ":";
            group 4 "tag" AnyCharNotNL; EndText].

Definition pattern_namespace_model_tag : Regexp :=
  (* ^(?P<namespace>[^/]+)/(?P<model>[^:]+):(?P<tag>.+)$ *)
  sequence [BeginText; group 1 "namespace" (NotChar "/"); Literal "/";
            group 2 "model" (NotChar ":"); Literal ":";
            group 3 "tag" AnyCharNotNL; EndText].

Definition pattern_namespace_model : Regexp :=
  (* ^(?P<namespace>[^/]+)/(?P<model>[^:]+)$ *)
  sequence [BeginText; group 1 "namespace" (NotChar "/"); Literal "/";
            group 2 "model" (NotChar ":"); EndText].

Definition pattern_model_tag : Regexp :=
  (* ^(?P<model>[^:]+):(?P<tag>.+)$ *)
  sequence [BeginText; group 1 "model" (NotChar ":"); Literal ":";
            group 2 "tag" AnyCharNotNL; EndText].

Definition pattern_model : Regexp :=
  (* ^(?P<model>[^:]+)$ *)
  sequence [BeginText; group 1 "model" (NotChar ":"); EndText].

Definition patterns : list Regexp :=
  [pattern_host_namespace_model_tag; pattern_namespace_model_tag;
   pattern_namespace_model; pattern_model_tag; pattern_model].

(** The reference every match starts from. *)
Definition defaultModelName : ModelName :=
  {| Host := "registry.ollama.ai"; Namespace := "library";
     Model := ""; Tag := "latest" |}.

(** One iteration of [switch names[i]]. *)
Definition assignGroup (name : string) (m : string) (r : ModelName) : ModelName :=
  if String.eqb name "host" then
    {| Host := m; Namespace := Namespace r; Model := Model r; Tag := Tag r |}
  else if String.eqb name "namespace" then
    {| Host := Host r; Namespace := m; Model := Model r; Tag := Tag r |}
  else if String.eqb name "model" then
    {| Host := Host r; Namespace := Namespace r; Model := m; Tag := Tag r |}
  else if String.eqb name "tag" then
    {| Host := Host r; Namespace := Namespace r; Model := Model r; Tag := m |}
  else r.

(** [for i, match := range matches { switch names[i] ... }]. *)
Fixpoint extractGroups (names matches : list string) (r : ModelName) : ModelName :=
  match names, matches with
  | n :: names', m :: matches' => extractGroups names' matches' (assignGroup n m r)
  | _, _ => r
  end.

(** [for _, pattern := range patterns]: the first pattern that matches
    decides, and no match at all is the error. *)
Fixpoint parseWith (ps : list Regexp) (name : string) : result ModelName :=
  match ps with
  | [] => Err (InvalidReference name)
  | re :: ps' =>
      match FindStringSubmatch re name with
      | Some matches => OK (extractGroups (SubexpNames re) matches defaultModelName)
      | None => parseWith ps' name
      end
  end.

Definition parseModelName (name : string) : result ModelName :=
  parseWith patterns name.

(** *** The reference shapes of the specification

    A shape is matched when the input splits at the literal delimiters
    into non-empty parts, each within the character class of its group:
    host and namespace hold no ['/'], the model no [':'], and the tag,
    matched by [.+], no newline. *)

Definition part (d : ascii) (x : string) : Prop :=
  x <> "" /\ str_all (is_not d) x = true.

Definition shape_host_namespace_model_tag (s h ns m t : string) : Prop :=
  part "/" h /\ part "/" ns /\ part ":" m /\ part "010" t /\
  s = h +:+ "/" +:+ ns +:+ "/" +:+ m +:+ ":" +:+ t.

Definition shape_namespace_model_tag (s ns m t : string) : Prop :=
  part "/" ns /\ part ":" m /\ part "010" t /\
  s = ns +:+ "/" +:+ m +:+ ":" +:+ t.

Definition shape_namespace_model (s ns m : string) : Prop :=
  part "/" ns /\ part ":" m /\ s = ns +:+ "/" +:+ m.

Definition shape_model_tag (s m t : string) : Prop :=
  part ":" m /\ part "010" t /\ s = m +:+ ":" +:+ t.

Definition shape_model (s m : string) : Prop :=
  part ":" m /\ s = m.

(** The input has the shape, for some parts. *)
Definition is_host_namespace_model_tag (s : string) : Prop :=
  exists h ns m t, shape_host_namespace_model_tag s h ns m t.
Definition is_namespace_model_tag (s : string) : Prop :=
  exists ns m t, shape_namespace_model_tag s ns m t.
Definition is_namespace_model (s : string) : Prop :=
  exists ns m, shape_namespace_model s ns m.
Definition is_model_tag (s : string) : Prop :=
  exists m t, shape_model_tag s m t.
Definition is_model (s : string) : Prop :=
  exists m, shape_model s m.

(** ** path/filepath (Unix) *)
Module filepath.

Definition has_slash (s : string) : bool := negb (str_all (is_not "/") s).

(** The elements between the separators: ["a//b"] has the elements
    ["a"], [""] and ["b"]. *)
Fixpoint elements (s : string) : list string :=
  match s with
  | EmptyString => [""]
  | String c s' =>
      if Ascii.eqb c "/" then "" :: elements s'
      else match elements s' with
           | e :: es => String c e :: es
           | [] => [String c ""]
           end
  end.

Definition IsAbs (path : string) : bool := HasPrefix path "/".

Fixpoint dropWhileEmpty (es : list string) : list string :=
  match es with
  | e :: es' => if String.eqb e "" then dropWhileEmpty es' else es
  | [] => []
  end.

(** One element of [Clean]'s scan; [out] is the output so far, last
    element first.  Empty and ["."] elements are dropped, [".."] removes
    the element before it, is dropped at the root, and is kept in front
    of a relative path. *)
Definition cleanStep (rooted : bool) (out : list string) (e : string) : list string :=
  if String.eqb e "" || String.eqb e "." then out
  else if String.eqb e ".." then
    match out with
    | top :: out' => if String.eqb top ".." then e :: out else out'
    | [] => if rooted then [] else [e]
    end
  else e :: out.

Definition joinElements (es : list string) : string := String.concat "/" es.

(** An element that [Clean] keeps as it is. *)
Definition plainb (e : string) : bool :=
  negb (String.eqb e "") && negb (String.eqb e ".") && negb (String.eqb e "..")
  && str_all (is_not "/") e.

(** An element of the output of [Clean]: a plain one or [".."]. *)
Definition keptb (e : string) : bool :=
  negb (String.eqb e "") && negb (String.eqb e ".") && str_all (is_not "/") e.

Definition Clean (path : string) : string :=
  let out := rev (fold_left (cleanStep (IsAbs path)) (elements path) []) in
  if IsAbs path then "/" +:+ joinElements out
  else match out with
       | [] => "."
       | _ => joinElements out
       end.

(** The clean path with the given elements, from the root or not. *)
Definition render (abs : bool) (es : list string) : string :=
  if abs then "/" +:+ joinElements es
  else match es with
       | [] => "."
       | _ => joinElements es
       end.

(** [Join] ignores empty elements and cleans the result. *)
Fixpoint Join (elem : list string) : string :=
  match elem with
  | [] => ""
  | e :: elem' =>
      if String.eqb e "" then Join elem' else Clean (joinElements elem)
  end.

(** [path[:i+1]] for the last separator [i]. *)
Fixpoint dirPrefix (path : string) : string :=
  match path with
  | EmptyString => ""
  | String c s' =>
      if has_slash s' then String c (dirPrefix s')
      else if Ascii.eqb c "/" then "/" else ""
  end.

Definition Dir (path : string) : string := Clean (dirPrefix path).

End filepath.

(** ** strconv.Atoi *)

Definition digit (c : ascii) : option Z :=
  let n := Z.of_nat (nat_of_ascii c) in
  if (48 <=? n)%Z && (n <=? 57)%Z then Some (n - 48)%Z else None.

Fixpoint digits (s : string) (acc : Z) : option Z :=
  match s with
  | EmptyString => Some acc
  | String c s' =>
      match digit c with
      | Some d => digits s' (10 * acc + d)%Z
      | None => None
      end
  end.

(** Base 10, an optional sign, at least one digit, within a 64-bit [int]. *)
Definition Atoi (s : string) : option Z :=
  let signed (neg : bool) (body : string) :=
    match body with
    | EmptyString => None
    | _ =>
        match digits body 0 with
        | Some n =>
            let v := if neg then (- n)%Z else n in
            if (- 2 ^ 63 <=? v)%Z && (v <? 2 ^ 63)%Z then Some v else None
        | None => None
        end
    end in
  match s with
  | String "+" body => signed false body
  | String "-" body => signed true body
  | _ => signed false s
  end.

(** ** archive/tar and the decompressors *)

Inductive Typeflag : Type := TypeReg | TypeDir | TypeOther.

(** The fields of [tar.Header] the sources read or set. *)
Record Header : Type := mkHeader {
  Name : string;
  Mode : Z;
  Size : Z;
  Type_ : Typeflag
}.

(** What a [tar.Writer] has been asked to emit. *)
Inductive tarEvent : Type :=
| WroteHeader (h : Header)
| WroteData (data : string)
| Closed.

(** What a [tar.Reader] delivers: [Next] returns a header, [io.EOF] or an
    error; reading the entry delivers [data], and fails after it when the
    entry is cut short ([complete = false]). *)
Inductive tarStream : Type :=
| AtEOF
| ReadFails
| Entry (h : Header) (data : string) (complete : bool) (rest : tarStream).

Inductive Codec : Type := NoCodec | Gzip | Bzip2 | Xz.

Record Descriptor : Type := mkDescriptor { Digest : string }.

(** [Manifest]: the structure of an Ollama manifest file. *)
Record Manifest : Type := mkManifest {
  Config : Descriptor;
  Layers : list Descriptor
}.

(** The libraries the sources call and this development does not look
    into: the JSON decoder and the archive codecs.  [StreamOf c bytes] is
    what [tar.NewReader] delivers over the [c] reader of a file with the
    given content, [None] when [gzip.NewReader] or [xz.NewReader] rejects
    it; [TarBytes] is the byte stream of a [tar.Writer]. *)
Class Libraries : Type := {
  json_Unmarshal : string -> option Manifest;
  StreamOf : Codec -> string -> option tarStream;
  TarBytes : list tarEvent -> string
}.

(** ** The process and its surroundings *)

Inductive node : Type :=
| File (mode : Z) (uid gid : Z) (content : string)
| Directory (mode : Z) (uid gid : Z).

(** Calls that reach outside the process, in the order they are made. *)
Inductive call : Type :=
| CallStat (path : string)
| CallOpen (path : string)
| CallRead (path : string)
| CallReadFile (path : string)
| CallMkdirAll (path : string)
| CallOpenFile (path : string)
| CallWrite (path : string)
| CallChown (path : string) (uid gid : Z)
| CallLookupUser (name : string)
| CallLookupGroup (name : string)
| CallWriteStdout
| CallWriteStderr.

Record World : Type := mkWorld {
  cwd : list string;                 (* working directory, from the root *)
  fs : gmap (list string) node;      (* the file tree below the root *)
  environ : gmap string string;
  passwd : gmap string string;       (* user name to Uid *)
  groups : gmap string string;       (* group name to Gid *)
  euid : Z;
  egid : Z;
  umask : Z;
  privileged : bool;                 (* may give files away with chown *)
  stdout_tty : bool;                 (* term.IsTerminal(os.Stdout.Fd()) *)
  stdout : list tarEvent;
  stderr : list string;
  calls : list call
}.

Definition set_fs (f : gmap (list string) node) (w : World) : World :=
  mkWorld (cwd w) f (environ w) (passwd w) (groups w) (euid w) (egid w)
          (umask w) (privileged w) (stdout_tty w) (stdout w) (stderr w) (calls w).

Definition emit (e : tarEvent) (w : World) : World :=
  mkWorld (cwd w) (fs w) (environ w) (passwd w) (groups w) (euid w) (egid w)
          (umask w) (privileged w) (stdout_tty w) (stdout w ++ [e]) (stderr w)
          (calls w).

Definition print_err (line : string) (w : World) : World :=
  mkWorld (cwd w) (fs w) (environ w) (passwd w) (groups w) (euid w) (egid w)
          (umask w) (privileged w) (stdout_tty w) (stdout w) (stderr w ++ [line])
          (calls w).

Definition log (c : call) (w : World) : World :=
  mkWorld (cwd w) (fs w) (environ w) (passwd w) (groups w) (euid w) (egid w)
          (umask w) (privileged w) (stdout_tty w) (stdout w) (stderr w)
          (calls w ++ [c]).

(** Programs: a state and error monad over the world.  An error stops the
    program and leaves the world as it is at that point. *)
Definition IO (A : Type) : Type := World -> result A * World.

Definition ret {A} (a : A) : IO A := fun w => (OK a, w).
Definition fail {A} (e : error) : IO A := fun w => (Err e, w).
Definition bind {A B} (m : IO A) (f : A -> IO B) : IO B :=
  fun w =>
    match m w with
    | (OK a, w') => f a w'
    | (Err e, w') => (Err e, w')
    end.

(** [if err != nil { return fmt.Errorf(..., err) }]: the error of [m] is
    replaced by the wrapping one. *)
Definition orFail {A} (m : IO A) (wrap : error -> error) : IO A :=
  fun w =>
    match m w with
    | (OK a, w') => (OK a, w')
    | (Err e, w') => (Err (wrap e), w')
    end.

(** [defer]: [cleanup] runs when [m] returns, whatever it returns. *)
Definition defer {A} (cleanup : World -> World) (m : IO A) : IO A :=
  fun w => let '(r, w') := m w in (r, cleanup w').

Global Instance IO_ret : MRet IO := @ret.
Global Instance IO_bind : MBind IO := fun A B f m => bind m f.

(** ** The operating system *)
Module os.
Import filepath.

(** Where a path leads, from the root: relative paths start at the
    working directory, [".."] at the root stays there.  There are no
    symbolic links. *)
Definition walkStep (at_rev : list string) (e : string) : list string :=
  if String.eqb e "" || String.eqb e "." then at_rev
  else if String.eqb e ".." then tail at_rev
  else e :: at_rev.

Definition resolve (w : World) (path : string) : list string :=
  rev (fold_left walkStep (elements path)
                 (if IsAbs path then [] else rev (cwd w))).

Definition rootDirectory : node := Directory 493 0 0.

Definition lookupTree (f : gmap (list string) node) (k : list string) : option node :=
  match k with
  | [] => Some rootDirectory
  | _ => f !! k
  end.

(** The node a path names; the empty path names nothing. *)
Definition nodeAt (w : World) (path : string) : option node :=
  if String.eqb path "" then None else lookupTree (fs w) (resolve w path).

Definition ModePerm : Z := 511.

(** The name a [FileInfo] reports: the last element of the path, after
    its trailing separators. *)
Definition basename (name : string) : string :=
  match rev (dropWhileEmpty (rev (elements name))) with
  | [] => if String.eqb name "" then "" else "/"
  | es => List.last es ""
  end.

Definition Getenv (key : string) (w : World) : string :=
  default "" (environ w !! key).

(** [os.UserHomeDir]: the value of [$HOME], an error when it is empty. *)
Definition UserHomeDir : IO string := fun w =>
  if String.eqb (Getenv "HOME" w) "" then (Err OSError, w)
  else (OK (Getenv "HOME" w), w).

Definition Stat (path : string) : IO node := fun w =>
  let w := log (CallStat path) w in
  match nodeAt w path with
  | Some n => (OK n, w)
  | None => (Err OSError, w)
  end.

Definition ReadFile (path : string) : IO string := fun w =>
  let w := log (CallReadFile path) w in
  match nodeAt w path with
  | Some (File _ _ _ content) => (OK content, w)
  | _ => (Err OSError, w)
  end.

(** [os.Open] also opens a directory; reading from it fails. *)
Definition Open (path : string) : IO node := fun w =>
  let w := log (CallOpen path) w in
  match nodeAt w path with
  | Some n => (OK n, w)
  | None => (Err OSError, w)
  end.

Definition ReadAll (path : string) (file : node) : IO string := fun w =>
  let w := log (CallRead path) w in
  match file with
  | File _ _ _ content => (OK content, w)
  | Directory _ _ _ => (Err OSError, w)
  end.

(** The mode bits that [os.OpenFile] and [os.Mkdir] hand to the system
    for a [FileMode]: its permission bits, and its setuid, setgid and
    sticky flags (bits 23, 22 and 20 of a [FileMode]) as the bits 04000,
    02000 and 01000. *)
Definition syscallMode (perm : Z) : Z :=
  Z.lor (Z.land perm 511)
        (Z.lor (if Z.testbit perm 23 then 2048 else 0)
               (Z.lor (if Z.testbit perm 22 then 1024 else 0)
                      (if Z.testbit perm 20 then 512 else 0))).

(** The mode of what is created: the bits asked for, less the umask. *)
Definition masked (perm : Z) (w : World) : Z :=
  Z.ldiff (syscallMode perm) (umask w).

(** [os.MkdirAll] on the reversed key: nothing to do for a directory,
    an error for a file, else the parent first and then the directory
    itself. *)
Fixpoint mkdirAll (w : World) (perm : Z) (rk : list string)
    (f : gmap (list string) node) : option (gmap (list string) node) :=
  match lookupTree f (rev rk) with
  | Some (Directory _ _ _) => Some f
  | Some (File _ _ _ _) => None
  | None =>
      match rk with
      | [] => Some f
      | _ :: parent =>
          match mkdirAll w perm parent f with
          | Some f' =>
              Some (<[rev rk := Directory (masked perm w) (euid w) (egid w)]> f')
          | None => None
          end
      end
  end.

Definition MkdirAll (path : string) (perm : Z) : IO unit := fun w =>
  let w := log (CallMkdirAll path) w in
  if String.eqb path "" then (Err OSError, w)
  else match mkdirAll w perm (rev (resolve w path)) (fs w) with
       | Some f' => (OK tt, set_fs f' w)
       | None => (Err OSError, w)
       end.

(** [os.OpenFile(path, O_CREATE|O_RDWR|O_TRUNC, perm)]: an existing file
    is emptied and keeps its mode and owner, a new one needs its parent
    directory.  The handle is the place of the file in the tree.  The
    permission bits of the file and of the directories on the way are
    recorded but not consulted: the process is taken to have access,
    and a property that depends on the right to open a file a second
    time states that right as a hypothesis. *)
Definition OpenFile (path : string) (perm : Z) : IO (list string) := fun w =>
  let w := log (CallOpenFile path) w in
  let k := resolve w path in
  if String.eqb path "" then (Err OSError, w)
  else match lookupTree (fs w) k with
       | Some (Directory _ _ _) => (Err OSError, w)
       | Some (File mode uid gid _) =>
           (OK k, set_fs (<[k := File mode uid gid ""]> (fs w)) w)
       | None =>
           match lookupTree (fs w) (removelast k) with
           | Some (Directory _ _ _) =>
               (OK k, set_fs (<[k := File (masked perm w) (euid w) (egid w) ""]> (fs w)) w)
           | _ => (Err OSError, w)
           end
       end.

(** Writing to an open file appends to its content. *)
Definition Write (path : string) (outFile : list string) (data : string) : IO unit :=
  fun w =>
    let w := log (CallWrite path) w in
    match fs w !! outFile with
    | Some (File mode uid gid content) =>
        (OK tt, set_fs (<[outFile := File mode uid gid (content +:+ data)]> (fs w)) w)
    | _ => (Err OSError, w)
    end.

(** [os.Chown]: only a privileged process may change the owner.  The
    owner of the root directory is not recorded. *)
Definition Chown (path : string) (uid gid : Z) : IO unit := fun w =>
  let w := log (CallChown path uid gid) w in
  let k := resolve w path in
  if String.eqb path "" then (Err OSError, w)
  else match lookupTree (fs w) k with
       | Some (File mode u g content) =>
           if privileged w || (Z.eqb u uid && Z.eqb g gid)
           then (OK tt, set_fs (<[k := File mode uid gid content]> (fs w)) w)
           else (Err OSError, w)
       | Some (Directory mode u g) =>
           if privileged w || (Z.eqb u uid && Z.eqb g gid)
           then (OK tt, match k with
                        | [] => w
                        | _ => set_fs (<[k := Directory mode uid gid]> (fs w)) w
                        end)
           else (Err OSError, w)
       | None => (Err OSError, w)
       end.

(** [user.Lookup] and [user.LookupGroup] return the id as a string. *)
Definition LookupUser (name : string) : IO string := fun w =>
  let w := log (CallLookupUser name) w in
  match passwd w !! name with
  | Some uid => (OK uid, w)
  | None => (Err OSError, w)
  end.

Definition LookupGroup (name : string) : IO string := fun w =>
  let w := log (CallLookupGroup name) w in
  match groups w !! name with
  | Some gid => (OK gid, w)
  | None => (Err OSError, w)
  end.

End os.

(** ** archive/tar: writing to standard output *)
Module tar.

(** [tar.FileInfoHeader(info, "")]: the name [info.Name()], with a
    separator after it for a directory, the permission and the setuid,
    setgid and sticky bits of the mode, and the size of a regular file,
    0 for a directory. *)
Definition FileInfoHeader (base : string) (info : node) : Header :=
  match info with
  | File mode _ _ content =>
      {| Name := base; Mode := Z.land mode 4095;
         Size := Z.of_nat (String.length content); Type_ := TypeReg |}
  | Directory mode _ _ =>
      {| Name := base +:+ "/"; Mode := Z.land mode 4095;
         Size := 0; Type_ := TypeDir |}
  end.

Definition WriteHeader (h : Header) : IO unit := fun w =>
  (OK tt, emit (WroteHeader h) (log CallWriteStdout w)).

Definition Write (data : string) : IO unit := fun w =>
  (OK tt, emit (WroteData data) (log CallWriteStdout w)).

Definition Close (w : World) : World := emit Closed (log CallWriteStdout w).

End tar.

(** ** cmd/save.go: manifests and file paths *)
Section Program.
Context `{Libraries}.
Import filepath.

(** The blob name of a digest. *)
Definition blobName (digest : string) : string :=
  "sha256-" +:+ TrimPrefix digest "sha256:".

(** [shas = append(shas, ...)] for the config and for each layer. *)
Definition blobShas (manifest : Manifest) : list string :=
  (if String.eqb (Digest (Config manifest)) "" then []
   else [blobName (Digest (Config manifest))])
  ++ flat_map (fun layer =>
                 if String.eqb (Digest layer) "" then []
                 else [blobName (Digest layer)])
              (Layers manifest).

Definition parseManifest (path : string) : IO (list string) :=
  data ← orFail (os.ReadFile path) (fun _ => ManifestReadError path);
  match json_Unmarshal data with
  | None => fail ManifestParseError
  | Some manifest => ret (blobShas manifest)
  end.

Definition getFilePaths (modelName : ModelName) (modelPath : string)
    : IO (list string) :=
  let manifestPath :=
    Join [modelPath; "manifests"; Host modelName; Namespace modelName;
          Model modelName; Tag modelName] in
  blobShas ← parseManifest manifestPath;
  ret ([Join ["manifests"; Host modelName; Namespace modelName;
              Model modelName; Tag modelName]]
       ++ map (fun sha => Join ["blobs"; sha]) blobShas).

(** The manifest of a model below the storage root, and the text
    manifests/host/namespace/model/tag. *)
Definition manifestAbsPath (modelName : ModelName) (modelPath : string) : string :=
  Join [modelPath; "manifests"; Host modelName; Namespace modelName;
        Model modelName; Tag modelName].

Definition manifestRelPath (modelName : ModelName) : string :=
  "manifests/" +:+ Host modelName +:+ "/" +:+ Namespace modelName +:+ "/"
  +:+ Model modelName +:+ "/" +:+ Tag modelName.

(** ** cmd/save.go: the archive writer *)

(** The body of [for _, relPath := range relativePaths]. *)
Definition writeEntry (modelPath relPath : string) : IO unit :=
  let absPath := Join [modelPath; relPath] in
  info ← orFail (os.Stat absPath) (fun _ => StatError absPath);
  let header := tar.FileInfoHeader (os.basename absPath) info in
  let header := {| Name := relPath; Mode := Mode header;
                   Size := Size header; Type_ := Type_ header |} in
  orFail (tar.WriteHeader header) (fun _ => WriteHeaderError relPath) ;;
  file ← orFail (os.Open absPath) (fun _ => OpenSourceError absPath);
  data ← orFail (os.ReadAll absPath file) (fun _ => CopyError relPath);
  orFail (tar.Write data) (fun _ => CopyError relPath).

Fixpoint writeEntries (modelPath : string) (relativePaths : list string) : IO unit :=
  match relativePaths with
  | [] => ret tt
  | relPath :: rest =>
      writeEntry modelPath relPath ;; writeEntries modelPath rest
  end.

Definition createTarball (modelPath : string) (relativePaths : list string) : IO unit :=
  defer tar.Close (writeEntries modelPath relativePaths).

(** ** cmd/util.go *)

Definition systemPath : string := "/usr/share/ollama/.ollama/models".

(** The version of [getOllamaModelsPath] that stands next to
    [getOllamaUIDGID], which [extractTarball] calls. *)
Definition getOllamaModelsPath : IO string := fun w =>
  let modelPath := os.Getenv "OLLAMA_MODELS" w in
  if String.eqb modelPath "" then
    match os.Stat systemPath w with
    | (OK _, w1) => (OK systemPath, w1)
    | (Err _, w1) =>
        match os.UserHomeDir w1 with
        | (OK home, w2) => (OK (Join [home; ".ollama"; "models"]), w2)
        | (Err _, w2) => (Err HomeDirError, w2)
        end
    end
  else (OK modelPath, w).

(** The earlier version, without the system-wide path. *)
Definition getOllamaModelsPath_home : IO string := fun w =>
  let modelPath := os.Getenv "OLLAMA_MODELS" w in
  if String.eqb modelPath "" then
    match os.UserHomeDir w with
    | (OK home, w1) => (OK (Join [home; ".ollama"; "models"]), w1)
    | (Err _, w1) => (Err HomeDirError, w1)
    end
  else (OK modelPath, w).

(** [-1, -1, nil] when the user or the group is not found. *)
Definition getOllamaUIDGID : IO (Z * Z) := fun w =>
  match os.LookupUser "ollama" w with
  | (Err _, w1) => (OK ((-1)%Z, (-1)%Z), w1)
  | (OK ollamaUser, w1) =>
      match os.LookupGroup "ollama" w1 with
      | (Err _, w2) => (OK ((-1)%Z, (-1)%Z), w2)
      | (OK ollamaGroup, w2) =>
          match Atoi ollamaUser with
          | None => (Err ParseUIDError, w2)
          | Some uid =>
              match Atoi ollamaGroup with
              | None => (Err ParseGIDError, w2)
              | Some gid => (OK (uid, gid), w2)
              end
          end
      end
  end.

(** ** cmd/save.go: the command *)

Definition saveCmd_RunE (modelNameStr : string) : IO unit := fun w =>
  if stdout_tty w then (Err (RefusedTerminalOutput modelNameStr), w)
  else
    match parseModelName modelNameStr with
    | Err e => (Err e, w)
    | OK modelName =>
        (modelPath ← getOllamaModelsPath;
         filePaths ← getFilePaths modelName modelPath;
         createTarball modelPath filePaths) w
    end.

(** ** cmd/load.go *)

(** The reader chosen by the file name, in the order of the [if] chain. *)
Definition codecOf (fileName : string) : option Codec :=
  if HasSuffix fileName ".tar.xz" then Some Xz
  else if HasSuffix fileName ".tar.gz" then Some Gzip
  else if HasSuffix fileName ".tar.bz2" || HasSuffix fileName ".tar.bz" then Some Bzip2
  else if HasSuffix fileName ".tar" then Some NoCodec
  else None.

(** [tar.NewReader] over the reader of the codec.  Only [xz.NewReader]
    and [gzip.NewReader] can fail; what the other two cannot read shows
    at the first [Next]. *)
Definition newTarReader (codec : Codec) (file : node) : result tarStream :=
  let opened :=
    match file with
    | File _ _ _ content => StreamOf codec content
    | Directory _ _ _ => None
    end in
  match codec, opened with
  | _, Some stream => OK stream
  | (Xz | Gzip), None => Err CodecError
  | (Bzip2 | NoCodec), None => OK ReadFails
  end.

(** [if uid != -1 && gid != -1 { os.Chown(...) }]. *)
Definition chownIfKnown (path : string) (uid gid : Z) : IO unit :=
  if negb (Z.eqb uid (-1)) && negb (Z.eqb gid (-1)) then
    orFail (os.Chown path uid gid) (fun _ => ChownError path)
  else ret tt.

(** A directory entry. *)
Definition extractDirectory (uid gid : Z) (targetPath : string) : IO unit :=
  orFail (os.MkdirAll targetPath os.ModePerm) (fun _ => MkdirError targetPath) ;;
  chownIfKnown targetPath uid gid.

(** Any other entry: the parent directories, then the file and its
    content. *)
Definition extractFile (uid gid : Z) (targetPath : string) (header : Header)
    (data : string) (complete : bool) : IO unit :=
  let parentDir := Dir targetPath in
  orFail (os.MkdirAll parentDir os.ModePerm) (fun _ => MkdirError targetPath) ;;
  chownIfKnown parentDir uid gid ;;
  outFile ← orFail (os.OpenFile targetPath (Mode header))
                    (fun _ => CreateFileError targetPath);
  orFail (os.Write targetPath outFile data) (fun _ => WriteFileError targetPath) ;;
  (if complete then ret tt else fail (WriteFileError targetPath)) ;;
  chownIfKnown targetPath uid gid.

(** The extraction loop, one [tarReader.Next()] at a time. *)
Fixpoint extractEntries (uid gid : Z) (destPath : string) (tarReader : tarStream)
    : IO unit :=
  match tarReader with
  | AtEOF => ret tt
  | ReadFails => fail ReadHeaderError
  | Entry header data complete rest =>
      let targetPath := Join [destPath; Name header] in
      match Type_ header with
      | TypeDir =>
          extractDirectory uid gid targetPath ;;
          extractEntries uid gid destPath rest
      | _ =>
          extractFile uid gid targetPath header data complete ;;
          extractEntries uid gid destPath rest
      end
  end.

Definition extractTarball (fileName destPath : string) : IO unit :=
  '(uid, gid) ← orFail getOllamaUIDGID LookupError;
  file ← orFail (os.Open fileName) (fun _ => OpenError);
  match codecOf fileName with
  | None => fail (UnsupportedFormat fileName)
  | Some codec =>
      match newTarReader codec file with
      | Err e => fail e
      | OK tarReader => extractEntries uid gid destPath tarReader
      end
  end.

(** [fmt.Fprintf(os.Stderr, "Successfully loaded model from %s to %s\n", ...)]. *)
Definition reportLoaded (fileName modelPath : string) : IO unit := fun w =>
  (OK tt, print_err ("Successfully loaded model from " +:+ fileName
                     +:+ " to " +:+ modelPath) (log CallWriteStderr w)).

Definition loadCmd_RunE (fileName : string) : IO unit :=
  modelPath ← getOllamaModelsPath;
  extractTarball fileName modelPath ;;
  reportLoaded fileName modelPath.

End Program.

(** ** A model directory and stand-ins for the libraries

    The properties below hold for every behaviour of the libraries.  To
    run them on an example, the stand-ins decode one manifest text and one
    archive: the manifest of the specification and the archive of the
    model directory it describes. *)

Definition quote : string := String (ascii_of_nat 34) "".

(** The manifest text of the specification, byte for byte. *)
Definition exampleManifestText : string :=
  "{" +:+ quote +:+ "config" +:+ quote +:+ ":{" +:+ quote +:+ "digest" +:+ quote
  +:+ ":" +:+ quote +:+ "sha256:aa" +:+ quote +:+ "}," +:+ quote +:+ "layers"
  +:+ quote +:+ ":[{" +:+ quote +:+ "digest" +:+ quote +:+ ":" +:+ quote
  +:+ "sha256:bb" +:+ quote +:+ "}]}".

Definition exampleManifest : Manifest :=
  {| Config := {| Digest := "sha256:aa" |};
     Layers := [ {| Digest := "sha256:bb" |} ] |}.

Definition exampleManifestPath : string :=
  "manifests/registry.ollama.ai/library/llama2/latest".

Definition exampleArchive : tarStream :=
  Entry {| Name := exampleManifestPath; Mode := 420;
           Size := Z.of_nat (String.length exampleManifestText); Type_ := TypeReg |}
        exampleManifestText true
  (Entry {| Name := "blobs/sha256-aa"; Mode := 420; Size := 6; Type_ := TypeReg |}
         "config" true
  (Entry {| Name := "blobs/sha256-bb"; Mode := 384; Size := 7; Type_ := TypeReg |}
         "weights" true
   AtEOF)).

Definition testLibraries : Libraries :=
  {| json_Unmarshal := fun data =>
       if String.eqb data exampleManifestText then Some exampleManifest else None;
     StreamOf := fun codec bytes =>
       match codec with
       | NoCodec => if String.eqb bytes "llama2 archive" then Some exampleArchive else None
       | _ => None
       end;
     TarBytes := fun _ => "llama2 archive" |}.

Definition directory : node := Directory 493 0 0.

Definition exampleModel : ModelName :=
  {| Host := "registry.ollama.ai"; Namespace := "library";
     Model := "llama2"; Tag := "latest" |}.

Definition examplePaths : list string :=
  [exampleManifestPath; "blobs/sha256-aa"; "blobs/sha256-bb"].

Definition exampleEntries : list (Header * string) :=
  [({| Name := exampleManifestPath; Mode := 420;
       Size := Z.of_nat (String.length exampleManifestText); Type_ := TypeReg |},
    exampleManifestText);
   ({| Name := "blobs/sha256-aa"; Mode := 420; Size := 6; Type_ := TypeReg |},
    "config");
   ({| Name := "blobs/sha256-bb"; Mode := 384; Size := 7; Type_ := TypeReg |},
    "weights")].

(** A machine without an ollama account: the model llama2 below /models,
    its archive in /tmp, and nothing at /restore. *)
Definition exampleWorld : World :=
  {| cwd := ["home"; "u"];
     fs := {[ ["models"] := directory;
              ["models"; "manifests"] := directory;
              ["models"; "manifests"; "registry.ollama.ai"] := directory;
              ["models"; "manifests"; "registry.ollama.ai"; "library"] := directory;
              ["models"; "manifests"; "registry.ollama.ai"; "library"; "llama2"]
                := directory;
              ["models"; "manifests"; "registry.ollama.ai"; "library"; "llama2";
               "latest"] := File 420 0 0 exampleManifestText;
              ["models"; "blobs"] := directory;
              ["models"; "blobs"; "sha256-aa"] := File 420 0 0 "config";
              ["models"; "blobs"; "sha256-bb"] := File 384 0 0 "weights";
              ["tmp"] := directory;
              ["tmp"; "llama2.tar"] := File 420 1000 1000 "llama2 archive";
              ["home"] := directory;
              ["home"; "u"] := Directory 493 1000 1000 ]};
     environ := {[ "OLLAMA_MODELS" := "/models"; "HOME" := "/home/u" ]};
     passwd := ∅; groups := ∅;
     euid := 1000; egid := 1000; umask := 18; privileged := false;
     stdout_tty := false; stdout := []; stderr := []; calls := [] |}.

(** The same machine with standard output on a terminal. *)
Definition exampleTerminal : World :=
  mkWorld (cwd exampleWorld) (fs exampleWorld) (environ exampleWorld)
          (passwd exampleWorld) (groups exampleWorld) (euid exampleWorld)
          (egid exampleWorld) (umask exampleWorld) (privileged exampleWorld)
          true [] [] [].

(** A machine with the system-wide models directory and no variable. *)
Definition systemWorld : World :=
  {| cwd := []; fs := {[ ["usr"; "share"; "ollama"; ".ollama"; "models"] := directory ]};
     environ := {[ "HOME" := "/home/u" ]};
     passwd := {[ "ollama" := "998" ]}; groups := {[ "ollama" := "998" ]};
     euid := 0; egid := 0; umask := 18; privileged := true; stdout_tty := false;
     stdout := []; stderr := []; calls := [] |}.

(** A machine without the variable, the system-wide directory and a home. *)
Definition homelessWorld : World :=
  {| cwd := []; fs := ∅; environ := ∅; passwd := ∅; groups := ∅;
     euid := 1000; egid := 1000; umask := 18; privileged := false;
     stdout_tty := false; stdout := []; stderr := []; calls := [] |}.

(** A machine on which OLLAMA_MODELS is set to the empty string. *)
Definition emptyValueWorld : World :=
  {| cwd := []; fs := ∅;
     environ := {[ "OLLAMA_MODELS" := ""; "HOME" := "/home/u" ]};
     passwd := ∅; groups := ∅; euid := 1000; egid := 1000;
     umask := 18; privileged := false; stdout_tty := false;
     stdout := []; stderr := []; calls := [] |}.

(** ** Archives and trees, for the statements

    The entry that stands for a regular file in an archive, the events a
    writer emits for a list of entries, and what a reader makes of
    them. *)

Definition entryOf (relPath : string) (file : node) : option (Header * string) :=
  match file with
  | File mode _ _ content =>
      Some ({| Name := relPath; Mode := Z.land mode 4095;
               Size := Z.of_nat (String.length content); Type_ := TypeReg |},
            content)
  | Directory _ _ _ => None
  end.

(** The entry of [relPath] below [modelPath], when a regular file is
    there. *)
Definition savedEntry (w : World) (modelPath relPath : string)
    : option (Header * string) :=
  file ← os.nodeAt w (filepath.Join [modelPath; relPath]);
  entryOf relPath file.

Definition eventsOf (entries : list (Header * string)) : list tarEvent :=
  flat_map (fun e => [WroteHeader (fst e); WroteData (snd e)]) entries.

Fixpoint streamOf (entries : list (Header * string)) : tarStream :=
  match entries with
  | [] => AtEOF
  | (h, data) :: rest => Entry h data true (streamOf rest)
  end.

Definition isFile (n : option node) : Prop :=
  match n with Some (File _ _ _ _) => True | _ => False end.

Definition isDirectory (n : option node) : Prop :=
  match n with Some (Directory _ _ _) => True | _ => False end.

Definition contentOf (n : option node) : option string :=
  match n with Some (File _ _ _ content) => Some content | _ => None end.

(** What reads back from the events of a writer: the entries, up to the
    end of the archive. *)
Fixpoint readBack (events : list tarEvent) : tarStream :=
  match events with
  | WroteHeader h :: WroteData data :: rest => Entry h data true (readBack rest)
  | Closed :: _ => AtEOF
  | _ => ReadFails
  end.

Definition suffixes : list string :=
  [".tar"; ".tar.gz"; ".tar.bz"; ".tar.bz2"; ".tar.xz"].

(** A node without its mode and owner: the content of a file, [None] for
    a directory. *)
Definition shape (n : option node) : option (option string) :=
  match n with
  | Some (File _ _ _ content) => Some (Some content)
  | Some (Directory _ _ _) => Some None
  | None => None
  end.

(** The entries fit below [destPath]: each names a file whose parent is
    the directory part of its path, no file is in the way of a directory
    and no directory in the way of a file, neither in the tree nor among
    the entries, and entries of the same file have the same content. *)
Definition targetOf (destPath : string) (e : Header * string) : string :=
  filepath.Join [destPath; Name (fst e)].

Record fits (w : World) (destPath : string) (entries : list (Header * string))
    : Prop := {
  fits_entry : forall e, e ∈ entries ->
    Type_ (fst e) <> TypeDir /\
    targetOf destPath e <> "" /\ filepath.Dir (targetOf destPath e) <> "" /\
    os.resolve w (filepath.Dir (targetOf destPath e))
    = removelast (os.resolve w (targetOf destPath e)) /\
    (forall k, k `prefix_of` os.resolve w (filepath.Dir (targetOf destPath e)) ->
               ~ isFile (os.lookupTree (fs w) k)) /\
    ~ isDirectory (os.lookupTree (fs w) (os.resolve w (targetOf destPath e)));
  fits_apart : forall e e', e ∈ entries -> e' ∈ entries ->
    ~ os.resolve w (targetOf destPath e)
      `prefix_of` os.resolve w (filepath.Dir (targetOf destPath e'));
  fits_same : forall e e', e ∈ entries -> e' ∈ entries ->
    os.resolve w (targetOf destPath e) = os.resolve w (targetOf destPath e') ->
    snd e = snd e'
}.

(** In a file tree nothing is below a file. *)
Definition filesAreLeaves (f : gmap (list string) node) : Prop :=
  forall k k', isFile (os.lookupTree f k) -> k `prefix_of` k' -> k <> k' ->
               os.lookupTree f k' = None.

(** An empty root at [place]: nothing is below it, and no file is at it
    or above it. *)
Definition emptyRoot (f : gmap (list string) node) (place : list string) : Prop :=
  (forall k, place `prefix_of` k -> k <> place -> os.lookupTree f k = None) /\
  (forall k, k `prefix_of` place -> ~ isFile (os.lookupTree f k)).

(** Both, decided on a given tree. *)
Definition isFileNode (n : node) : bool :=
  match n with File _ _ _ _ => true | Directory _ _ _ => false end.

Definition filesAreLeavesb (f : gmap (list string) node) : bool :=
  bool_decide
    (map_Forall (fun k n =>
       isFileNode n = true ->
       map_Forall (fun k' (_ : node) => k `prefix_of` k' -> k = k') f) f).

Definition emptyRootb (f : gmap (list string) node) (place : list string) : bool :=
  bool_decide
    (map_Forall (fun k n =>
       (place `prefix_of` k -> k = place) /\
       (k `prefix_of` place -> isFileNode n = false)) f).

(** A relative path that is clean and stays below where it starts. *)
Definition isLocal (path : string) : bool :=
  forallb filepath.plainb (filepath.elements path).

(** The same process at a later time. *)
Definition sameProcess (w w' : World) : Prop :=
  cwd w' = cwd w /\ privileged w' = privileged w.






(** The fully qualified text of a reference: host/namespace/model:tag. *)
Definition qualified (r : ModelName) : string :=
  Host r +:+ "/" +:+ Namespace r +:+ "/" +:+ Model r +:+ ":" +:+ Tag r.

(** The fields are within the character classes of their groups. *)
Definition wellFormed (r : ModelName) : Prop :=
  part "/" (Host r) /\ part "/" (Namespace r) /\ part ":" (Model r) /\
  part "010" (Tag r).

(** Calls that change the file tree. *)
Definition mutates (c : call) : bool :=
  match c with
  | CallMkdirAll _ | CallOpenFile _ | CallWrite _ | CallChown _ _ _ => true
  | _ => false
  end.

(** A program that takes every world to one related to it by [R]. *)
Definition keeps {A} (R : World -> World -> Prop) (m : IO A) : Prop :=
  forall w, R w (snd (m w)).

(** The later world of a process that has only read and written to
    standard output in between. *)
Definition reads (w w' : World) : Prop :=
  fs w' = fs w /\ cwd w' = cwd w /\ stderr w' = stderr w /\
  exists cs, calls w' = calls w ++ cs /\ Forall (fun c => mutates c = false) cs.

(** The example machine with a manifest that is no JSON text, and with
    one blob of the model missing. *)
Definition garbledWorld : World :=
  set_fs (<[ ["models"; "manifests"; "registry.ollama.ai"; "library"; "llama2";
              "latest"] := File 420 0 0 "not a manifest" ]> (fs exampleWorld))
         exampleWorld.

Definition incompleteWorld : World :=
  set_fs (delete ["models"; "blobs"; "sha256-bb"] (fs exampleWorld)) exampleWorld.

(** A machine whose user database gives the ollama account an id that is
    no decimal number. *)
Definition sidWorld : World :=
  {| cwd := []; fs := {[ ["tmp"] := directory;
                         ["tmp"; "llama2.tar"] := File 420 0 0 "llama2 archive" ]};
     environ := {[ "OLLAMA_MODELS" := "/models" ]};
     passwd := {[ "ollama" := "S-1-5-21-1004" ]}; groups := {[ "ollama" := "998" ]};
     euid := 0; egid := 0; umask := 18; privileged := true; stdout_tty := false;
     stdout := []; stderr := []; calls := [] |}.

(** The later world of a process that has worked on the file tree only:
    all but the tree and the record of calls is as before. *)
Definition sameSurroundings (w w' : World) : Prop :=
  cwd w' = cwd w /\ environ w' = environ w /\ passwd w' = passwd w /\
  groups w' = groups w /\ euid w' = euid w /\ egid w' = egid w /\
  umask w' = umask w /\ privileged w' = privileged w /\
  stdout_tty w' = stdout_tty w /\ stdout w' = stdout w /\ stderr w' = stderr w.




(** The headers a reader delivers, in order. *)
Fixpoint headersOf (tarReader : tarStream) : list Header :=
  match tarReader with
  | Entry header _ _ rest => header :: headersOf rest
  | _ => []
  end.

(** The directory that [os.MkdirAll(path, os.ModePerm)] creates where
    there is none. *)
Definition newDirectory (w : World) : node :=
  Directory (os.masked os.ModePerm w) (euid w) (egid w).

Definition withOwner (uid gid : Z) (n : node) : node :=
  match n with
  | File mode _ _ content => File mode uid gid content
  | Directory mode _ _ => Directory mode uid gid
  end.

Definition ownedBy (uid gid : Z) (n : option node) : Prop :=
  match n with
  | Some (File _ u g _) | Some (Directory _ u g) => u = uid /\ g = gid
  | None => False
  end.

(** The later world of the process of [w0] when it has, at the places
    that are not [allowed], done no more than create directories. *)
Definition besides (w0 : World) (allowed : list string -> Prop) (w w' : World) : Prop :=
  sameSurroundings w0 w ->
  sameSurroundings w0 w' /\
  forall K, ~ allowed K ->
    os.lookupTree (fs w') K = os.lookupTree (fs w) K \/
    (os.lookupTree (fs w) K = None /\
     os.lookupTree (fs w') K = Some (newDirectory w0)).

(** The later world keeps what is owned by [uid] and [gid] that way. *)
Definition keepsOwned (uid gid : Z) (w w' : World) : Prop :=
  forall K, ownedBy uid gid (os.lookupTree (fs w) K) ->
            ownedBy uid gid (os.lookupTree (fs w') K).

(** The example machine as the service sees it: the ollama account is in
    the user database and the process may give files away. *)
Definition serviceWorld : World :=
  mkWorld (cwd exampleWorld) (fs exampleWorld) (environ exampleWorld)
          {[ "ollama" := "998" ]} {[ "ollama" := "997" ]} 0 0 18 true
          false [] [] [].



(** The later world of the process of [w0] when every place that was in
    [P] still is. *)
Definition preserves (w0 : World) (P : option node -> Prop) (w w' : World) : Prop :=
  sameSurroundings w0 w ->
  sameSurroundings w0 w' /\
  forall K, P (os.lookupTree (fs w) K) -> P (os.lookupTree (fs w') K).

(** A property of a place that the elementary changes of the extraction
    keep: a new directory, a new owner, a file emptied, created or
    written to. *)
Record closedUnder (w0 : World) (uid gid : Z) (P : option node -> Prop) : Prop := {
  closed_mkdir : P None -> P (Some (newDirectory w0));
  closed_chown : forall n, P (Some n) -> P (Some (withOwner uid gid n));
  closed_truncate : forall mode u g content,
    P (Some (File mode u g content)) -> P (Some (File mode u g ""));
  closed_create : forall perm,
    P None -> P (Some (File (os.masked perm w0) (euid w0) (egid w0) ""));
  closed_write : forall mode u g content data,
    P (Some (File mode u g content)) -> P (Some (File mode u g (content +:+ data)))
}.

(** A file or a directory with the given mode. *)
Definition fileWithMode (mode : Z) (n : option node) : Prop :=
  exists u g content, n = Some (File mode u g content).

Definition directoryWithMode (mode : Z) (n : option node) : Prop :=
  exists u g, n = Some (Directory mode u g).

(** Nothing, a file, or a directory as [os.MkdirAll] creates it but for
    its owner. *)
Definition noOtherDirectory (w0 : World) (n : option node) : Prop :=
  match n with
  | Some (Directory mode _ _) => mode = os.masked os.ModePerm w0
  | _ => True
  end.

(** An archive of two directories, read-only in the archive, and a file
    in the second. *)
Definition directoryArchive : tarStream :=
  Entry {| Name := "blobs/"; Mode := 320; Size := 0; Type_ := TypeDir |} "" true
  (Entry {| Name := "manifests/registry.ollama.ai/"; Mode := 320; Size := 0;
            Type_ := TypeDir |} "" true
  (Entry {| Name := "manifests/registry.ollama.ai/note"; Mode := 420; Size := 2;
            Type_ := TypeReg |} "hi" true
   AtEOF)).

Definition directoryLibraries : Libraries :=
  {| json_Unmarshal := fun _ => None;
     StreamOf := fun _ _ => Some directoryArchive;
     TarBytes := fun _ => "" |}.

(** The mode of a file after an entry has been extracted to it: the mode
    it had when it was there, else the permission bits of the header
    less the umask. *)
Definition modeAfter (w : World) (k : list string) (header : Header) : Z :=
  match os.lookupTree (fs w) k with
  | Some (File mode _ _ _) => mode
  | _ => os.masked (Mode header) w
  end.



(** The example machine with the ollama account, for a user who is not
    the account and may not give files away. *)
Definition userWorld : World :=
  mkWorld (cwd exampleWorld) (fs exampleWorld) (environ exampleWorld)
          {[ "ollama" := "998" ]} {[ "ollama" := "997" ]} 1000 1000 18 false
          false [] [] [].

(** Another machine: the archive in /tmp, nothing at the storage root. *)
Definition targetWorld : World :=
  {| cwd := ["home"; "u"];
     fs := {[ ["tmp"] := directory;
              ["tmp"; "llama2.tar"] := File 420 1000 1000 "llama2 archive";
              ["home"] := directory;
              ["home"; "u"] := Directory 493 1000 1000 ]};
     environ := {[ "OLLAMA_MODELS" := "/var/lib/models"; "HOME" := "/home/u" ]};
     passwd := ∅; groups := ∅;
     euid := 1000; egid := 1000; umask := 18; privileged := false;
     stdout_tty := false; stdout := []; stderr := []; calls := [] |}.

(** What a process that is not privileged needs to open the file of an
    entry for reading and writing, now and again later: a file that is
    there is its own and its owner may read and write it (0600); where
    there is none, the owner may read and write the file that
    [os.OpenFile] creates with the mode of the header. *)
Definition rewritable (w : World) (perm : Z) (n : option node) : Prop :=
  match n with
  | Some (File mode u _ _) => u = euid w /\ Z.land mode 384 = 384%Z
  | _ => Z.land (os.masked perm w) 384 = 384%Z
  end.

(** A file of the process that its owner may read and write. *)
Definition mayRewrite (w : World) (n : option node) : Prop :=
  exists mode g content,
    n = Some (File mode (euid w) g content) /\ Z.land mode 384 = 384%Z.

(* ================================================================== *)
(** * Properties *)

(** ** Byte strings *)

Lemma str_app_cons c s t : String c s +:+ t = String c (s +:+ t).
Proof. reflexivity. Qed.

Lemma str_app_nil_l t : "" +:+ t = t.
Proof. reflexivity. Qed.

Lemma str_app_nil_r s : s +:+ "" = s.
Proof. induction s as [|c s IH]; [done|]. by rewrite str_app_cons, IH. Qed.

Lemma str_app_assoc s t u : (s +:+ t) +:+ u = s +:+ t +:+ u.
Proof. induction s as [|c s IH]; [done|]. by rewrite !str_app_cons, IH. Qed.

Lemma str_length_app s t :
  String.length (s +:+ t) = String.length s + String.length t.
Proof. induction s as [|c s IH]; [done|]. rewrite str_app_cons. simpl. by rewrite IH. Qed.

Lemma str_take_app s t : str_take (String.length s) (s +:+ t) = s.
Proof. induction s as [|c s IH]; [by destruct t|]. rewrite str_app_cons. simpl. by rewrite IH. Qed.

Lemma str_all_app p s t : str_all p (s +:+ t) = str_all p s && str_all p t.
Proof.
  induction s as [|c s IH]; [done|].
  rewrite str_app_cons. simpl. by rewrite IH, andb_assoc.
Qed.


Lemma is_not_refl d : is_not d d = false.
Proof. unfold is_not. by rewrite Ascii.eqb_refl. Qed.

(** ** The matcher *)

Lemma consumed_app x rest : consumed (x +:+ rest) rest = x.
Proof.
  unfold consumed. rewrite str_length_app.
  replace (String.length x + String.length rest - String.length rest)
    with (String.length x) by lia.
  apply str_take_app.
Qed.

Lemma consumed_all s : consumed s "" = s.
Proof. rewrite <- (str_app_nil_r s) at 1. apply consumed_app. Qed.

(** The longest run is tried first: when the continuation accepts it, it
    is the answer. *)
Lemma plusLoop_longest {R} cl (k : nat -> string -> option R) x rest pos r :
  x <> "" ->
  str_all (classMatches cl) x = true ->
  stops cl rest = true ->
  k (pos + String.length x) rest = Some r ->
  plusLoop cl k pos (x +:+ rest) = Some r.
Proof.
  revert pos. induction x as [|c x IH]; intros pos Hne Hall Hstop Hk; [done|].
  rewrite str_app_cons. simpl in *.
  apply andb_true_iff in Hall as [Hc Hall]. rewrite Hc.
  destruct x as [|c' x].
  - rewrite str_app_nil_l.
    assert (k (S pos) rest = Some r) as Hk'.
    { rewrite <- Hk. f_equal. cbn. lia. }
    destruct rest as [|d rest]; simpl; [done|].
    simpl in Hstop. apply negb_true_iff in Hstop. by rewrite Hstop.
  - rewrite (IH (S pos)); [done|done|done|done|].
    rewrite <- Hk. f_equal. cbn. lia.
Qed.

(** Whatever [cl+] answers was accepted by the continuation after some
    non-empty run of characters of the class. *)
Lemma plusLoop_sound {R} cl (k : nat -> string -> option R) pos s r :
  plusLoop cl k pos s = Some r ->
  exists x rest,
    s = x +:+ rest /\ x <> "" /\ str_all (classMatches cl) x = true /\
    k (pos + String.length x) rest = Some r.
Proof.
  revert pos. induction s as [|c s IH]; intros pos H; [done|].
  simpl in H. destruct (classMatches cl c) eqn:Hc; [|done].
  destruct (plusLoop cl k (S pos) s) as [r'|] eqn:Hrec.
  - injection H as ->.
    apply IH in Hrec as (x & rest & -> & Hx & Hall & Hk).
    exists (String c x), rest. simpl. rewrite Hc, Hall.
    split_and!; try done.
    rewrite <- Hk. f_equal. cbn. lia.
  - exists (String c ""), s. simpl. rewrite Hc.
    split_and!; try done.
    rewrite <- H. f_equal. cbn. lia.
Qed.

(** A pattern that starts with [^] matches at offset 0 or nowhere. *)
Lemma searchFrom_anchored rs pos s :
  0 < pos -> searchFrom (sequence (BeginText :: rs)) pos s = None.
Proof.
  revert pos. induction s as [|c s IH]; intros pos Hpos.
  - simpl. unfold matchAt. simpl. by destruct pos; [lia|].
  - simpl. unfold matchAt at 1. simpl. destruct pos; [lia|]. simpl.
    apply IH. lia.
Qed.

Lemma FindStringSubmatch_anchored rs s :
  FindStringSubmatch (sequence (BeginText :: rs)) s
  = matchAt (sequence (BeginText :: rs)) 0 s.
Proof.
  unfold FindStringSubmatch. destruct s as [|c s]; simpl.
  - by destruct (matchAt _ 0 "").
  - destruct (matchAt _ 0 (String c s)); [done|].
    apply searchFrom_anchored. lia.
Qed.

Lemma plusLoop_to_end {R} cl (k : nat -> string -> option R) x pos r :
  x <> "" ->
  str_all (classMatches cl) x = true ->
  k (pos + String.length x) "" = Some r ->
  plusLoop cl k pos x = Some r.
Proof.
  intros. rewrite <- (str_app_nil_r x). by apply plusLoop_longest.
Qed.

(** ** The five patterns *)

Ltac expose_literals :=
  repeat match goal with
  | |- context [String ?c ?s +:+ ?t] => change (String c s +:+ t) with (String c (s +:+ t))
  | |- context ["" +:+ ?t] => change ("" +:+ t) with t
  end.

Ltac longest_run :=
  first [ apply plusLoop_longest; [assumption | assumption | reflexivity | ]
        | apply plusLoop_to_end; [assumption | assumption | ] ];
  cbv beta; rewrite ?consumed_app, ?consumed_all, ?Ascii.eqb_refl.

Ltac start_match :=
  rewrite FindStringSubmatch_anchored; unfold matchAt, group; simpl;
  expose_literals.

Lemma match_host_namespace_model_tag h ns m t :
  part "/" h -> part "/" ns -> part ":" m -> part "010" t ->
  FindStringSubmatch pattern_host_namespace_model_tag
    (h +:+ "/" +:+ ns +:+ "/" +:+ m +:+ ":" +:+ t)
  = Some [h +:+ "/" +:+ ns +:+ "/" +:+ m +:+ ":" +:+ t; h; ns; m; t].
Proof.
  intros [? ?] [? ?] [? ?] [? ?].
  unfold pattern_host_namespace_model_tag. start_match.
  do 4 longest_run. reflexivity.
Qed.

Lemma match_namespace_model_tag ns m t :
  part "/" ns -> part ":" m -> part "010" t ->
  FindStringSubmatch pattern_namespace_model_tag (ns +:+ "/" +:+ m +:+ ":" +:+ t)
  = Some [ns +:+ "/" +:+ m +:+ ":" +:+ t; ns; m; t].
Proof.
  intros [? ?] [? ?] [? ?].
  unfold pattern_namespace_model_tag. start_match.
  do 3 longest_run. reflexivity.
Qed.

Lemma match_namespace_model ns m :
  part "/" ns -> part ":" m ->
  FindStringSubmatch pattern_namespace_model (ns +:+ "/" +:+ m)
  = Some [ns +:+ "/" +:+ m; ns; m].
Proof.
  intros [? ?] [? ?].
  unfold pattern_namespace_model. start_match.
  do 2 longest_run. reflexivity.
Qed.

Lemma match_model_tag m t :
  part ":" m -> part "010" t ->
  FindStringSubmatch pattern_model_tag (m +:+ ":" +:+ t)
  = Some [m +:+ ":" +:+ t; m; t].
Proof.
  intros [? ?] [? ?].
  unfold pattern_model_tag. start_match.
  do 2 longest_run. reflexivity.
Qed.

Lemma match_model m :
  part ":" m ->
  FindStringSubmatch pattern_model m = Some [m; m].
Proof.
  intros [? ?].
  unfold pattern_model. start_match.
  longest_run. reflexivity.
Qed.

Ltac start_match_in H :=
  rewrite FindStringSubmatch_anchored in H; unfold matchAt, group in H;
  simpl in H.

Ltac run_in H x rest Hne Hall :=
  apply plusLoop_sound in H as (x & rest & -> & Hne & Hall & H); cbv beta in H.

Ltac literal_in H lit :=
  match type of H with
  | match ?rest with EmptyString => None | String _ _ => _ end = Some _ =>
      let c := fresh "c" in
      destruct rest as [|c rest]; [discriminate H|];
      destruct (Ascii.eqb_spec c lit) as [->|]; [|discriminate H]
  end.

Ltac end_in H :=
  match type of H with
  | match ?rest with EmptyString => Some _ | String _ _ => None end = Some _ =>
      destruct rest; [|discriminate H]; injection H as <-
  end.

Ltac finish_inv :=
  rewrite ?consumed_app, ?consumed_all, ?str_app_nil_r;
  unfold part; repeat split; assumption.

Lemma match_host_namespace_model_tag_inv s ms :
  FindStringSubmatch pattern_host_namespace_model_tag s = Some ms ->
  exists h ns m t,
    part "/" h /\ part "/" ns /\ part ":" m /\ part "010" t /\
    s = h +:+ "/" +:+ ns +:+ "/" +:+ m +:+ ":" +:+ t /\
    ms = [s; h; ns; m; t].
Proof.
  unfold pattern_host_namespace_model_tag. intros H. start_match_in H.
  run_in H h r1 Hh1 Hh2. literal_in H "/"%char.
  run_in H ns r2 Hn1 Hn2. literal_in H "/"%char.
  run_in H m r3 Hm1 Hm2. literal_in H ":"%char.
  run_in H t r4 Ht1 Ht2. end_in H.
  exists h, ns, m, t. finish_inv.
Qed.

Lemma match_namespace_model_tag_inv s ms :
  FindStringSubmatch pattern_namespace_model_tag s = Some ms ->
  exists ns m t,
    part "/" ns /\ part ":" m /\ part "010" t /\
    s = ns +:+ "/" +:+ m +:+ ":" +:+ t /\
    ms = [s; ns; m; t].
Proof.
  unfold pattern_namespace_model_tag. intros H. start_match_in H.
  run_in H ns r2 Hn1 Hn2. literal_in H "/"%char.
  run_in H m r3 Hm1 Hm2. literal_in H ":"%char.
  run_in H t r4 Ht1 Ht2. end_in H.
  exists ns, m, t. finish_inv.
Qed.

Lemma match_namespace_model_inv s ms :
  FindStringSubmatch pattern_namespace_model s = Some ms ->
  exists ns m,
    part "/" ns /\ part ":" m /\ s = ns +:+ "/" +:+ m /\ ms = [s; ns; m].
Proof.
  unfold pattern_namespace_model. intros H. start_match_in H.
  run_in H ns r2 Hn1 Hn2. literal_in H "/"%char.
  run_in H m r3 Hm1 Hm2. end_in H.
  exists ns, m. finish_inv.
Qed.

Lemma match_model_tag_inv s ms :
  FindStringSubmatch pattern_model_tag s = Some ms ->
  exists m t,
    part ":" m /\ part "010" t /\ s = m +:+ ":" +:+ t /\ ms = [s; m; t].
Proof.
  unfold pattern_model_tag. intros H. start_match_in H.
  run_in H m r3 Hm1 Hm2. literal_in H ":"%char.
  run_in H t r4 Ht1 Ht2. end_in H.
  exists m, t. finish_inv.
Qed.

Lemma match_model_inv s ms :
  FindStringSubmatch pattern_model s = Some ms ->
  part ":" s /\ ms = [s; s].
Proof.
  unfold pattern_model. intros H. start_match_in H.
  run_in H m r3 Hm1 Hm2. end_in H.
  finish_inv.
Qed.

(** Each pattern matches exactly the inputs of its shape. *)
Lemma host_namespace_model_tag_None s :
  FindStringSubmatch pattern_host_namespace_model_tag s = None <->
  ~ is_host_namespace_model_tag s.
Proof.
  split.
  - intros H (h & ns & m & t & ? & ? & ? & ? & ->).
    by rewrite match_host_namespace_model_tag in H.
  - intros H. destruct (FindStringSubmatch _ s) eqn:E; [|done].
    apply match_host_namespace_model_tag_inv in E
      as (h & ns & m & t & ? & ? & ? & ? & ? & _).
    destruct H. by exists h, ns, m, t.
Qed.

Lemma namespace_model_tag_None s :
  FindStringSubmatch pattern_namespace_model_tag s = None <->
  ~ is_namespace_model_tag s.
Proof.
  split.
  - intros H (ns & m & t & ? & ? & ? & ->).
    by rewrite match_namespace_model_tag in H.
  - intros H. destruct (FindStringSubmatch _ s) eqn:E; [|done].
    apply match_namespace_model_tag_inv in E as (ns & m & t & ? & ? & ? & ? & _).
    destruct H. by exists ns, m, t.
Qed.

Lemma namespace_model_None s :
  FindStringSubmatch pattern_namespace_model s = None <->
  ~ is_namespace_model s.
Proof.
  split.
  - intros H (ns & m & ? & ? & ->). by rewrite match_namespace_model in H.
  - intros H. destruct (FindStringSubmatch _ s) eqn:E; [|done].
    apply match_namespace_model_inv in E as (ns & m & ? & ? & ? & _).
    destruct H. by exists ns, m.
Qed.

Lemma model_tag_None s :
  FindStringSubmatch pattern_model_tag s = None <-> ~ is_model_tag s.
Proof.
  split.
  - intros H (m & t & ? & ? & ->). by rewrite match_model_tag in H.
  - intros H. destruct (FindStringSubmatch _ s) eqn:E; [|done].
    apply match_model_tag_inv in E as (m & t & ? & ? & ? & _).
    destruct H. by exists m, t.
Qed.

Lemma model_None s :
  FindStringSubmatch pattern_model s = None <-> ~ is_model s.
Proof.
  split.
  - intros H (m & ? & ->). by rewrite match_model in H.
  - intros H. destruct (FindStringSubmatch _ s) eqn:E; [|done].
    apply match_model_inv in E as [? _].
    destruct H. by exists s.
Qed.

(** ** parseModelName *)

(** C1.  An input of one of the five shapes, none of the earlier shapes
    matching it, parses to the parts the shape captures, with
    "registry.ollama.ai", "library" and "latest" for the parts it does
    not capture; the three documented examples evaluate as stated. *)
Theorem parseModelName_shapes :
  (forall s h ns m t,
      shape_host_namespace_model_tag s h ns m t ->
      parseModelName s
      = OK {| Host := h; Namespace := ns; Model := m; Tag := t |}) /\
  (forall s ns m t,
      ~ is_host_namespace_model_tag s ->
      shape_namespace_model_tag s ns m t ->
      parseModelName s
      = OK {| Host := "registry.ollama.ai"; Namespace := ns;
              Model := m; Tag := t |}) /\
  (forall s ns m,
      ~ is_host_namespace_model_tag s -> ~ is_namespace_model_tag s ->
      shape_namespace_model s ns m ->
      parseModelName s
      = OK {| Host := "registry.ollama.ai"; Namespace := ns;
              Model := m; Tag := "latest" |}) /\
  (forall s m t,
      ~ is_host_namespace_model_tag s -> ~ is_namespace_model_tag s ->
      ~ is_namespace_model s ->
      shape_model_tag s m t ->
      parseModelName s
      = OK {| Host := "registry.ollama.ai"; Namespace := "library";
              Model := m; Tag := t |}) /\
  (forall s m,
      ~ is_host_namespace_model_tag s -> ~ is_namespace_model_tag s ->
      ~ is_namespace_model s -> ~ is_model_tag s ->
      shape_model s m ->
      parseModelName s
      = OK {| Host := "registry.ollama.ai"; Namespace := "library";
              Model := m; Tag := "latest" |}) /\
  parseModelName "llama2"
  = OK {| Host := "registry.ollama.ai"; Namespace := "library";
          Model := "llama2"; Tag := "latest" |} /\
  parseModelName "foo/bar:v1"
  = OK {| Host := "registry.ollama.ai"; Namespace := "foo";
          Model := "bar"; Tag := "v1" |} /\
  parseModelName "h.example.com/ns/model:tag"
  = OK {| Host := "h.example.com"; Namespace := "ns";
          Model := "model"; Tag := "tag" |}.
Proof.
  unfold parseModelName, patterns. split_and!; try reflexivity.
  - intros s h ns m t (? & ? & ? & ? & ->). simpl.
    by rewrite match_host_namespace_model_tag.
  - intros s ns m t N1 (? & ? & ? & ->). simpl.
    apply host_namespace_model_tag_None in N1. rewrite N1.
    by rewrite match_namespace_model_tag.
  - intros s ns m N1 N2 (? & ? & ->). simpl.
    apply host_namespace_model_tag_None in N1. rewrite N1.
    apply namespace_model_tag_None in N2. rewrite N2.
    by rewrite match_namespace_model.
  - intros s m t N1 N2 N3 (? & ? & ->). simpl.
    apply host_namespace_model_tag_None in N1. rewrite N1.
    apply namespace_model_tag_None in N2. rewrite N2.
    apply namespace_model_None in N3. rewrite N3.
    by rewrite match_model_tag.
  - intros s m N1 N2 N3 N4 (? & ->). simpl.
    apply host_namespace_model_tag_None in N1. rewrite N1.
    apply namespace_model_tag_None in N2. rewrite N2.
    apply namespace_model_None in N3. rewrite N3.
    apply model_tag_None in N4. rewrite N4.
    by rewrite match_model.
Qed.

Lemma parseModelName_shapes_witness :
  shape_host_namespace_model_tag "h/n/m:t" "h" "n" "m" "t" /\
  parseModelName "h/n/m:t"
  = OK {| Host := "h"; Namespace := "n"; Model := "m"; Tag := "t" |} /\
  shape_namespace_model_tag "n/m:t" "n" "m" "t" /\
  parseModelName "n/m:t"
  = OK {| Host := "registry.ollama.ai"; Namespace := "n";
          Model := "m"; Tag := "t" |} /\
  shape_namespace_model "n/m" "n" "m" /\
  parseModelName "n/m"
  = OK {| Host := "registry.ollama.ai"; Namespace := "n";
          Model := "m"; Tag := "latest" |} /\
  shape_model_tag "m:t" "m" "t" /\
  parseModelName "m:t"
  = OK {| Host := "registry.ollama.ai"; Namespace := "library";
          Model := "m"; Tag := "t" |} /\
  shape_model "m" "m" /\
  parseModelName "m"
  = OK {| Host := "registry.ollama.ai"; Namespace := "library";
          Model := "m"; Tag := "latest" |}.
Proof.
  destruct parseModelName_shapes as (H1 & H2 & H3 & H4 & H5 & _).
  assert (shape_host_namespace_model_tag "h/n/m:t" "h" "n" "m" "t") as S1
    by (repeat split; discriminate).
  assert (shape_namespace_model_tag "n/m:t" "n" "m" "t") as S2
    by (repeat split; discriminate).
  assert (shape_namespace_model "n/m" "n" "m") as S3
    by (repeat split; discriminate).
  assert (shape_model_tag "m:t" "m" "t") as S4
    by (repeat split; discriminate).
  assert (shape_model "m" "m") as S5
    by (repeat split; discriminate).
  split_and!; try assumption.
  - apply (H1 _ _ _ _ _ S1).
  - apply (H2 _ _ _ _); [by apply host_namespace_model_tag_None | exact S2].
  - apply (H3 _ _ _); [by apply host_namespace_model_tag_None
                      | by apply namespace_model_tag_None | exact S3].
  - apply (H4 _ _ _); [by apply host_namespace_model_tag_None
                      | by apply namespace_model_tag_None
                      | by apply namespace_model_None | exact S4].
  - apply (H5 _ _); [by apply host_namespace_model_tag_None
                    | by apply namespace_model_tag_None
                    | by apply namespace_model_None
                    | by apply model_tag_None | exact S5].
Defined.

(** Any match is a success: the loop returns at the first pattern that
    matches. *)
Lemma parseWith_match ps re s ms :
  re ∈ ps -> FindStringSubmatch re s = Some ms ->
  exists r, parseWith ps s = OK r.
Proof.
  induction ps as [|p ps IH]; intros Hin Hm; [by apply elem_of_nil in Hin|].
  simpl. destruct (FindStringSubmatch p s) eqn:E; [by eexists|].
  apply elem_of_cons in Hin as [->|Hin]; [congruence|]. by apply IH.
Qed.

(** C10.  The model group excludes only [':'], so a model may hold ['/']:
    "a/b/c" parses through the namespace/model pattern to namespace "a" and
    model "b/c", and every non-empty input without [':'] parses. *)
Theorem parseModelName_model_with_slashes :
  parseModelName "a/b/c"
  = OK {| Host := "registry.ollama.ai"; Namespace := "a";
          Model := "b/c"; Tag := "latest" |} /\
  (forall s, s <> "" -> str_all (is_not ":") s = true ->
             exists r, parseModelName s = OK r).
Proof.
  split; [reflexivity|].
  intros s Hne Hall. unfold parseModelName.
  apply (parseWith_match patterns pattern_model s [s; s]).
  - unfold patterns. set_solver.
  - by apply match_model.
Qed.

Lemma parseModelName_model_with_slashes_witness :
  "x/y/z/w" <> "" /\ str_all (is_not ":") "x/y/z/w" = true /\
  exists r, parseModelName "x/y/z/w" = OK r.
Proof.
  split; [discriminate|]. split; [reflexivity|].
  apply (proj2 parseModelName_model_with_slashes); [discriminate | reflexivity].
Defined.

(** ** Failure of parseModelName *)

Lemma str_all_delimiter d x rest :
  str_all (is_not d) (x +:+ String d rest) = false.
Proof.
  rewrite str_all_app. simpl. rewrite is_not_refl. simpl. apply andb_false_r.
Qed.



Lemma parseModelName_Err_iff s e :
  parseModelName s = Err e <->
  e = InvalidReference s /\ forall re, re ∈ patterns -> FindStringSubmatch re s = None.
Proof.
  unfold parseModelName, patterns. simpl. split.
  - intros H.
    destruct (FindStringSubmatch pattern_host_namespace_model_tag s) eqn:E1; [done|].
    destruct (FindStringSubmatch pattern_namespace_model_tag s) eqn:E2; [done|].
    destruct (FindStringSubmatch pattern_namespace_model s) eqn:E3; [done|].
    destruct (FindStringSubmatch pattern_model_tag s) eqn:E4; [done|].
    destruct (FindStringSubmatch pattern_model s) eqn:E5; [done|].
    split; [congruence|]. intros re Hre.
    repeat (apply elem_of_cons in Hre as [->|Hre]; [done|]).
    by apply elem_of_nil in Hre.
  - intros [-> Hall].
    rewrite !Hall by set_solver. done.
Qed.




(** ** Paths *)

Import filepath.

Lemma elements_nonempty s : elements s <> [].
Proof.
  destruct s as [|c s]; simpl; [done|].
  destruct (Ascii.eqb c "/"); [done|]. by destruct (elements s).
Qed.

Lemma elements_no_slash e : str_all (is_not "/") e = true -> elements e = [e].
Proof.
  induction e as [|c e IH]; simpl; [done|].
  intros [Hc He]%andb_true_iff. unfold is_not in Hc.
  apply negb_true_iff in Hc. rewrite Hc, (IH He). done.
Qed.

Lemma elements_app_slash a b :
  elements (a +:+ String "/" b) = elements a ++ elements b.
Proof.
  induction a as [|c a IH]; [done|].
  rewrite str_app_cons. simpl. destruct (Ascii.eqb c "/").
  - by rewrite IH.
  - rewrite IH. pose proof (elements_nonempty a).
    by destruct (elements a).
Qed.

Lemma joinElements_cons e e' es :
  joinElements (e :: e' :: es) = e +:+ String "/" (joinElements (e' :: es)).
Proof. reflexivity. Qed.

Lemma joinElements_elements s : joinElements (elements s) = s.
Proof.
  induction s as [|c s IH]; [done|].
  simpl. pose proof (elements_nonempty s) as Hne.
  destruct (Ascii.eqb_spec c "/") as [->|_].
  - destruct (elements s) as [|e es]; [done|].
    rewrite joinElements_cons, IH. done.
  - destruct (elements s) as [|e es]; [done|].
    destruct es as [|e' es].
    + unfold joinElements in *. simpl in *. by rewrite IH.
    + rewrite joinElements_cons in *. rewrite str_app_cons. by rewrite IH.
Qed.

Lemma elements_joinElements es :
  es <> [] -> forallb (str_all (is_not "/")) es = true ->
  elements (joinElements es) = es.
Proof.
  induction es as [|e es IH]; [done|]. intros _ [He Hes]%andb_true_iff.
  destruct es as [|e' es].
  - by apply elements_no_slash.
  - rewrite joinElements_cons, elements_app_slash, elements_no_slash by done.
    by rewrite IH.
Qed.

Lemma plainb_spec e :
  plainb e = true ->
  e <> "" /\ e <> "." /\ e <> ".." /\ str_all (is_not "/") e = true.
Proof.
  unfold plainb. intros [[[H1 H2]%andb_true_iff H3]%andb_true_iff H4]%andb_true_iff.
  apply negb_true_iff, String.eqb_neq in H1, H2, H3. done.
Qed.

Lemma cleanStep_plain rooted out e :
  plainb e = true -> cleanStep rooted out e = e :: out.
Proof.
  intros (H1 & H2 & H3 & _)%plainb_spec. unfold cleanStep.
  apply String.eqb_neq in H1, H2, H3. by rewrite H1, H2, H3.
Qed.

Lemma fold_cleanStep_plain rooted es out :
  forallb plainb es = true ->
  fold_left (cleanStep rooted) es out = rev es ++ out.
Proof.
  revert out. induction es as [|e es IH]; intros out; [done|]. simpl.
  intros [He Hes]%andb_true_iff.
  rewrite cleanStep_plain, IH by done. by rewrite <- app_assoc.
Qed.

Lemma walkStep_plain at_rev e :
  plainb e = true -> os.walkStep at_rev e = e :: at_rev.
Proof.
  intros (H1 & H2 & H3 & _)%plainb_spec. unfold os.walkStep.
  apply String.eqb_neq in H1, H2, H3. by rewrite H1, H2, H3.
Qed.

Lemma fold_walkStep_plain es at_rev :
  forallb plainb es = true ->
  fold_left os.walkStep es at_rev = rev es ++ at_rev.
Proof.
  revert at_rev. induction es as [|e es IH]; intros at_rev; [done|]. simpl.
  intros [He Hes]%andb_true_iff.
  rewrite walkStep_plain, IH by done. by rewrite <- app_assoc.
Qed.

Lemma IsAbs_plain_head e rest : plainb e = true -> IsAbs (e +:+ rest) = false.
Proof.
  intros (H1 & _ & _ & H4)%plainb_spec. destruct e as [|c e]; [done|].
  simpl in H4. apply andb_true_iff in H4 as [Hc _].
  unfold is_not in Hc. apply negb_true_iff in Hc.
  unfold IsAbs. rewrite str_app_cons. simpl. by rewrite Hc.
Qed.

Lemma IsAbs_joinElements e es : plainb e = true -> IsAbs (joinElements (e :: es)) = false.
Proof.
  intros He. destruct es as [|e' es].
  - simpl. rewrite <- (str_app_nil_r e). by apply IsAbs_plain_head.
  - rewrite joinElements_cons. by apply IsAbs_plain_head.
Qed.

(** A relative path whose elements are all plain is clean already. *)
Lemma Clean_plain p : forallb plainb (elements p) = true -> Clean p = p.
Proof.
  intros Hp. pose proof (elements_nonempty p) as Hne.
  assert (IsAbs p = false) as Habs.
  { rewrite <- (joinElements_elements p).
    destruct (elements p) as [|e es]; [done|].
    simpl in Hp. apply andb_true_iff in Hp as [He _]. by apply IsAbs_joinElements. }
  unfold Clean. rewrite Habs, fold_cleanStep_plain by done.
  rewrite app_nil_r, rev_involutive.
  destruct (elements p) as [|e es] eqn:E; [done|].
  rewrite <- E. apply joinElements_elements.
Qed.

Lemma Join_plain e es :
  forallb plainb (elements (joinElements (e :: es))) = true ->
  Join (e :: es) = joinElements (e :: es).
Proof.
  intros Hp. simpl Join. destruct (String.eqb_spec e "") as [->|_].
  - exfalso. destruct es as [|e' es]; [done|].
    rewrite joinElements_cons in Hp. by rewrite elements_app_slash in Hp.
  - by apply Clean_plain.
Qed.

(** ** Manifests and file paths *)

Lemma str_all_drop p n s : str_all p s = true -> str_all p (str_drop n s) = true.
Proof.
  revert s. induction n as [|n IH]; intros [|c s]; simpl; try done.
  intros [_ Hs]%andb_true_iff. by apply IH.
Qed.

Lemma str_all_TrimPrefix p s prefix :
  str_all p s = true -> str_all p (TrimPrefix s prefix) = true.
Proof.
  unfold TrimPrefix. destruct (HasPrefix s prefix); [|done]. apply str_all_drop.
Qed.

(** The blobs of a manifest are the non-empty digests, the one of the
    config first and then those of the layers, in order, each under its
    blob name. *)
Lemma blobShas_filter c ls :
  blobShas {| Config := {| Digest := c |}; Layers := map mkDescriptor ls |}
  = map blobName (filter (fun d => d <> "") (c :: ls)).
Proof.
  unfold blobShas. simpl. rewrite filter_cons.
  assert (flat_map (fun layer => if String.eqb (Digest layer) "" then []
                                 else [blobName (Digest layer)])
                   (map mkDescriptor ls)
          = map blobName (filter (fun d => d <> "") ls)) as ->.
  { induction ls as [|l ls IH]; [done|]. simpl. rewrite filter_cons, IH.
    destruct (String.eqb_spec l ""); case_decide; done. }
  destruct (String.eqb_spec c ""); case_decide; done.
Qed.

Lemma blob_path_literal d :
  str_all (is_not "/") d = true ->
  Join ["blobs"; blobName d] = "blobs/" +:+ blobName d.
Proof.
  intros Hd. rewrite Join_plain; [done|].
  rewrite joinElements_cons.
  change (joinElements [blobName d]) with (blobName d).
  rewrite elements_app_slash.
  assert (str_all (is_not "/") (blobName d) = true) as Hb.
  { unfold blobName. rewrite str_all_app. by rewrite str_all_TrimPrefix. }
  rewrite (elements_no_slash (blobName d)) by done.
  simpl. unfold plainb. by rewrite Hb.
Qed.

Lemma manifest_path_literal modelName :
  forallb plainb (elements (manifestRelPath modelName)) = true ->
  Join ["manifests"; Host modelName; Namespace modelName; Model modelName;
        Tag modelName] = manifestRelPath modelName.
Proof. intros Hp. by rewrite Join_plain. Qed.

Section FilePaths.
Context `{Libraries}.

Lemma getFilePaths_run modelName modelPath mode uid gid data manifest w :
  os.nodeAt w (manifestAbsPath modelName modelPath)
  = Some (File mode uid gid data) ->
  json_Unmarshal data = Some manifest ->
  getFilePaths modelName modelPath w
  = (OK (Join ["manifests"; Host modelName; Namespace modelName;
               Model modelName; Tag modelName]
         :: map (fun sha => Join ["blobs"; sha]) (blobShas manifest)),
     log (CallReadFile (manifestAbsPath modelName modelPath)) w).
Proof.
  intros Hfile Hjson.
  unfold getFilePaths, parseManifest, mbind, IO_bind, bind, orFail, os.ReadFile.
  change (os.nodeAt (log _ w) ?p) with (os.nodeAt w p).
  fold (manifestAbsPath modelName modelPath).
  rewrite Hfile, Hjson. reflexivity.
Qed.

(** C2.  With a readable manifest file whose JSON content decodes to the
    config digest [c] and the layer digests [ls], [getFilePaths] returns
    the relative manifest path followed by the blob paths of the
    non-empty digests, config first and then the layers in order, each
    digest without its leading "sha256:" and with "sha256-" in front.
    The paths are built by [filepath.Join]: they are literally
    manifests/host/namespace/model/tag and blobs/name whenever these
    texts are clean paths.  For the digests "sha256:aa" and "sha256:bb"
    the list is the documented one. *)
Theorem getFilePaths_manifest_then_blobs
    modelName modelPath mode uid gid data c ls w :
  os.nodeAt w (manifestAbsPath modelName modelPath)
  = Some (File mode uid gid data) ->
  json_Unmarshal data
  = Some {| Config := {| Digest := c |}; Layers := map mkDescriptor ls |} ->
  getFilePaths modelName modelPath w
  = (OK (Join ["manifests"; Host modelName; Namespace modelName;
               Model modelName; Tag modelName]
         :: map (fun d => Join ["blobs"; "sha256-" +:+ TrimPrefix d "sha256:"])
                (filter (fun d => d <> "") (c :: ls))),
     log (CallReadFile (manifestAbsPath modelName modelPath)) w) /\
  (forallb plainb (elements (manifestRelPath modelName)) = true ->
   Join ["manifests"; Host modelName; Namespace modelName;
         Model modelName; Tag modelName] = manifestRelPath modelName) /\
  (forall d, str_all (is_not "/") d = true ->
             Join ["blobs"; "sha256-" +:+ TrimPrefix d "sha256:"]
             = "blobs/sha256-" +:+ TrimPrefix d "sha256:") /\
  (c = "sha256:aa" -> ls = ["sha256:bb"] ->
   forallb plainb (elements (manifestRelPath modelName)) = true ->
   getFilePaths modelName modelPath w
   = (OK [manifestRelPath modelName; "blobs/sha256-aa"; "blobs/sha256-bb"],
      log (CallReadFile (manifestAbsPath modelName modelPath)) w)).
Proof.
  intros Hfile Hjson.
  assert (getFilePaths modelName modelPath w
          = (OK (Join ["manifests"; Host modelName; Namespace modelName;
                       Model modelName; Tag modelName]
                 :: map (fun d => Join ["blobs"; blobName d])
                        (filter (fun d => d <> "") (c :: ls))),
             log (CallReadFile (manifestAbsPath modelName modelPath)) w)) as Hrun.
  { rewrite (getFilePaths_run _ _ _ _ _ _ _ _ Hfile Hjson).
    by rewrite blobShas_filter, map_map. }
  split_and!.
  - exact Hrun.
  - apply manifest_path_literal.
  - intros d Hd. apply (blob_path_literal d Hd).
  - intros -> -> Hplain. rewrite Hrun.
    by rewrite (manifest_path_literal _ Hplain).
Qed.

End FilePaths.

(** ** The storage root *)

(** C9, as stated, fails: a variable that is set to the empty string is
    not returned, the fallback is taken as if it were unset. *)
Lemma getOllamaModelsPath_empty_value :
  environ emptyValueWorld !! "OLLAMA_MODELS" = Some "" /\
  fst (getOllamaModelsPath emptyValueWorld) = OK "/home/u/.ollama/models" /\
  fst (getOllamaModelsPath emptyValueWorld) <> OK "".
Proof. split_and!; done. Qed.

(** C9, amended.  A non-empty value of OLLAMA_MODELS is returned as the
    root, without any file system call.  When the variable is unset or
    empty, the system-wide path is tested with [os.Stat] and returned
    when it exists; only otherwise the root is .ollama/models below the
    home directory, and an error when there is no home directory. *)
Theorem getOllamaModelsPath_order w :
  (forall v, environ w !! "OLLAMA_MODELS" = Some v -> v <> "" ->
             getOllamaModelsPath w = (OK v, w)) /\
  (environ w !! "OLLAMA_MODELS" = None \/ environ w !! "OLLAMA_MODELS" = Some "" ->
   (forall n, os.nodeAt w systemPath = Some n ->
              getOllamaModelsPath w = (OK systemPath, log (CallStat systemPath) w)) /\
   (os.nodeAt w systemPath = None ->
    forall home, environ w !! "HOME" = Some home -> home <> "" ->
                 getOllamaModelsPath w
                 = (OK (Join [home; ".ollama"; "models"]),
                    log (CallStat systemPath) w)) /\
   (os.nodeAt w systemPath = None ->
    environ w !! "HOME" = None \/ environ w !! "HOME" = Some "" ->
    getOllamaModelsPath w = (Err HomeDirError, log (CallStat systemPath) w))).
Proof.
  split.
  - intros v Hv Hne. unfold getOllamaModelsPath, os.Getenv. rewrite Hv. simpl.
    by apply String.eqb_neq in Hne as ->.
  - intros Hunset.
    assert (os.Getenv "OLLAMA_MODELS" w = "") as Hget.
    { unfold os.Getenv. by destruct Hunset as [-> | ->]. }
    unfold getOllamaModelsPath. rewrite Hget. simpl String.eqb. cbv iota.
    unfold os.Stat.
    change (os.nodeAt (log _ w) ?p) with (os.nodeAt w p).
    split_and!.
    + intros n ->. done.
    + intros -> home Hhome Hne. unfold os.UserHomeDir, os.Getenv.
      change (environ (log _ w)) with (environ w). rewrite Hhome.
      apply String.eqb_neq in Hne. cbn [default from_option id]. by rewrite Hne.
    + intros -> Hhome. unfold os.UserHomeDir, os.Getenv.
      change (environ (log _ w)) with (environ w).
      by destruct Hhome as [-> | ->].
Qed.

(** The version of cmd/util.go without the system-wide path goes from
    the variable straight to the home directory. *)
Lemma getOllamaModelsPath_home_skips_system_path w home :
  environ w !! "OLLAMA_MODELS" = None ->
  environ w !! "HOME" = Some home -> home <> "" ->
  getOllamaModelsPath_home w = (OK (Join [home; ".ollama"; "models"]), w).
Proof.
  intros Hunset Hhome Hne.
  unfold getOllamaModelsPath_home, os.UserHomeDir, os.Getenv.
  rewrite Hunset, Hhome. apply String.eqb_neq in Hne.
  cbn [default from_option id String.eqb]. by rewrite Hne.
Qed.

(** ** save on a terminal *)

Section Save.
Context `{Libraries}.

(** C6.  With standard output on a terminal, save fails with
    [RefusedTerminalOutput] whatever the model name is, and the world is
    left as it was: no call was made, no file was touched and nothing
    was written to standard output. *)
Theorem saveCmd_refuses_terminal modelNameStr w :
  stdout_tty w = true ->
  saveCmd_RunE modelNameStr w = (Err (RefusedTerminalOutput modelNameStr), w) /\
  calls (snd (saveCmd_RunE modelNameStr w)) = calls w /\
  stdout (snd (saveCmd_RunE modelNameStr w)) = stdout w /\
  fs (snd (saveCmd_RunE modelNameStr w)) = fs w.
Proof.
  intros Htty. unfold saveCmd_RunE. rewrite Htty. done.
Qed.

End Save.

(** ** File name suffixes *)

Lemma str_drop_app a b : str_drop (String.length a) (a +:+ b) = b.
Proof. induction a as [|c a IH]; [by destruct b|]. by rewrite str_app_cons. Qed.

Lemma str_take_drop n s : str_take n s +:+ str_drop n s = s.
Proof.
  revert s. induction n as [|n IH]; intros [|c s]; simpl; try done.
  by rewrite str_app_cons, IH.
Qed.

Lemma str_rev_app a b : str_rev (a +:+ b) = str_rev b +:+ str_rev a.
Proof.
  induction a as [|c a IH]; simpl.
  - by rewrite str_app_nil_l, str_app_nil_r.
  - by rewrite IH, str_app_assoc.
Qed.

Lemma HasSuffix_iff s suffix :
  HasSuffix s suffix = true <-> exists base, s = base +:+ suffix.
Proof.
  unfold HasSuffix. rewrite andb_true_iff, Nat.leb_le, String.eqb_eq. split.
  - intros [_ Hdrop].
    exists (str_take (String.length s - String.length suffix) s).
    rewrite <- (str_take_drop (String.length s - String.length suffix) s) at 1.
    by rewrite Hdrop.
  - intros [base ->]. rewrite str_length_app. split; [lia|].
    replace (String.length base + String.length suffix - String.length suffix)
      with (String.length base) by lia.
    apply str_drop_app.
Qed.

Lemma HasSuffix_app base suffix : HasSuffix (base +:+ suffix) suffix = true.
Proof. apply HasSuffix_iff. by exists base. Qed.

(** Two names with different last characters are different. *)
Ltac suffix_clash E :=
  apply (f_equal str_rev) in E; rewrite !str_rev_app in E;
  repeat match type of E with
  | context [str_rev (String ?c ?s)] =>
      let r := eval vm_compute in (str_rev (String c s)) in
      change (str_rev (String c s)) with r in E
  end;
  rewrite !str_app_cons in E; discriminate E.

Ltac not_suffix :=
  match goal with
  | |- context [HasSuffix ?s ?suffix] =>
      let E := fresh "E" in
      destruct (HasSuffix s suffix) eqn:E;
      [apply HasSuffix_iff in E as [? E]; suffix_clash E|]
  end.

Lemma codecOf_suffixes base :
  codecOf (base +:+ ".tar") = Some NoCodec /\
  codecOf (base +:+ ".tar.gz") = Some Gzip /\
  codecOf (base +:+ ".tar.bz") = Some Bzip2 /\
  codecOf (base +:+ ".tar.bz2") = Some Bzip2 /\
  codecOf (base +:+ ".tar.xz") = Some Xz.
Proof.
  unfold codecOf. split_and!.
  - do 4 not_suffix. by rewrite HasSuffix_app.
  - not_suffix. by rewrite HasSuffix_app.
  - do 2 not_suffix. by rewrite HasSuffix_app, orb_true_r.
  - do 2 not_suffix. by rewrite HasSuffix_app.
  - by rewrite HasSuffix_app.
Qed.

Lemma codecOf_None fileName :
  (forall suffix, suffix ∈ suffixes -> ~ exists base, fileName = base +:+ suffix) ->
  codecOf fileName = None.
Proof.
  intros Hno. unfold codecOf.
  assert (forall suffix, suffix ∈ suffixes -> HasSuffix fileName suffix = false) as Hs.
  { intros suffix Hin. destruct (HasSuffix fileName suffix) eqn:E; [|done].
    apply HasSuffix_iff in E. by destruct (Hno suffix Hin). }
  unfold suffixes in Hs. rewrite !Hs by set_solver. done.
Qed.

(** ** load: the choice of the reader *)

Lemma getOllamaUIDGID_frame w :
  fs (snd (getOllamaUIDGID w)) = fs w /\
  cwd (snd (getOllamaUIDGID w)) = cwd w /\
  privileged (snd (getOllamaUIDGID w)) = privileged w.
Proof.
  unfold getOllamaUIDGID, os.LookupUser, os.LookupGroup.
  change (passwd (log _ w)) with (passwd w).
  destruct (passwd w !! "ollama") as [u|]; [|done].
  change (groups (log _ (log _ w))) with (groups w).
  destruct (groups w !! "ollama") as [g|]; [|done].
  destruct (Atoi u); [|done]. by destruct (Atoi g).
Qed.

Section Load.
Context `{Libraries}.

(** What [extractTarball] does once the ids are known and the archive
    is open. *)
Lemma extractTarball_opened fileName destPath w uid gid w1 file :
  getOllamaUIDGID w = (OK (uid, gid), w1) ->
  os.nodeAt w fileName = Some file ->
  extractTarball fileName destPath w
  = match codecOf fileName with
    | None => (Err (UnsupportedFormat fileName), log (CallOpen fileName) w1)
    | Some codec =>
        match newTarReader codec file with
        | Err e => (Err e, log (CallOpen fileName) w1)
        | OK tarReader =>
            extractEntries uid gid destPath tarReader (log (CallOpen fileName) w1)
        end
    end.
Proof.
  intros Hids Hfile.
  assert (os.nodeAt w1 fileName = Some file) as Hfile1.
  { pose proof (getOllamaUIDGID_frame w) as (Hfs & Hcwd & _).
    rewrite Hids in Hfs, Hcwd. simpl in Hfs, Hcwd.
    unfold os.nodeAt, os.resolve in *. by rewrite Hfs, Hcwd. }
  unfold extractTarball, mbind, IO_bind, bind, orFail. rewrite Hids.
  unfold os.Open. change (os.nodeAt (log _ w1) ?p) with (os.nodeAt w1 p).
  rewrite Hfile1. destruct (codecOf fileName) as [codec|]; [|done].
  by destruct (newTarReader codec file).
Qed.

Lemma extractTarball_unsupported fileName destPath w :
  codecOf fileName = None ->
  (exists e, fst (extractTarball fileName destPath w) = Err e) /\
  fs (snd (extractTarball fileName destPath w)) = fs w.
Proof.
  intros Hnone. pose proof (getOllamaUIDGID_frame w) as (Hfs & _ & _).
  unfold extractTarball, mbind, IO_bind, bind, orFail.
  destruct (getOllamaUIDGID w) as [[[uid gid]|e] w1]; simpl in Hfs; [|by eauto].
  unfold os.Open. destruct (os.nodeAt _ fileName); simpl; [|by eauto].
  rewrite Hnone. simpl. by eauto.
Qed.

(** C5, amended.  A file name that ends in none of .tar, .tar.gz,
    .tar.bz, .tar.bz2 and .tar.xz makes the extraction fail without any
    change to the file tree; the failure is [UnsupportedFormat] when the
    account lookup did not fail and the archive could be opened, which
    come first.  A name with one of the suffixes selects no codec, gzip,
    bzip2, bzip2 and xz, and the reader of that codec is the one the
    extraction reads. *)
Theorem extractTarball_suffix fileName destPath w :
  ((forall suffix, suffix ∈ suffixes -> ~ exists base, fileName = base +:+ suffix) ->
   (exists e, fst (extractTarball fileName destPath w) = Err e) /\
   fs (snd (extractTarball fileName destPath w)) = fs w /\
   (forall ids w1 file,
       getOllamaUIDGID w = (OK ids, w1) -> os.nodeAt w fileName = Some file ->
       fst (extractTarball fileName destPath w) = Err (UnsupportedFormat fileName))) /\
  (forall base,
      codecOf (base +:+ ".tar") = Some NoCodec /\
      codecOf (base +:+ ".tar.gz") = Some Gzip /\
      codecOf (base +:+ ".tar.bz") = Some Bzip2 /\
      codecOf (base +:+ ".tar.bz2") = Some Bzip2 /\
      codecOf (base +:+ ".tar.xz") = Some Xz) /\
  (forall codec uid gid w1 file tarReader,
      codecOf fileName = Some codec ->
      getOllamaUIDGID w = (OK (uid, gid), w1) ->
      os.nodeAt w fileName = Some file ->
      newTarReader codec file = OK tarReader ->
      extractTarball fileName destPath w
      = extractEntries uid gid destPath tarReader (log (CallOpen fileName) w1)).
Proof.
  split_and!.
  - intros Hno. apply codecOf_None in Hno.
    destruct (extractTarball_unsupported fileName destPath w Hno) as [He Hfs].
    split_and!; [done|done|].
    intros [uid gid] w1 file Hids Hfile.
    by rewrite (extractTarball_opened _ _ _ _ _ _ _ Hids Hfile), Hno.
  - apply codecOf_suffixes.
  - intros codec uid gid w1 file tarReader Hc Hids Hfile Hr.
    by rewrite (extractTarball_opened _ _ _ _ _ _ _ Hids Hfile), Hc, Hr.
Qed.

End Load.

(** C5, as stated, fails: for a name without a known suffix that names no
    file, the failure is the one of [os.Open], which comes before the
    suffix is looked at. *)
Lemma extractTarball_missing_zip :
  codecOf "/tmp/llama2.zip" = None /\
  os.nodeAt exampleWorld "/tmp/llama2.zip" = None /\
  fst (@extractTarball testLibraries "/tmp/llama2.zip" "/restore" exampleWorld)
  = Err OpenError /\
  fst (@extractTarball testLibraries "/tmp/llama2.zip" "/restore" exampleWorld)
  <> Err (UnsupportedFormat "/tmp/llama2.zip").
Proof. split_and!; [reflexivity | reflexivity | by vm_compute | by vm_compute]. Qed.

(** ** save: the archive writer *)

Lemma nodeAt_same w w' path :
  fs w' = fs w -> cwd w' = cwd w -> os.nodeAt w' path = os.nodeAt w path.
Proof. intros Hfs Hcwd. unfold os.nodeAt, os.resolve. by rewrite Hfs, Hcwd. Qed.

Lemma savedEntry_same w w' modelPath relPath :
  fs w' = fs w -> cwd w' = cwd w ->
  savedEntry w' modelPath relPath = savedEntry w modelPath relPath.
Proof. intros Hfs Hcwd. unfold savedEntry. by rewrite (nodeAt_same w w'). Qed.

Lemma writeEntry_file modelPath relPath w h data :
  savedEntry w modelPath relPath = Some (h, data) ->
  exists w',
    writeEntry modelPath relPath w = (OK tt, w') /\
    fs w' = fs w /\ cwd w' = cwd w /\
    stdout w' = stdout w ++ [WroteHeader h; WroteData data].
Proof.
  unfold savedEntry. intros Hsaved.
  destruct (os.nodeAt w (Join [modelPath; relPath])) as [file|] eqn:Hfile; [|done].
  simpl in Hsaved. destruct file as [mode uid gid content|]; [|done].
  injection Hsaved as <- <-.
  unfold writeEntry, mbind, IO_bind, bind, orFail, os.Stat, os.Open, os.ReadAll,
    tar.WriteHeader, tar.Write.
  change (os.nodeAt (log _ w) ?p) with (os.nodeAt w p). rewrite Hfile.
  cbv beta iota.
  change (os.nodeAt (log _ (emit _ (log _ (log _ w)))) ?p) with (os.nodeAt w p).
  rewrite Hfile. eexists. split; [reflexivity|]. simpl.
  by rewrite <- app_assoc.
Qed.

Lemma writeEntries_files modelPath relativePaths :
  forall w entries,
    Forall2 (fun relPath e => savedEntry w modelPath relPath = Some e)
            relativePaths entries ->
    exists w',
      writeEntries modelPath relativePaths w = (OK tt, w') /\
      fs w' = fs w /\ cwd w' = cwd w /\
      stdout w' = stdout w ++ eventsOf entries.
Proof.
  induction relativePaths as [|relPath rest IH]; intros w entries Hall.
  - apply Forall2_nil_inv_l in Hall as ->. exists w.
    by rewrite app_nil_r.
  - apply Forall2_cons_inv_l in Hall as ([h data] & entries' & Hhd & Htl & ->).
    destruct (writeEntry_file _ _ _ _ _ Hhd) as (w1 & Hrun & Hfs & Hcwd & Hout).
    destruct (IH w1 entries') as (w2 & Hrun2 & Hfs2 & Hcwd2 & Hout2).
    { eapply Forall2_impl; [exact Htl|]. intros p e Hp. simpl in Hp.
      by rewrite (savedEntry_same w w1). }
    exists w2. simpl. unfold mbind, IO_bind, bind. rewrite Hrun, Hrun2.
    split_and!; [done|congruence|congruence|].
    rewrite Hout2, Hout. by rewrite <- app_assoc.
Qed.

(** C4.  When every listed path names a regular file below the storage
    root, [createTarball] succeeds and standard output receives one header
    and the content of the file for each path, in list order, and then the
    end of the archive; the name of each header is the relative path, its
    mode the mode bits of the file and its size the length of the file.
    The file tree is not changed. *)
Theorem createTarball_entries modelPath relativePaths w :
  Forall (fun relPath => isFile (os.nodeAt w (Join [modelPath; relPath])))
         relativePaths ->
  exists entries w',
    createTarball modelPath relativePaths w = (OK tt, w') /\
    fs w' = fs w /\
    stdout w' = stdout w ++ eventsOf entries ++ [Closed] /\
    Forall2 (fun relPath e =>
               Name (fst e) = relPath /\ Type_ (fst e) = TypeReg /\
               exists mode uid gid,
                 os.nodeAt w (Join [modelPath; relPath])
                 = Some (File mode uid gid (snd e)) /\
                 Mode (fst e) = Z.land mode 4095 /\
                 Size (fst e) = Z.of_nat (String.length (snd e)))
            relativePaths entries.
Proof.
  intros Hfiles.
  assert (exists entries,
             Forall2 (fun relPath e => savedEntry w modelPath relPath = Some e)
                     relativePaths entries) as [entries Hsaved].
  { induction Hfiles as [|relPath rest Hfile _ [entries IH]]; [by exists []|].
    destruct (os.nodeAt w (Join [modelPath; relPath])) as [[mode uid gid content|]|] eqn:E;
      try done.
    eexists (_ :: entries). constructor; [|exact IH].
    unfold savedEntry. rewrite E. reflexivity. }
  destruct (writeEntries_files _ _ _ _ Hsaved) as (w1 & Hrun & Hfs & Hcwd & Hout).
  exists entries, (tar.Close w1). split_and!.
  - unfold createTarball, defer. by rewrite Hrun.
  - done.
  - simpl. rewrite Hout. by rewrite <- app_assoc.
  - eapply Forall2_impl; [exact Hsaved|]. intros relPath [h data] Hs.
    unfold savedEntry in Hs.
    destruct (os.nodeAt w (Join [modelPath; relPath])) as [[mode uid gid content|]|];
      try done.
    injection Hs as <- <-. simpl. split_and!; try done. by exists mode, uid, gid.
Qed.

(** ** The file tree *)

Import os.

Lemma lookupTree_nonempty f k : k <> [] -> lookupTree f k = f !! k.
Proof. by destruct k. Qed.

Lemma lookupTree_insert f k n k' :
  k <> [] ->
  lookupTree (<[k := n]> f) k' = if decide (k = k') then Some n else lookupTree f k'.
Proof.
  intros Hk. destruct k' as [|e k'].
  - by rewrite decide_False.
  - simpl. apply lookup_insert.
Qed.

Lemma isFile_shape n : isFile n <-> exists content, shape n = Some (Some content).
Proof.
  destruct n as [[mode uid gid content|mode uid gid]|]; simpl; split;
    try done; try (by intros [? ?]); eauto.
Qed.

Lemma isDirectory_shape n : isDirectory n <-> shape n = Some None.
Proof. by destruct n as [[mode uid gid content|mode uid gid]|]. Qed.

Lemma mkdirAll_cons w perm e rk f :
  mkdirAll w perm (e :: rk) f
  = match lookupTree f (rev (e :: rk)) with
    | Some (Directory _ _ _) => Some f
    | Some (File _ _ _ _) => None
    | None =>
        match mkdirAll w perm rk f with
        | Some f' =>
            Some (<[rev (e :: rk) := Directory (masked perm w) (euid w) (egid w)]> f')
        | None => None
        end
    end.
Proof. reflexivity. Qed.

(** [mkdirAll] succeeds when no file is in the way; it leaves a directory
    at the key and only adds directories, at prefixes of the key where
    nothing was. *)
Lemma mkdirAll_spec w perm rk f :
  (forall k, k `prefix_of` rev rk -> ~ isFile (lookupTree f k)) ->
  exists f',
    mkdirAll w perm rk f = Some f' /\
    isDirectory (lookupTree f' (rev rk)) /\
    forall k, lookupTree f' k = lookupTree f k \/
              (lookupTree f k = None /\ k `prefix_of` rev rk /\
               isDirectory (lookupTree f' k)).
Proof.
  induction rk as [|e rk IH]; intros Hfree.
  - exists f. simpl. split_and!; [done|done|]. by left.
  - assert (rev (e :: rk) <> []) as Hne.
    { simpl. by destruct (rev rk). }
    specialize (Hfree _ (reflexivity _)) as Hself.
    destruct (lookupTree f (rev (e :: rk))) as [[mode uid gid content|mode uid gid]|] eqn:E.
    + by destruct Hself.
    + exists f. rewrite mkdirAll_cons, E. split_and!; [done|done|]. by left.
    + destruct IH as (f1 & Hrun & Hdir & Hframe).
      { intros k Hk. apply Hfree. simpl. by apply prefix_app_r. }
      exists (<[rev (e :: rk) := Directory (masked perm w) (euid w) (egid w)]> f1).
      rewrite mkdirAll_cons, E, Hrun. split_and!; [done|..].
      * by rewrite lookupTree_insert, decide_True.
      * intros k. rewrite lookupTree_insert by done.
        destruct (decide (rev (e :: rk) = k)) as [<-|Hk].
        -- right. by rewrite E.
        -- destruct (Hframe k) as [->|(Hnone & Hpre & Hd)]; [by left|].
           right. split_and!; [done| |done]. simpl. by apply prefix_app_r.
Qed.

Lemma sameProcess_trans w1 w2 w3 :
  sameProcess w1 w2 -> sameProcess w2 w3 -> sameProcess w1 w3.
Proof. intros [? ?] [? ?]. split; congruence. Qed.

Lemma resolve_same w w' path : sameProcess w w' -> resolve w' path = resolve w path.
Proof. intros [Hcwd _]. unfold resolve. by rewrite Hcwd. Qed.

Lemma MkdirAll_ok path perm w :
  path <> "" ->
  (forall k, k `prefix_of` resolve w path -> ~ isFile (lookupTree (fs w) k)) ->
  exists w',
    MkdirAll path perm w = (OK tt, w') /\ sameProcess w w' /\
    isDirectory (lookupTree (fs w') (resolve w path)) /\
    forall k, lookupTree (fs w') k = lookupTree (fs w) k \/
              (lookupTree (fs w) k = None /\ k `prefix_of` resolve w path /\
               isDirectory (lookupTree (fs w') k)).
Proof.
  intros Hne Hfree. unfold MkdirAll.
  apply String.eqb_neq in Hne. rewrite Hne.
  change (resolve (log _ w) path) with (resolve w path).
  change (fs (log _ w)) with (fs w).
  destruct (mkdirAll_spec (log (CallMkdirAll path) w) perm (rev (resolve w path)) (fs w))
    as (f' & Hrun & Hdir & Hframe).
  { by rewrite rev_involutive. }
  rewrite rev_involutive in Hdir, Hframe.
  rewrite Hrun. eexists. split; [reflexivity|]. by split_and!.
Qed.

Lemma chownIfKnown_ok path uid gid w :
  path <> "" ->
  lookupTree (fs w) (resolve w path) <> None ->
  (uid = (-1)%Z \/ gid = (-1)%Z \/ privileged w = true) ->
  exists w',
    chownIfKnown path uid gid w = (OK tt, w') /\ sameProcess w w' /\
    forall k, shape (lookupTree (fs w') k) = shape (lookupTree (fs w) k).
Proof.
  intros Hne Hnode Hids. unfold chownIfKnown.
  destruct (negb (uid =? -1)%Z && negb (gid =? -1)%Z) eqn:Hknown.
  - destruct Hids as [-> | [-> | Hpriv]];
      [by rewrite ?andb_false_r in Hknown..|].
    unfold orFail, Chown. apply String.eqb_neq in Hne. rewrite Hne.
    change (resolve (log _ w) path) with (resolve w path).
    change (fs (log _ w)) with (fs w).
    change (privileged (log _ w)) with (privileged w). rewrite Hpriv. simpl.
    destruct (lookupTree (fs w) (resolve w path))
      as [[mode u g content|mode u g]|] eqn:E; [| |done].
    + eexists. split; [reflexivity|]. split; [done|]. intros k. simpl.
      assert (resolve w path <> []) as Hk.
      { intros Hnil. by rewrite Hnil in E. }
      rewrite lookupTree_insert by done. case_decide as Hd; [|done].
      subst k. by rewrite E.
    + destruct (resolve w path) as [|e k0] eqn:Hk.
      * eexists. split; [reflexivity|]. done.
      * eexists. split; [reflexivity|]. split; [done|]. intros k. simpl fs.
        rewrite lookupTree_insert by done. case_decide as Hd; [|done].
        subst k. by rewrite E.
  - exists w. done.
Qed.

Lemma OpenFile_ok path perm w :
  path <> "" ->
  ~ isDirectory (lookupTree (fs w) (resolve w path)) ->
  isDirectory (lookupTree (fs w) (removelast (resolve w path))) ->
  exists w',
    OpenFile path perm w = (OK (resolve w path), w') /\ sameProcess w w' /\
    shape (lookupTree (fs w') (resolve w path)) = Some (Some "") /\
    forall k, k <> resolve w path -> lookupTree (fs w') k = lookupTree (fs w) k.
Proof.
  intros Hne Hnodir Hparent. unfold OpenFile.
  apply String.eqb_neq in Hne. rewrite Hne.
  change (resolve (log _ w) path) with (resolve w path).
  change (fs (log _ w)) with (fs w).
  assert (resolve w path <> []) as Hk.
  { intros Hnil. rewrite Hnil in Hnodir. by destruct Hnodir. }
  destruct (lookupTree (fs w) (resolve w path))
    as [[mode u g content|mode u g]|] eqn:E.
  - eexists. split; [reflexivity|]. split; [done|]. simpl fs. split.
    + by rewrite lookupTree_insert, decide_True.
    + intros k Hkk. by rewrite lookupTree_insert, decide_False.
  - by destruct Hnodir.
  - destruct (lookupTree (fs w) (removelast (resolve w path)))
      as [[mode u g content|mode u g]|]; [done| |done].
    eexists. split; [reflexivity|]. split; [done|]. simpl fs. split.
    + by rewrite lookupTree_insert, decide_True.
    + intros k Hkk. by rewrite lookupTree_insert, decide_False.
Qed.

Lemma Write_ok path k data w content :
  k <> [] ->
  shape (lookupTree (fs w) k) = Some (Some content) ->
  exists w',
    os.Write path k data w = (OK tt, w') /\ sameProcess w w' /\
    shape (lookupTree (fs w') k) = Some (Some (content +:+ data)) /\
    forall k', k' <> k -> lookupTree (fs w') k' = lookupTree (fs w) k'.
Proof.
  intros Hk Hfile. unfold os.Write. change (fs (log _ w)) with (fs w).
  rewrite lookupTree_nonempty in Hfile by done.
  destruct (fs w !! k) as [[mode u g content'|mode u g]|]; [|done|done].
  injection Hfile as ->.
  eexists. split; [reflexivity|]. split; [done|]. simpl fs. split.
  - by rewrite lookupTree_insert, decide_True.
  - intros k' Hkk. by rewrite lookupTree_insert, decide_False.
Qed.

(** ** load: one file of the archive *)

Lemma removelast_not_prefix (T : list string) :
  T <> [] -> ~ T `prefix_of` removelast T.
Proof.
  intros Hne. destruct (exists_last Hne) as (l & x & ->).
  rewrite removelast_last. apply prefix_snoc_not.
Qed.

Lemma extractFile_ok uid gid targetPath header data w :
  targetPath <> "" -> Dir targetPath <> "" ->
  resolve w (Dir targetPath) = removelast (resolve w targetPath) ->
  (forall k, k `prefix_of` resolve w (Dir targetPath) ->
             ~ isFile (lookupTree (fs w) k)) ->
  ~ isDirectory (lookupTree (fs w) (resolve w targetPath)) ->
  (uid = (-1)%Z \/ gid = (-1)%Z \/ privileged w = true) ->
  exists w',
    extractFile uid gid targetPath header data true w = (OK tt, w') /\
    sameProcess w w' /\
    shape (lookupTree (fs w') (resolve w targetPath)) = Some (Some data) /\
    forall k, k <> resolve w targetPath ->
              shape (lookupTree (fs w') k) = shape (lookupTree (fs w) k) \/
              (lookupTree (fs w) k = None /\
               k `prefix_of` resolve w (Dir targetPath) /\
               shape (lookupTree (fs w') k) = Some None).
Proof.
  intros Hne Hdne Hparent Hfree Hnodir Hids.
  set (T := resolve w targetPath) in *. set (A := resolve w (Dir targetPath)) in *.
  assert (T <> []) as HT.
  { intros Hnil. rewrite Hnil in Hnodir. by destruct Hnodir. }
  assert (~ T `prefix_of` A) as HTA.
  { rewrite Hparent. by apply removelast_not_prefix. }
  (* the parent directories *)
  destruct (MkdirAll_ok (Dir targetPath) ModePerm w Hdne Hfree)
    as (w1 & Hrun1 & Hsame1 & Hdir1 & Hframe1).
  fold A in Hdir1, Hframe1.
  assert (lookupTree (fs w1) T = lookupTree (fs w) T) as HT1.
  { destruct (Hframe1 T) as [?|(_ & ? & _)]; done. }
  (* their owner *)
  destruct (chownIfKnown_ok (Dir targetPath) uid gid w1) as (w2 & Hrun2 & Hsame2 & Hshape2).
  { done. }
  { rewrite (resolve_same w w1) by done. fold A. intros Hnone.
    by rewrite Hnone in Hdir1. }
  { destruct Hsame1 as [_ ->]. done. }
  pose proof (sameProcess_trans _ _ _ Hsame1 Hsame2) as Hsame12.
  (* the file *)
  destruct (OpenFile_ok targetPath (Mode header) w2) as (w3 & Hrun3 & Hsame3 & Hnew3 & Hframe3).
  { done. }
  { rewrite (resolve_same w w2) by done. fold T.
    rewrite isDirectory_shape, Hshape2, HT1, <- isDirectory_shape. done. }
  { rewrite (resolve_same w w2) by done. fold T. rewrite <- Hparent.
    apply isDirectory_shape. rewrite Hshape2. by apply isDirectory_shape. }
  rewrite (resolve_same w w2) in Hrun3, Hnew3, Hframe3 by done. fold T in Hrun3, Hnew3, Hframe3.
  pose proof (sameProcess_trans _ _ _ Hsame12 Hsame3) as Hsame13.
  (* its content *)
  destruct (Write_ok targetPath T data w3 "" HT Hnew3) as (w4 & Hrun4 & Hsame4 & Hnew4 & Hframe4).
  rewrite str_app_nil_l in Hnew4.
  pose proof (sameProcess_trans _ _ _ Hsame13 Hsame4) as Hsame14.
  (* its owner *)
  destruct (chownIfKnown_ok targetPath uid gid w4) as (w5 & Hrun5 & Hsame5 & Hshape5).
  { done. }
  { rewrite (resolve_same w w4) by done. fold T. intros Hnone.
    by rewrite Hnone in Hnew4. }
  { destruct Hsame14 as [_ ->]. done. }
  exists w5. split_and!.
  - unfold extractFile, mbind, IO_bind, bind, orFail.
    rewrite Hrun1, Hrun2, Hrun3, Hrun4. unfold ret. by rewrite Hrun5.
  - by apply (sameProcess_trans _ _ _ Hsame14).
  - by rewrite Hshape5.
  - intros k Hk. rewrite Hshape5, Hframe4, Hframe3, Hshape2 by done.
    destruct (Hframe1 k) as [->|(Hnone & Hpre & Hd)]; [by left|].
    right. split_and!; [done|done|]. by apply isDirectory_shape.
Qed.

(** ** load: the entries of an archive *)

Lemma shape_None n : shape n = None <-> n = None.
Proof. by destruct n as [[mode uid gid content|mode uid gid]|]. Qed.

Lemma fits_tail w w1 destPath e rest :
  fits w destPath (e :: rest) ->
  sameProcess w w1 ->
  (exists data, shape (lookupTree (fs w1) (resolve w (targetOf destPath e)))
                = Some (Some data)) ->
  (forall k, k <> resolve w (targetOf destPath e) ->
             shape (lookupTree (fs w1) k) = shape (lookupTree (fs w) k) \/
             (lookupTree (fs w) k = None /\
              k `prefix_of` resolve w (Dir (targetOf destPath e)) /\
              shape (lookupTree (fs w1) k) = Some None)) ->
  fits w1 destPath rest.
Proof.
  intros [Hentry Hapart Hsame] Hproc [data Hnew] Hframe.
  assert (forall path, resolve w1 path = resolve w path) as Hres
    by (intros path; by apply resolve_same).
  split.
  - intros e' He'. assert (e' ∈ e :: rest) as Hin by (apply elem_of_cons; by right).
    destruct (Hentry e' Hin) as (Hty & Hne & Hdne & Hpar & Hfree & Hnodir).
    rewrite !Hres. split_and!; try done.
    + intros k Hk Hfile.
      destruct (decide (k = resolve w (targetOf destPath e))) as [->|Hke].
      * apply (Hapart e e'); [apply elem_of_cons; by left|done|done].
      * destruct (Hframe k Hke) as [Hs|(_ & _ & Hs)].
        -- apply (Hfree k Hk). apply isFile_shape. rewrite <- Hs. by apply isFile_shape.
        -- apply isFile_shape in Hfile as [c Hc]. congruence.
    + intros Hdir.
      destruct (decide (resolve w (targetOf destPath e')
                        = resolve w (targetOf destPath e))) as [Heq|Hke].
      * apply isDirectory_shape in Hdir. rewrite Heq in Hdir. congruence.
      * destruct (Hframe _ Hke) as [Hs|(_ & Hpre & _)].
        -- apply Hnodir. apply isDirectory_shape. rewrite <- Hs. by apply isDirectory_shape.
        -- apply (Hapart e' e); [done|apply elem_of_cons; by left|done].
  - intros e1 e2 H1 H2. rewrite !Hres. apply Hapart; apply elem_of_cons; by right.
  - intros e1 e2 H1 H2. rewrite !Hres. apply Hsame; apply elem_of_cons; by right.
Qed.

Lemma extractEntries_fits uid gid destPath entries :
  forall w,
    fits w destPath entries ->
    (uid = (-1)%Z \/ gid = (-1)%Z \/ privileged w = true) ->
    exists w',
      extractEntries uid gid destPath (streamOf entries) w = (OK tt, w') /\
      sameProcess w w' /\
      (forall e, e ∈ entries ->
                 shape (lookupTree (fs w') (resolve w (targetOf destPath e)))
                 = Some (Some (snd e))) /\
      (forall k, (forall e, e ∈ entries -> k <> resolve w (targetOf destPath e)) ->
                 shape (lookupTree (fs w') k) = shape (lookupTree (fs w) k) \/
                 (lookupTree (fs w) k = None /\
                  shape (lookupTree (fs w') k) = Some None)).
Proof.
  induction entries as [|e rest IH]; intros w Hfits Hids.
  - exists w. split_and!; [done|done| |by left].
    intros e He. by apply elem_of_nil in He.
  - destruct (fits_entry _ _ _ Hfits e) as (Hty & Hne & Hdne & Hpar & Hfree & Hnodir);
      [apply elem_of_cons; by left|].
    destruct (extractFile_ok uid gid (targetOf destPath e) (fst e) (snd e) w
                Hne Hdne Hpar Hfree Hnodir Hids)
      as (w1 & Hrun1 & Hproc1 & Hnew1 & Hframe1).
    assert (fits w1 destPath rest) as Hfits1
      by (eapply fits_tail; eauto).
    assert (forall path, resolve w1 path = resolve w path) as Hres
      by (intros path; by apply resolve_same).
    destruct (IH w1 Hfits1) as (w' & Hrun & Hproc & Hdone & Hframe).
    { destruct Hproc1 as [_ ->]. done. }
    exists w'. split_and!.
    + destruct e as [h data]. simpl streamOf. cbn [extractEntries].
      change (Join [destPath; Name h]) with (targetOf destPath (h, data)).
      simpl in Hty, Hrun1. unfold mbind, IO_bind, bind.
      destruct (Type_ h); [|done|]; by rewrite Hrun1.
    + by apply (sameProcess_trans _ _ _ Hproc1).
    + intros e0 He0.
      destruct (decide (Exists (fun e' => resolve w (targetOf destPath e')
                                          = resolve w (targetOf destPath e0)) rest))
        as [Hex|Hnex].
      * apply Exists_exists in Hex as (e' & He' & Heq).
        rewrite <- Heq, <- Hres, (Hdone e' He').
        do 2 f_equal.
        apply (fits_same _ _ _ Hfits); [apply elem_of_cons; by right|done|done].
      * apply elem_of_cons in He0 as [->|He0].
        -- destruct (Hframe (resolve w (targetOf destPath e))) as [->|[Hnone _]].
           ++ intros e' He' Heq. apply Hnex, Exists_exists. exists e'.
              rewrite Hres in Heq. done.
           ++ done.
           ++ rewrite Hnone in Hnew1. done.
        -- destruct Hnex. apply Exists_exists. by exists e0.
    + intros k Hk.
      assert (k <> resolve w (targetOf destPath e)) as Hke
        by (apply Hk; apply elem_of_cons; by left).
      destruct (Hframe k) as [Hs|[Hnone Hs]].
      { intros e' He'. rewrite Hres. apply Hk. apply elem_of_cons. by right. }
      * rewrite Hs. destruct (Hframe1 k Hke) as [?|(? & _ & ?)]; [by left|by right].
      * right. split; [|done].
        destruct (Hframe1 k Hke) as [Hs1|(? & _ & Hs1)]; [|done].
        rewrite Hnone in Hs1. symmetry in Hs1. by apply shape_None in Hs1.
Qed.

(** ** Clean paths *)

Lemma Clean_render p :
  Clean p = render (IsAbs p) (rev (fold_left (cleanStep (IsAbs p)) (elements p) [])).
Proof. reflexivity. Qed.

Lemma elements_all_no_slash p :
  forallb (str_all (is_not "/")) (elements p) = true.
Proof.
  induction p as [|c p IH]; [done|]. simpl.
  destruct (Ascii.eqb c "/") eqn:Hc; [done|].
  pose proof (elements_nonempty p) as Hne.
  destruct (elements p) as [|e es]; [done|]. simpl in *.
  unfold is_not at 1. by rewrite Hc.
Qed.

Lemma keptb_spec e :
  keptb e = true -> e <> "" /\ e <> "." /\ str_all (is_not "/") e = true.
Proof.
  unfold keptb. intros [[H1 H2]%andb_true_iff H3]%andb_true_iff.
  apply negb_true_iff, String.eqb_neq in H1, H2. done.
Qed.

Lemma plainb_keptb e : plainb e = true -> keptb e = true.
Proof.
  intros (H1 & H2 & _ & H4)%plainb_spec. unfold keptb.
  apply String.eqb_neq in H1, H2. by rewrite H1, H2, H4.
Qed.

Lemma kept_no_slash es :
  forallb keptb es = true -> forallb (str_all (is_not "/")) es = true.
Proof.
  induction es as [|e es IH]; [done|]. simpl.
  intros [He Hes]%andb_true_iff. apply keptb_spec in He as (_ & _ & ->).
  by rewrite IH.
Qed.

Lemma cleanStep_kept abs st e :
  forallb keptb st = true -> str_all (is_not "/") e = true ->
  forallb keptb (cleanStep abs st e) = true.
Proof.
  intros Hst He. unfold cleanStep.
  destruct (String.eqb_spec e "") as [->|H1]; [done|].
  destruct (String.eqb_spec e ".") as [->|H2]; [done|]. cbn [orb].
  destruct (String.eqb_spec e "..") as [->|H3].
  - destruct st as [|top st]; [by destruct abs|].
    simpl in Hst. apply andb_true_iff in Hst as [Htop Hst'].
    destruct (String.eqb top ".."); [|done]. simpl. by rewrite Htop, Hst'.
  - simpl. rewrite Hst, andb_true_r. unfold keptb.
    apply String.eqb_neq in H1, H2. by rewrite H1, H2, He.
Qed.

Lemma fold_cleanStep_kept abs es :
  forall st,
    forallb keptb st = true -> forallb (str_all (is_not "/")) es = true ->
    forallb keptb (fold_left (cleanStep abs) es st) = true.
Proof.
  induction es as [|e es IH]; intros st Hst Hes; [done|]. simpl in *.
  apply andb_true_iff in Hes as [He Hes]. apply IH; [|done].
  by apply cleanStep_kept.
Qed.

Lemma walkStep_empty at_rev : walkStep at_rev "" = at_rev.
Proof. reflexivity. Qed.

Lemma walkStep_kept at_rev e :
  keptb e = true -> e <> ".." -> walkStep at_rev e = e :: at_rev.
Proof.
  intros (H1 & H2 & _)%keptb_spec H3. unfold walkStep.
  apply String.eqb_neq in H1, H2, H3. by rewrite H1, H2, H3.
Qed.

Lemma fold_walkStep_snoc es e at_rev :
  fold_left walkStep (es ++ [e]) at_rev = walkStep (fold_left walkStep es at_rev) e.
Proof. by rewrite fold_left_app. Qed.

(** One step of [Clean] is one step of the walk. *)
Lemma walk_cleanStep abs base st e :
  forallb keptb st = true -> (abs = true -> base = []) ->
  fold_left walkStep (rev (cleanStep abs st e)) base
  = walkStep (fold_left walkStep (rev st) base) e.
Proof.
  intros Hst Hbase. unfold cleanStep.
  destruct (String.eqb_spec e "") as [->|H1]; [done|].
  destruct (String.eqb_spec e ".") as [->|H2]; [done|]. cbn [orb].
  destruct (String.eqb_spec e "..") as [->|H3].
  - destruct st as [|top st].
    + destruct abs; [by rewrite Hbase|done].
    + simpl in Hst. apply andb_true_iff in Hst as [Htop Hst'].
      destruct (String.eqb_spec top "..") as [->|Htop'].
      * change (rev (".." :: ".." :: st)) with (rev (".." :: st) ++ [".."]).
        by rewrite fold_walkStep_snoc.
      * change (rev (top :: st)) with (rev st ++ [top]).
        rewrite fold_walkStep_snoc, (walkStep_kept _ top) by done. done.
  - change (rev (e :: st)) with (rev st ++ [e]). by rewrite fold_walkStep_snoc.
Qed.

(** [Clean] does not change where a path leads. *)
Lemma walk_clean abs base es :
  forall st,
    forallb keptb st = true -> (abs = true -> base = []) ->
    forallb (str_all (is_not "/")) es = true ->
    fold_left walkStep (rev (fold_left (cleanStep abs) es st)) base
    = fold_left walkStep es (fold_left walkStep (rev st) base).
Proof.
  induction es as [|e es IH]; intros st Hst Hbase Hes; [done|]. simpl in *.
  apply andb_true_iff in Hes as [He Hes].
  rewrite IH by (done || by apply cleanStep_kept).
  by rewrite walk_cleanStep.
Qed.

Lemma elements_render abs es :
  forallb (str_all (is_not "/")) es = true ->
  elements (render abs es)
  = match abs, es with
    | true, [] => [""; ""]
    | true, _ => "" :: es
    | false, [] => ["."]
    | false, _ => es
    end.
Proof.
  intros Hplain.
  destruct abs, es as [|e es]; try done.
  - unfold render. rewrite str_app_cons, str_app_nil_l. simpl elements.
    change (Ascii.eqb "/" "/") with true. cbv iota.
    by rewrite elements_joinElements.
  - unfold render. by rewrite elements_joinElements.
Qed.

Lemma IsAbs_head e rest :
  e <> "" -> str_all (is_not "/") e = true -> IsAbs (e +:+ rest) = false.
Proof.
  intros H1 H4. destruct e as [|c e]; [done|].
  simpl in H4. apply andb_true_iff in H4 as [Hc _].
  unfold is_not in Hc. apply negb_true_iff in Hc.
  unfold IsAbs. rewrite str_app_cons. simpl. by rewrite Hc.
Qed.

Lemma IsAbs_render abs es : forallb keptb es = true -> IsAbs (render abs es) = abs.
Proof.
  intros Hkept. destruct abs; [reflexivity|]. destruct es as [|e es]; [reflexivity|].
  simpl in Hkept. apply andb_true_iff in Hkept as [(He & _ & Hs)%keptb_spec _].
  unfold render. destruct es as [|e' es].
  - change (joinElements [e]) with e. rewrite <- (str_app_nil_r e).
    by apply IsAbs_head.
  - rewrite joinElements_cons. by apply IsAbs_head.
Qed.

Lemma render_nonempty abs es : forallb keptb es = true -> render abs es <> "".
Proof.
  intros Hkept. destruct abs; [done|]. destruct es as [|e es]; [done|].
  simpl in Hkept. apply andb_true_iff in Hkept as [(He & _)%keptb_spec _].
  unfold render. destruct es as [|e' es]; [done|].
  rewrite joinElements_cons. by destruct e.
Qed.

Lemma forallb_reverse {A} (f : A -> bool) l : forallb f (rev l) = forallb f l.
Proof.
  induction l as [|x l IH]; [done|]. simpl.
  rewrite forallb_app, IH. simpl. rewrite andb_true_r. apply andb_comm.
Qed.

Lemma Clean_kept p :
  forallb keptb (rev (fold_left (cleanStep (IsAbs p)) (elements p) [])) = true.
Proof.
  rewrite forallb_reverse. apply fold_cleanStep_kept; [done|].
  apply elements_all_no_slash.
Qed.

Lemma Clean_nonempty p : Clean p <> "".
Proof. rewrite Clean_render. apply render_nonempty, Clean_kept. Qed.

Lemma fold_walkStep_render abs es base :
  forallb keptb es = true ->
  fold_left walkStep (elements (render abs es)) base = fold_left walkStep es base.
Proof.
  intros Hkept. rewrite elements_render by (by apply kept_no_slash).
  by destruct abs, es as [|e es].
Qed.

(** A path and its clean form lead to the same place. *)
Lemma resolve_Clean w p : resolve w (Clean p) = resolve w p.
Proof.
  unfold resolve. rewrite Clean_render.
  pose proof (Clean_kept p) as Hkept.
  rewrite IsAbs_render, fold_walkStep_render by done.
  rewrite walk_clean; [done|done| |apply elements_all_no_slash].
  by intros ->.
Qed.

Lemma resolve_empty w : resolve w "" = cwd w.
Proof. unfold resolve. simpl. apply rev_involutive. Qed.

Lemma IsAbs_app d rest : d <> "" -> IsAbs (d +:+ rest) = IsAbs d.
Proof. by destruct d. Qed.

(** Below a directory, a local path leads to its elements. *)
Lemma resolve_Join w d p :
  isLocal p = true -> resolve w (Join [d; p]) = resolve w d ++ elements p.
Proof.
  intros Hp. unfold isLocal in Hp.
  assert (p <> "") as Hpne by (by intros ->).
  assert (forall q, elements q = elements d ++ elements p -> IsAbs q = IsAbs d ->
                    resolve w q = resolve w d ++ elements p) as Hwalk.
  { intros q Hq Habs. unfold resolve. rewrite Hq, Habs, fold_left_app.
    rewrite fold_walkStep_plain by done.
    by rewrite rev_app_distr, rev_involutive. }
  cbn [Join]. destruct (String.eqb_spec d "") as [->|Hd].
  - apply String.eqb_neq in Hpne. rewrite Hpne.
    change (joinElements [p]) with p. rewrite resolve_Clean, resolve_empty.
    unfold resolve. rewrite fold_walkStep_plain by done.
    replace (IsAbs p) with false.
    + by rewrite rev_app_distr, !rev_involutive.
    + symmetry. rewrite <- (joinElements_elements p).
      pose proof (elements_nonempty p) as Hne.
      destruct (elements p) as [|e es]; [done|].
      simpl in Hp. apply andb_true_iff in Hp as [He _]. by apply IsAbs_joinElements.
  - rewrite resolve_Clean. rewrite joinElements_cons.
    change (joinElements [p]) with p. apply Hwalk.
    + apply elements_app_slash.
    + by apply IsAbs_app.
Qed.

Lemma has_slash_elements t :
  elements t = [t] /\ has_slash t = false \/
  exists e1 e2 es, elements t = e1 :: e2 :: es /\ has_slash t = true.
Proof.
  induction t as [|c t IH]; [by left|]. simpl. unfold has_slash in *. simpl.
  unfold is_not at 1 3.
  destruct (Ascii.eqb c "/") eqn:Hc; simpl.
  - right. pose proof (elements_nonempty t) as Hne.
    destruct (elements t) as [|e es]; [done|]. by exists "", e, es.
  - destruct IH as [[-> ->]|(e1 & e2 & es & -> & ->)]; [by left|].
    right. by exists (String c e1), e2, es.
Qed.

(** The elements in front of the last separator. *)
Lemma elements_dirPrefix t :
  elements (dirPrefix t) = removelast (elements t) ++ [""].
Proof.
  induction t as [|c t IH]; [done|]. cbn [dirPrefix].
  destruct (has_slash_elements t) as [[Hel Hs]|(e1 & e2 & es & Hel & Hs)]; rewrite Hs.
  - simpl. rewrite Hel. by destruct (Ascii.eqb c "/").
  - simpl. rewrite IH, Hel. by destruct (Ascii.eqb c "/").
Qed.

Lemma IsAbs_dirPrefix t : IsAbs (dirPrefix t) = IsAbs t.
Proof.
  destruct t as [|c t]; [done|]. cbn [dirPrefix].
  destruct (has_slash t); [done|]. unfold IsAbs. simpl.
  by destruct (Ascii.eqb c "/").
Qed.

(** The directory of a path that ends in a plain element is its parent. *)
Lemma resolve_Dir w t :
  plainb (List.last (elements t) "") = true ->
  resolve w (Dir t) = removelast (resolve w t).
Proof.
  intros Hlast. unfold Dir. rewrite resolve_Clean. unfold resolve.
  rewrite IsAbs_dirPrefix, elements_dirPrefix, fold_walkStep_snoc, walkStep_empty.
  rewrite (app_removelast_last "" (elements_nonempty t)) at 2.
  rewrite fold_walkStep_snoc, walkStep_plain by done.
  simpl rev. by rewrite removelast_last.
Qed.

Lemma last_app_nonempty (a b : list string) d :
  b <> [] -> List.last (a ++ b) d = List.last b d.
Proof.
  intros Hb. induction a as [|x a IH]; [done|].
  simpl. destruct (a ++ b) eqn:E; [|done].
  apply app_eq_nil in E as [_ ?]. done.
Qed.

Lemma elements_Join_last d p :
  isLocal p = true ->
  List.last (elements (Join [d; p])) "" = List.last (elements p) "".
Proof.
  intros Hp. unfold isLocal in Hp.
  pose proof (elements_nonempty p) as Hne.
  assert (p <> "") as Hpne by (by intros ->).
  assert (forall q, elements q = elements d ++ elements p \/ elements q = elements p ->
            List.last (elements (Clean q)) "" = List.last (elements p) "") as Hq.
  { intros q Hel. rewrite Clean_render.
    pose proof (Clean_kept q) as Hkept.
    assert (exists L, rev (fold_left (cleanStep (IsAbs q)) (elements q) [])
                      = L ++ elements p) as [L HL].
    { destruct Hel as [-> | ->].
      - rewrite fold_left_app, fold_cleanStep_plain by done.
        rewrite rev_app_distr, rev_involutive. by eexists.
      - rewrite fold_cleanStep_plain by done.
        rewrite app_nil_r, rev_involutive. by exists []. }
    rewrite HL in *. rewrite elements_render by (by apply kept_no_slash).
    assert (L ++ elements p <> []) as Hne'.
    { intros E. apply app_eq_nil in E as [_ ?]. done. }
    destruct (IsAbs q), (L ++ elements p) as [|x xs] eqn:E; try done.
    - change ("" :: x :: xs) with ([""] ++ (x :: xs)).
      rewrite last_app_nonempty by done. rewrite <- E. by apply last_app_nonempty.
    - rewrite <- E. by apply last_app_nonempty. }
  cbn [Join]. destruct (String.eqb_spec d "") as [->|Hd].
  - apply String.eqb_neq in Hpne. rewrite Hpne. apply Hq. by right.
  - rewrite joinElements_cons. change (joinElements [p]) with p.
    apply Hq. left. apply elements_app_slash.
Qed.

Lemma isLocal_last p : isLocal p = true -> plainb (List.last (elements p) "") = true.
Proof.
  unfold isLocal. intros Hp. pose proof (elements_nonempty p) as Hne.
  rewrite (app_removelast_last "" Hne), forallb_app in Hp.
  apply andb_true_iff in Hp as [_ Hp]. simpl in Hp. by rewrite andb_true_r in Hp.
Qed.

(** Where a local path below a directory leads, and its parent. *)
Lemma join_target w d p :
  isLocal p = true ->
  Join [d; p] <> "" /\ Dir (Join [d; p]) <> "" /\
  resolve w (Join [d; p]) = resolve w d ++ elements p /\
  resolve w (Dir (Join [d; p])) = resolve w d ++ removelast (elements p) /\
  resolve w (Dir (Join [d; p])) = removelast (resolve w (Join [d; p])).
Proof.
  intros Hp.
  assert (Join [d; p] <> "") as Hne.
  { cbn [Join]. destruct (String.eqb d ""); [|apply Clean_nonempty].
    destruct (String.eqb_spec p "") as [->|_]; [done|apply Clean_nonempty]. }
  assert (resolve w (Dir (Join [d; p])) = removelast (resolve w (Join [d; p]))) as Hdir.
  { apply resolve_Dir. rewrite elements_Join_last by done. by apply isLocal_last. }
  split_and!; try done.
  - apply Clean_nonempty.
  - by apply resolve_Join.
  - rewrite Hdir, resolve_Join by done.
    apply removelast_app, elements_nonempty.
Qed.

(** ** load without the ollama account *)











Lemma readBack_eventsOf entries :
  readBack (eventsOf entries ++ [Closed]) = streamOf entries.
Proof.
  induction entries as [|[h data] entries IH]; [done|].
  simpl. by rewrite IH.
Qed.








Lemma fits_same_tree w w' destPath entries :
  fs w' = fs w -> cwd w' = cwd w ->
  fits w destPath entries -> fits w' destPath entries.
Proof.
  intros Hfs Hcwd [Hentry Hapart Hsame].
  assert (forall path, resolve w' path = resolve w path) as Hres.
  { intros path. unfold resolve. by rewrite Hcwd. }
  split.
  - intros e He. rewrite !Hres, Hfs. by apply Hentry.
  - intros e e' He He'. rewrite !Hres. by apply Hapart.
  - intros e e' He He'. rewrite !Hres. by apply Hsame.
Qed.

Section LoadWithoutAccount.
Context `{Libraries}.


End LoadWithoutAccount.

(** ** save and load *)

Lemma prefix_app_cases (k D X : list string) :
  k `prefix_of` D ++ X ->
  k `prefix_of` D \/ exists k', k' <> [] /\ k = D ++ k' /\ k' `prefix_of` X.
Proof.
  revert D. induction k as [|x k IH]; intros D Hpre.
  - left. apply prefix_nil.
  - destruct D as [|d D].
    + right. exists (x :: k). done.
    + simpl in Hpre. pose proof (prefix_cons_inv_1 _ _ _ _ Hpre) as ->.
      apply prefix_cons_inv_2 in Hpre.
      destruct (IH D Hpre) as [Hl|(k' & Hne & -> & Hk')].
      * left. by apply prefix_cons.
      * right. exists k'. done.
Qed.

Lemma contentOf_shape n content :
  contentOf n = Some content <-> shape n = Some (Some content).
Proof.
  destruct n as [[mode uid gid c|mode uid gid]|]; simpl; split; try done;
    by intros [= ->].
Qed.

Lemma Forall2_elem_of_r {A B} (P : A -> B -> Prop) l k y :
  Forall2 P l k -> y ∈ k -> exists x, x ∈ l /\ P x y.
Proof.
  induction 1 as [|x y' l k Hxy _ IH]; intros Hy; [by apply elem_of_nil in Hy|].
  apply elem_of_cons in Hy as [->|Hy].
  - exists x. split; [apply elem_of_cons; by left|done].
  - destruct (IH Hy) as (x' & Hx' & HP). exists x'.
    split; [apply elem_of_cons; by right|done].
Qed.

Lemma Forall2_elem_of_l {A B} (P : A -> B -> Prop) l k x :
  Forall2 P l k -> x ∈ l -> exists y, y ∈ k /\ P x y.
Proof.
  induction 1 as [|x' y l k Hxy _ IH]; intros Hx; [by apply elem_of_nil in Hx|].
  apply elem_of_cons in Hx as [->|Hx].
  - exists y. split; [apply elem_of_cons; by left|done].
  - destruct (IH Hx) as (y' & Hy' & HP). exists y'.
    split; [apply elem_of_cons; by right|done].
Qed.

Lemma nodeAt_Join w d p :
  isLocal p = true ->
  os.nodeAt w (Join [d; p]) = lookupTree (fs w) (resolve w d ++ elements p).
Proof.
  intros Hp. destruct (join_target w d p Hp) as (Hne & _ & Hres & _).
  unfold os.nodeAt. apply String.eqb_neq in Hne. by rewrite Hne, Hres.
Qed.

Lemma savedEntry_inv w modelPath p e :
  isLocal p = true ->
  savedEntry w modelPath p = Some e ->
  Name (fst e) = p /\ Type_ (fst e) = TypeReg /\
  shape (lookupTree (fs w) (resolve w modelPath ++ elements p)) = Some (Some (snd e)).
Proof.
  intros Hp. unfold savedEntry. rewrite nodeAt_Join by done.
  destruct (lookupTree _ _) as [[mode uid gid content|mode uid gid]|]; simpl; [|done|done].
  by intros [= <-].
Qed.

(** The entries saved from local paths of a file tree fit into an empty
    root. *)
Lemma saved_entries_fit w modelPath paths entries w2 destPath :
  Forall (fun p => isLocal p = true) paths ->
  Forall2 (fun p e => savedEntry w modelPath p = Some e) paths entries ->
  filesAreLeaves (fs w) ->
  emptyRoot (fs w2) (resolve w2 destPath) ->
  fits w2 destPath entries.
Proof.
  intros Hlocal Hsaved Hleaves [Hbelow Habove].
  assert (forall e, e ∈ entries ->
            exists p, p ∈ paths /\ isLocal p = true /\
                      savedEntry w modelPath p = Some e /\
                      targetOf destPath e = Join [destPath; p] /\
                      shape (lookupTree (fs w) (resolve w modelPath ++ elements p))
                      = Some (Some (snd e))) as Hfrom.
  { intros e He. destruct (Forall2_elem_of_r _ _ _ _ Hsaved He) as (p & Hp & Hs).
    rewrite Forall_forall in Hlocal. pose proof (Hlocal p Hp) as Hl.
    destruct (savedEntry_inv _ _ _ _ Hl Hs) as (Hname & _ & Hshape).
    exists p. split_and!; try done. unfold targetOf. by rewrite Hname. }
  split.
  - intros e He. destruct (Hfrom e He) as (p & Hp & Hl & Hs & -> & Hshape).
    destruct (savedEntry_inv _ _ _ _ Hl Hs) as (_ & Hty & _).
    destruct (join_target w2 destPath p Hl) as (Hne & Hdne & Hres & Hdir & Hpar).
    split_and!; try done.
    + by rewrite Hty.
    + intros k Hk. rewrite Hdir in Hk.
      destruct (prefix_app_cases _ _ _ Hk) as [Hup|(k' & Hk' & -> & _)].
      * by apply Habove.
      * rewrite Hbelow; [simpl; tauto|by apply prefix_app_r|].
        intros Heq. rewrite <- (app_nil_r (resolve w2 destPath)) in Heq at 2.
        by apply app_inv_head in Heq.
    + rewrite Hres. rewrite Hbelow; [simpl; tauto|by apply prefix_app_r|].
      intros Heq. rewrite <- (app_nil_r (resolve w2 destPath)) in Heq at 2.
      apply app_inv_head in Heq. by apply (elements_nonempty p).
  - intros e e' He He' Hpre.
    destruct (Hfrom e He) as (p & Hp & Hl & Hs & Ht & Hshape).
    destruct (Hfrom e' He') as (p' & Hp' & Hl' & Hs' & Ht' & Hshape').
    rewrite Ht, Ht' in Hpre.
    destruct (join_target w2 destPath p Hl) as (_ & _ & Hres & _).
    destruct (join_target w2 destPath p' Hl') as (_ & _ & _ & Hdir' & _).
    rewrite Hres, Hdir' in Hpre. apply prefix_app_inv in Hpre.
    pose proof (elements_nonempty p') as Hne'.
    destruct (exists_last Hne') as (q & x & Hq). rewrite Hq, removelast_last in Hpre.
    assert (lookupTree (fs w) (resolve w modelPath ++ elements p') = None) as Hnone.
    { apply (Hleaves (resolve w modelPath ++ elements p)).
      - apply isFile_shape. eauto.
      - apply prefix_app. rewrite Hq. by apply prefix_app_r.
      - intros Heq. apply app_inv_head in Heq. rewrite Hq in Heq.
        rewrite Heq in Hpre. by apply prefix_snoc_not in Hpre. }
    by rewrite Hnone in Hshape'.
  - intros e e' He He' Heq.
    destruct (Hfrom e He) as (p & Hp & Hl & Hs & Ht & Hshape).
    destruct (Hfrom e' He') as (p' & Hp' & Hl' & Hs' & Ht' & Hshape').
    rewrite Ht, Ht' in Heq.
    destruct (join_target w2 destPath p Hl) as (_ & _ & Hres & _).
    destruct (join_target w2 destPath p' Hl') as (_ & _ & Hres' & _).
    rewrite Hres, Hres' in Heq. apply app_inv_head in Heq.
    assert (p = p') as <-.
    { rewrite <- (joinElements_elements p), <- (joinElements_elements p'). by rewrite Heq. }
    congruence.
Qed.

Lemma files_savedEntries w modelPath relativePaths :
  Forall (fun relPath => isFile (os.nodeAt w (Join [modelPath; relPath])))
         relativePaths ->
  exists entries,
    Forall2 (fun relPath e => savedEntry w modelPath relPath = Some e)
            relativePaths entries.
Proof.
  induction 1 as [|relPath rest Hfile _ [entries IH]]; [by exists []|].
  destruct (os.nodeAt w (Join [modelPath; relPath])) as [[mode uid gid content|]|] eqn:E;
    try done.
  eexists (_ :: entries). constructor; [|exact IH].
  unfold savedEntry. rewrite E. reflexivity.
Qed.

Section RoundTrip.
Context `{Libraries}.

(** C3.  A model directory: regular files at local paths below the
    storage root, in a file tree.  [createTarball] succeeds on it; and
    when the bytes it wrote are the content of a file named *.tar that
    the tar reader reads back as written, [extractTarball] of that file
    into an empty root succeeds, for a process without the ollama account
    or with the right to change owners, and every path of the model names
    below the new root a file with the content it has below the old
    one. *)
Theorem save_load_round_trip w modelPath relativePaths :
  Forall (fun p => isLocal p = true) relativePaths ->
  Forall (fun p => isFile (os.nodeAt w (Join [modelPath; p]))) relativePaths ->
  filesAreLeaves (fs w) ->
  stdout w = [] ->
  exists w1,
    createTarball modelPath relativePaths w = (OK tt, w1) /\
    forall w2 destPath fileName mode u g uid gid w2',
      emptyRoot (fs w2) (resolve w2 destPath) ->
      os.nodeAt w2 fileName = Some (File mode u g (TarBytes (stdout w1))) ->
      codecOf fileName = Some NoCodec ->
      StreamOf NoCodec (TarBytes (stdout w1)) = Some (readBack (stdout w1)) ->
      getOllamaUIDGID w2 = (OK (uid, gid), w2') ->
      (uid = (-1)%Z \/ gid = (-1)%Z \/ privileged w2 = true) ->
      exists w3,
        extractTarball fileName destPath w2 = (OK tt, w3) /\
        forall p, p ∈ relativePaths ->
          exists content,
            contentOf (os.nodeAt w (Join [modelPath; p])) = Some content /\
            contentOf (os.nodeAt w3 (Join [destPath; p])) = Some content.
Proof.
  intros Hlocal Hfiles Hleaves Hout.
  destruct (files_savedEntries _ _ _ Hfiles) as [entries Hsaved].
  destruct (writeEntries_files _ _ _ _ Hsaved) as (w1 & Hrun & Hfs & Hcwd & Hout1).
  exists (tar.Close w1). split.
  { unfold createTarball, defer. by rewrite Hrun. }
  intros w2 destPath fileName mode u g uid gid w2' Hempty Hfile Hcodec Hlib Hids Hmay.
  assert (stdout (tar.Close w1) = eventsOf entries ++ [Closed]) as Hevents.
  { simpl. by rewrite Hout1, Hout. }
  rewrite Hevents, readBack_eventsOf in Hlib. rewrite Hevents in Hfile.
  pose proof (getOllamaUIDGID_frame w2) as (Hfs2 & Hcwd2 & Hpriv2).
  rewrite Hids in Hfs2, Hcwd2, Hpriv2. simpl in Hfs2, Hcwd2, Hpriv2.
  pose proof (saved_entries_fit _ _ _ _ _ _ Hlocal Hsaved Hleaves Hempty) as Hfits.
  destruct (extractEntries_fits uid gid destPath entries (log (CallOpen fileName) w2'))
    as (w3 & Hext & Hproc & Hdone & _).
  { by apply (fits_same_tree w2). }
  { change (privileged (log _ w2')) with (privileged w2'). by rewrite Hpriv2. }
  exists w3. split.
  { rewrite (extractTarball_opened _ _ _ _ _ _ _ Hids Hfile), Hcodec.
    unfold newTarReader. by rewrite Hlib. }
  intros p Hp. destruct (Forall2_elem_of_l _ _ _ _ Hsaved Hp) as (e & He & Hs).
  rewrite Forall_forall in Hlocal. pose proof (Hlocal p Hp) as Hl.
  destruct (savedEntry_inv _ _ _ _ Hl Hs) as (Hname & _ & Hshape).
  exists (snd e). split.
  - apply contentOf_shape. by rewrite nodeAt_Join.
  - apply contentOf_shape. unfold os.nodeAt.
    destruct (join_target w3 destPath p Hl) as (Hne & _).
    apply String.eqb_neq in Hne. rewrite Hne.
    rewrite <- (Hdone e He). unfold targetOf. rewrite Hname.
    by rewrite (resolve_same _ _ _ Hproc).
Qed.

End RoundTrip.

(** ** The example model directory *)

Lemma isFile_isFileNode f k :
  isFile (lookupTree f k) -> exists n, f !! k = Some n /\ isFileNode n = true.
Proof.
  destruct k as [|e k]; [done|]. simpl.
  destruct (f !! (e :: k)) as [[mode uid gid content|mode uid gid]|]; [|done|done].
  intros _. by eexists.
Qed.

Lemma filesAreLeavesb_sound f : filesAreLeavesb f = true -> filesAreLeaves f.
Proof.
  unfold filesAreLeavesb. intros Hcheck%bool_decide_eq_true k k' Hfile Hpre Hne.
  apply isFile_isFileNode in Hfile as (n & Hk & Hn).
  pose proof (Hcheck k n Hk Hn) as Hall.
  destruct k' as [|e' k'].
  { apply prefix_nil_inv in Hpre. by subst k. }
  simpl. destruct (f !! (e' :: k')) as [n'|] eqn:Hk'; [|done].
  destruct Hne. by apply (Hall _ _ Hk').
Qed.

Lemma emptyRootb_sound f place : emptyRootb f place = true -> emptyRoot f place.
Proof.
  unfold emptyRootb. intros Hcheck%bool_decide_eq_true. split.
  - intros k Hpre Hne. destruct k as [|e k].
    { apply prefix_nil_inv in Hpre. by subst place. }
    simpl. destruct (f !! (e :: k)) as [n|] eqn:Hk; [|done].
    destruct Hne. by apply (Hcheck _ _ Hk).
  - intros k Hpre Hfile. apply isFile_isFileNode in Hfile as (n & Hk & Hn).
    destruct (Hcheck _ _ Hk) as [_ Hnofile]. rewrite Hnofile in Hn; done.
Qed.

Lemma example_files :
  Forall (fun p => isFile (os.nodeAt exampleWorld (Join ["/models"; p]))) examplePaths.
Proof. repeat constructor. Qed.

Lemma example_saved :
  Forall2 (fun p e => savedEntry exampleWorld "/models" p = Some e)
          examplePaths exampleEntries.
Proof. repeat constructor. Qed.

Lemma example_local : Forall (fun p => isLocal p = true) examplePaths.
Proof. repeat constructor. Qed.

Lemma example_leaves : filesAreLeaves (fs exampleWorld).
Proof. apply filesAreLeavesb_sound. by vm_compute. Qed.

Lemma example_empty_root :
  emptyRoot (fs exampleWorld) (resolve exampleWorld "/restore/").
Proof. apply emptyRootb_sound. by vm_compute. Qed.

Lemma example_fits : fits exampleWorld "/restore/" exampleEntries.
Proof.
  apply (saved_entries_fit exampleWorld "/models" examplePaths exampleEntries).
  - exact example_local.
  - exact example_saved.
  - exact example_leaves.
  - exact example_empty_root.
Qed.

(** ** The properties on the example *)

Lemma getFilePaths_manifest_then_blobs_witness :
  os.nodeAt exampleWorld (@manifestAbsPath exampleModel "/models")
  = Some (File 420 0 0 exampleManifestText) /\
  @json_Unmarshal testLibraries exampleManifestText
  = Some {| Config := {| Digest := "sha256:aa" |};
            Layers := map mkDescriptor ["sha256:bb"] |} /\
  forallb plainb (elements (manifestRelPath exampleModel)) = true /\
  @getFilePaths testLibraries exampleModel "/models" exampleWorld
  = (OK examplePaths,
     log (CallReadFile (manifestAbsPath exampleModel "/models")) exampleWorld).
Proof.
  assert (os.nodeAt exampleWorld (@manifestAbsPath exampleModel "/models")
          = Some (File 420 0 0 exampleManifestText)) as H1 by reflexivity.
  assert (@json_Unmarshal testLibraries exampleManifestText
          = Some {| Config := {| Digest := "sha256:aa" |};
                    Layers := map mkDescriptor ["sha256:bb"] |}) as H2 by reflexivity.
  assert (forallb plainb (elements (manifestRelPath exampleModel)) = true) as H3
    by reflexivity.
  split_and!; [exact H1 | exact H2 | exact H3 |].
  apply (proj2 (proj2 (proj2
    (@getFilePaths_manifest_then_blobs testLibraries exampleModel "/models"
       420 0 0 exampleManifestText "sha256:aa" ["sha256:bb"] exampleWorld H1 H2))));
    [reflexivity | reflexivity | exact H3].
Defined.

Lemma createTarball_entries_witness :
  Forall (fun p => isFile (os.nodeAt exampleWorld (Join ["/models"; p]))) examplePaths /\
  exists entries w',
    createTarball "/models" examplePaths exampleWorld = (OK tt, w') /\
    fs w' = fs exampleWorld /\
    stdout w' = stdout exampleWorld ++ eventsOf entries ++ [Closed] /\
    Forall2 (fun relPath e =>
               Name (fst e) = relPath /\ Type_ (fst e) = TypeReg /\
               exists mode uid gid,
                 os.nodeAt exampleWorld (Join ["/models"; relPath])
                 = Some (File mode uid gid (snd e)) /\
                 Mode (fst e) = Z.land mode 4095 /\
                 Size (fst e) = Z.of_nat (String.length (snd e)))
            examplePaths entries.
Proof.
  split; [exact example_files|].
  exact (createTarball_entries "/models" examplePaths exampleWorld example_files).
Defined.

Lemma no_known_suffix fileName :
  forallb (fun suffix => negb (HasSuffix fileName suffix)) suffixes = true ->
  forall suffix, suffix ∈ suffixes -> ~ exists base, fileName = base +:+ suffix.
Proof.
  intros Hall suffix Hin Hex. apply HasSuffix_iff in Hex.
  rewrite forallb_forall in Hall. specialize (Hall suffix).
  rewrite Hex in Hall. apply list_elem_of_In in Hin. by specialize (Hall Hin).
Qed.

Lemma extractTarball_suffix_witness :
  (forall suffix, suffix ∈ suffixes ->
                  ~ exists base, "/models/blobs/sha256-aa" = base +:+ suffix) /\
  fst (@extractTarball testLibraries "/models/blobs/sha256-aa" "/restore" exampleWorld)
  = Err (UnsupportedFormat "/models/blobs/sha256-aa") /\
  fs (snd (@extractTarball testLibraries "/models/blobs/sha256-aa" "/restore"
             exampleWorld))
  = fs exampleWorld /\
  @extractTarball testLibraries "/tmp/llama2.tar" "/restore" exampleWorld
  = extractEntries (-1) (-1) "/restore" exampleArchive
      (log (CallOpen "/tmp/llama2.tar") (log (CallLookupUser "ollama") exampleWorld)).
Proof.
  assert (forall suffix, suffix ∈ suffixes ->
            ~ exists base, "/models/blobs/sha256-aa" = base +:+ suffix) as Hno
    by (apply no_known_suffix; reflexivity).
  pose proof (@extractTarball_suffix testLibraries "/models/blobs/sha256-aa"
                "/restore" exampleWorld) as (Hbad & _ & _).
  destruct (Hbad Hno) as (_ & Hfs & Hkind).
  split_and!; [exact Hno | | exact Hfs |].
  - apply (Hkind ((-1)%Z, (-1)%Z) (log (CallLookupUser "ollama") exampleWorld)
                 (File 420 0 0 "config")); reflexivity.
  - apply (proj2 (proj2 (@extractTarball_suffix testLibraries "/tmp/llama2.tar"
                           "/restore" exampleWorld))
             NoCodec (-1)%Z (-1)%Z (log (CallLookupUser "ollama") exampleWorld)
             (File 420 1000 1000 "llama2 archive") exampleArchive);
      reflexivity.
Defined.

Lemma saveCmd_refuses_terminal_witness :
  stdout_tty exampleTerminal = true /\
  @saveCmd_RunE testLibraries "llama2" exampleTerminal
  = (Err (RefusedTerminalOutput "llama2"), exampleTerminal).
Proof.
  split; [reflexivity|].
  apply (@saveCmd_refuses_terminal testLibraries "llama2" exampleTerminal).
  reflexivity.
Defined.

Lemma getOllamaModelsPath_order_witness :
  environ exampleWorld !! "OLLAMA_MODELS" = Some "/models" /\
  getOllamaModelsPath exampleWorld = (OK "/models", exampleWorld) /\
  environ systemWorld !! "OLLAMA_MODELS" = None /\
  getOllamaModelsPath systemWorld
  = (OK systemPath, log (CallStat systemPath) systemWorld) /\
  environ emptyValueWorld !! "OLLAMA_MODELS" = Some "" /\
  os.nodeAt emptyValueWorld systemPath = None /\
  getOllamaModelsPath emptyValueWorld
  = (OK (Join ["/home/u"; ".ollama"; "models"]),
     log (CallStat systemPath) emptyValueWorld) /\
  getOllamaModelsPath homelessWorld
  = (Err HomeDirError, log (CallStat systemPath) homelessWorld).
Proof.
  split; [reflexivity|]. split.
  { apply (proj1 (getOllamaModelsPath_order exampleWorld) "/models");
      [reflexivity | discriminate]. }
  split; [reflexivity|]. split.
  { apply (proj1 (proj2 (getOllamaModelsPath_order systemWorld) (or_introl eq_refl))
             directory).
    reflexivity. }
  split; [reflexivity|]. split; [reflexivity|]. split.
  { apply (proj1 (proj2 (proj2 (getOllamaModelsPath_order emptyValueWorld)
                           (or_intror eq_refl)))
             eq_refl "/home/u"); [reflexivity | discriminate]. }
  apply (proj2 (proj2 (proj2 (getOllamaModelsPath_order homelessWorld)
                         (or_introl eq_refl)))
           eq_refl (or_introl eq_refl)).
Defined.


Lemma save_load_round_trip_witness :
  Forall (fun p => isLocal p = true) examplePaths /\
  Forall (fun p => isFile (os.nodeAt exampleWorld (Join ["/models"; p]))) examplePaths /\
  filesAreLeaves (fs exampleWorld) /\
  stdout exampleWorld = [] /\
  emptyRoot (fs exampleWorld) (resolve exampleWorld "/restore/") /\
  exists w1 w3,
    createTarball "/models" examplePaths exampleWorld = (OK tt, w1) /\
    @extractTarball testLibraries "/tmp/llama2.tar" "/restore/" exampleWorld
    = (OK tt, w3) /\
    forall p, p ∈ examplePaths ->
      exists content,
        contentOf (os.nodeAt exampleWorld (Join ["/models"; p])) = Some content /\
        contentOf (os.nodeAt w3 (Join ["/restore/"; p])) = Some content.
Proof.
  split; [exact example_local|].
  split; [exact example_files|]. split; [exact example_leaves|].
  split; [reflexivity|]. split; [exact example_empty_root|].
  destruct (@save_load_round_trip testLibraries exampleWorld "/models"
              examplePaths example_local example_files example_leaves eq_refl)
    as (w1 & Hsave & Hload).
  assert (stdout w1 = eventsOf exampleEntries ++ [Closed]) as Hout.
  { assert (w1 = snd (createTarball "/models" examplePaths exampleWorld)) as ->
      by (by rewrite Hsave).
    reflexivity. }
  destruct (Hload exampleWorld "/restore/" "/tmp/llama2.tar" 420%Z 1000%Z 1000%Z
              (-1)%Z (-1)%Z (log (CallLookupUser "ollama") exampleWorld))
    as (w3 & Hextract & Hsame).
  - exact example_empty_root.
  - reflexivity.
  - reflexivity.
  - rewrite Hout. reflexivity.
  - reflexivity.
  - by left.
  - exists w1, w3. split; [exact Hsave|]. split; [exact Hextract|]. exact Hsame.
Defined.

(** C3, as stated, fails where the ollama account is known and the
    process is an ordinary user: the archive saved from the example
    model is not restored into the empty root.  The extraction creates
    the first directory, is refused the change of its owner and stops
    there; none of the paths of the model names a file below the new
    root. *)
Lemma save_load_round_trip_refused :
  Forall (fun p => isLocal p = true) examplePaths /\
  Forall (fun p => isFile (os.nodeAt userWorld (Join ["/models"; p]))) examplePaths /\
  filesAreLeaves (fs userWorld) /\
  stdout userWorld = [] /\
  emptyRoot (fs userWorld) (resolve userWorld "/restore/") /\
  fst (getOllamaUIDGID userWorld) = OK (998%Z, 997%Z) /\
  privileged userWorld = false /\
  exists w1,
    createTarball "/models" examplePaths userWorld = (OK tt, w1) /\
    os.nodeAt userWorld "/tmp/llama2.tar"
    = Some (File 420 1000 1000 (@TarBytes testLibraries (stdout w1))) /\
    @StreamOf testLibraries NoCodec (@TarBytes testLibraries (stdout w1))
    = Some (readBack (stdout w1)) /\
    fst (@extractTarball testLibraries "/tmp/llama2.tar" "/restore/" userWorld)
    = Err (ChownError "/restore/manifests/registry.ollama.ai/library/llama2") /\
    forall p, p ∈ examplePaths ->
      os.nodeAt (snd (@extractTarball testLibraries "/tmp/llama2.tar" "/restore/"
                        userWorld))
                (Join ["/restore/"; p]) = None.
Proof.
  split; [exact example_local|]. split; [repeat constructor|].
  split; [exact example_leaves|]. split; [reflexivity|].
  split; [apply emptyRootb_sound; by vm_compute|].
  split; [reflexivity|]. split; [reflexivity|].
  exists (snd (createTarball "/models" examplePaths userWorld)).
  split_and!; [by vm_compute | by vm_compute | by vm_compute | by vm_compute |].
  intros p Hp.
  repeat (apply elem_of_cons in Hp as [->|Hp]; [by vm_compute|]).
  by apply elem_of_nil in Hp.
Qed.

(** ** More on parseModelName *)

(** The reference of a successful parse, pattern by pattern. *)
Lemma parseModelName_OK_fields s r :
  parseModelName s = OK r ->
  exists h ns m t,
    r = {| Host := h; Namespace := ns; Model := m; Tag := t |} /\
    ((part "/" h /\ part "/" ns /\ part ":" m /\ part "010" t /\
      s = h +:+ "/" +:+ ns +:+ "/" +:+ m +:+ ":" +:+ t) \/
     (h = "registry.ollama.ai" /\ part "/" ns /\ part ":" m /\ part "010" t /\
      s = ns +:+ "/" +:+ m +:+ ":" +:+ t) \/
     (h = "registry.ollama.ai" /\ t = "latest" /\ part "/" ns /\ part ":" m /\
      s = ns +:+ "/" +:+ m) \/
     (h = "registry.ollama.ai" /\ ns = "library" /\ part ":" m /\ part "010" t /\
      s = m +:+ ":" +:+ t) \/
     (h = "registry.ollama.ai" /\ ns = "library" /\ t = "latest" /\ part ":" m /\
      s = m)).
Proof.
  unfold parseModelName, patterns. simpl.
  destruct (FindStringSubmatch pattern_host_namespace_model_tag s) eqn:E1.
  { apply match_host_namespace_model_tag_inv in E1
      as (h & ns & m & t & ? & ? & ? & ? & ? & ->).
    intros [= <-]. exists h, ns, m, t. split; [done|]. left. done. }
  destruct (FindStringSubmatch pattern_namespace_model_tag s) eqn:E2.
  { apply match_namespace_model_tag_inv in E2
      as (ns & m & t & ? & ? & ? & ? & ->).
    intros [= <-]. exists "registry.ollama.ai", ns, m, t. split; [done|].
    right; left. done. }
  destruct (FindStringSubmatch pattern_namespace_model s) eqn:E3.
  { apply match_namespace_model_inv in E3 as (ns & m & ? & ? & ? & ->).
    intros [= <-]. exists "registry.ollama.ai", ns, m, "latest". split; [done|].
    do 2 right; left. done. }
  destruct (FindStringSubmatch pattern_model_tag s) eqn:E4.
  { apply match_model_tag_inv in E4 as (m & t & ? & ? & ? & ->).
    intros [= <-]. exists "registry.ollama.ai", "library", m, t. split; [done|].
    do 3 right; left. done. }
  destruct (FindStringSubmatch pattern_model s) eqn:E5; [|done].
  apply match_model_inv in E5 as (? & ->).
  intros [= <-]. exists "registry.ollama.ai", "library", s, "latest". split; [done|].
  do 4 right. done.
Qed.

Lemma parseModelName_OK_wellFormed s r : parseModelName s = OK r -> wellFormed r.
Proof.
  intros (h & ns & m & t & -> & Hcases)%parseModelName_OK_fields.
  unfold wellFormed. simpl.
  destruct Hcases as [(? & ? & ? & ? & _)
                     |[(-> & ? & ? & ? & _)
                     |[(-> & -> & ? & ? & _)
                     |[(-> & -> & ? & ? & _)
                     |(-> & -> & -> & ? & _)]]]];
    split_and!; try done; by split.
Qed.

(** X1.  Every reference that [parseModelName] returns lies within the
    character classes of the patterns, the defaults included: host and
    namespace are non-empty and hold no ['/'], the model is non-empty and
    holds no [':'], the tag is non-empty and holds no newline. *)
Theorem parseModelName_fields_wellformed s r :
  parseModelName s = OK r ->
  (Host r <> "" /\ str_all (is_not "/") (Host r) = true) /\
  (Namespace r <> "" /\ str_all (is_not "/") (Namespace r) = true) /\
  (Model r <> "" /\ str_all (is_not ":") (Model r) = true) /\
  (Tag r <> "" /\ str_all (is_not "010") (Tag r) = true).
Proof. apply parseModelName_OK_wellFormed. Qed.

Lemma parseModelName_fields_wellformed_witness :
  parseModelName "localhost:5000/team/llama2/7b:q4"
  = OK {| Host := "localhost:5000"; Namespace := "team";
          Model := "llama2/7b"; Tag := "q4" |} /\
  str_all (is_not "/") "localhost:5000" = true /\
  str_all (is_not ":") "llama2/7b" = true.
Proof.
  assert (parseModelName "localhost:5000/team/llama2/7b:q4"
          = OK {| Host := "localhost:5000"; Namespace := "team";
                  Model := "llama2/7b"; Tag := "q4" |}) as Hparse by reflexivity.
  split; [exact Hparse|].
  destruct (parseModelName_fields_wellformed _ _ Hparse) as ([_ Hh] & _ & [_ Hm] & _).
  split; [exact Hh | exact Hm].
Defined.

(** X2.  The fully qualified text host/namespace/model:tag of a parsed
    reference parses to the same reference: the defaults that were filled
    in are read back as they are. *)
Theorem parseModelName_qualified s r :
  parseModelName s = OK r -> parseModelName (qualified r) = OK r.
Proof.
  intros (Hh & Hns & Hm & Ht)%parseModelName_OK_wellFormed.
  unfold parseModelName, patterns, qualified. simpl.
  rewrite (match_host_namespace_model_tag _ _ _ _ Hh Hns Hm Ht).
  by destruct r.
Qed.

Lemma parseModelName_qualified_witness :
  parseModelName "foo/bar"
  = OK {| Host := "registry.ollama.ai"; Namespace := "foo";
          Model := "bar"; Tag := "latest" |} /\
  parseModelName "registry.ollama.ai/foo/bar:latest"
  = OK {| Host := "registry.ollama.ai"; Namespace := "foo";
          Model := "bar"; Tag := "latest" |}.
Proof.
  assert (parseModelName "foo/bar"
          = OK {| Host := "registry.ollama.ai"; Namespace := "foo";
                  Model := "bar"; Tag := "latest" |}) as Hparse by reflexivity.
  split; [exact Hparse|].
  exact (parseModelName_qualified _ _ Hparse).
Defined.

(** Text in front of the first delimiter is determined by the whole. *)
Lemma str_split_unique d a b c e :
  str_all (is_not d) a = true -> str_all (is_not d) c = true ->
  a +:+ String d b = c +:+ String d e -> a = c /\ b = e.
Proof.
  revert c. induction a as [|x a IH]; intros [|y c] Ha Hc E.
  - by injection E.
  - rewrite str_app_cons in E. injection E as <- _.
    simpl in Hc. by rewrite is_not_refl in Hc.
  - rewrite str_app_cons in E. injection E as -> _.
    simpl in Ha. by rewrite is_not_refl in Ha.
  - rewrite !str_app_cons in E. injection E as -> E.
    simpl in Ha, Hc. apply andb_true_iff in Ha as [_ Ha], Hc as [_ Hc].
    destruct (IH c Ha Hc E) as [-> ->]. done.
Qed.

(** The last character of a text is the last character of its last
    non-empty piece. *)
Lemma str_snoc_inv x c y z :
  x +:+ String c "" = y +:+ z -> z <> "" ->
  exists z', z = z' +:+ String c "" /\ x = y +:+ z'.
Proof.
  revert y. induction x as [|a x IH]; intros y E Hz.
  - destruct y as [|b y].
    + exists "". split; [|done]. by rewrite str_app_nil_l in E.
    + rewrite str_app_cons in E. simpl in E. injection E as _ E.
      destruct y; [by destruct z|done].
  - destruct y as [|b y].
    + rewrite str_app_nil_l in E. exists (String a x). by split.
    + rewrite !str_app_cons in E. injection E as -> E.
      destruct (IH y E Hz) as (z' & -> & ->). by exists z'.
Qed.

Lemma no_delimiter d x y : str_all (is_not d) (x +:+ String d y) = true -> False.
Proof. by rewrite str_all_delimiter. Qed.

(** X3.  A name that ends in its only [':'], a reference with an empty
    tag, is rejected with [InvalidReference]: the tag group [.+] needs a
    character and the model group does not take the [':']. *)
Theorem parseModelName_empty_tag m :
  str_all (is_not ":") m = true ->
  parseModelName (m +:+ ":") = Err (InvalidReference (m +:+ ":")).
Proof.
  intros Hm. apply parseModelName_Err_iff. split; [done|].
  assert (forall y t, part "010" t -> m +:+ ":" = y +:+ ":" +:+ t -> False) as Htag.
  { intros y t [Ht _] E.
    change (y +:+ ":" +:+ t) with (y +:+ String ":" t) in E.
    rewrite <- (str_app_nil_l t) in E at 1.
    change (y +:+ String ":" ("" +:+ t)) with (y +:+ (":" +:+ t)) in E.
    rewrite <- str_app_assoc in E.
    apply str_snoc_inv in E as (t' & -> & ->); [|done].
    rewrite str_app_assoc in Hm. by apply no_delimiter in Hm. }
  assert (forall y m', part ":" m' -> m +:+ ":" = y +:+ m' -> False) as Hmodel.
  { intros y m' [Hne Hall] E.
    apply str_snoc_inv in E as (z & -> & _); [|done].
    by apply no_delimiter in Hall. }
  intros re Hre. unfold patterns in Hre.
  repeat (apply elem_of_cons in Hre as [->|Hre]); [..|by apply elem_of_nil in Hre].
  - apply host_namespace_model_tag_None. intros (h & ns & m' & t & _ & _ & _ & Ht & E).
    apply (Htag (h +:+ "/" +:+ ns +:+ "/" +:+ m') t Ht).
    by rewrite E, !str_app_assoc.
  - apply namespace_model_tag_None. intros (ns & m' & t & _ & _ & Ht & E).
    apply (Htag (ns +:+ "/" +:+ m') t Ht). by rewrite E, !str_app_assoc.
  - apply namespace_model_None. intros (ns & m' & _ & Hm' & E).
    apply (Hmodel (ns +:+ "/") m' Hm'). by rewrite E, !str_app_assoc.
  - apply model_tag_None. intros (m' & t & _ & Ht & E). by apply (Htag m' t Ht).
  - apply model_None. intros (m' & Hm' & E). by apply (Hmodel "" m' Hm').
Qed.

Lemma parseModelName_empty_tag_witness :
  str_all (is_not ":") "library/llama2" = true /\
  parseModelName "library/llama2:" = Err (InvalidReference "library/llama2:").
Proof.
  split; [reflexivity|]. exact (parseModelName_empty_tag "library/llama2" eq_refl).
Defined.

(** A text without the delimiter is not one with it. *)
Lemma no_delimiter_eq d s x y :
  str_all (is_not d) s = true -> s = x +:+ String d y -> False.
Proof. intros Hs ->. by apply no_delimiter in Hs. Qed.

(** What follows the namespace of namespace/model holds no [':']: the
    patterns with a tag do not match. *)
Lemma namespace_model_not_tagged ns m :
  part "/" ns -> part ":" m ->
  ~ is_host_namespace_model_tag (ns +:+ "/" +:+ m) /\
  ~ is_namespace_model_tag (ns +:+ "/" +:+ m).
Proof.
  intros [_ Hns] [_ Hm]. split.
  - intros (h & ns' & m' & t & [_ Hh] & _ & _ & _ & E).
    apply str_split_unique in E as [_ ->]; [|done..].
    apply (no_delimiter ":" (ns' +:+ "/" +:+ m') t). by rewrite !str_app_assoc.
  - intros (ns' & m' & t & [_ Hns'] & _ & _ & E).
    apply str_split_unique in E as [_ ->]; [|done..].
    exact (no_delimiter ":" m' t Hm).
Qed.

(** A text with a single ['/'] has no host. *)
Lemma one_slash_no_host ns rest :
  part "/" ns -> str_all (is_not "/") rest = true ->
  ~ is_host_namespace_model_tag (ns +:+ "/" +:+ rest).
Proof.
  intros [_ Hns] Hrest (h & ns' & m' & t & [_ Hh] & _ & _ & _ & E).
  apply str_split_unique in E as [_ ->]; [|done..].
  exact (no_delimiter "/" ns' (m' +:+ ":" +:+ t) Hrest).
Qed.

(** A text without ['/'] has neither host nor namespace. *)
Lemma no_slash_no_namespace s :
  str_all (is_not "/") s = true ->
  ~ is_host_namespace_model_tag s /\ ~ is_namespace_model_tag s /\
  ~ is_namespace_model s.
Proof.
  intros Hs. split_and!.
  - intros (h & ns & m & t & _ & _ & _ & _ & E).
    by eapply (no_delimiter_eq "/" _ h (ns +:+ "/" +:+ m +:+ ":" +:+ t)).
  - intros (ns & m & t & _ & _ & _ & E).
    by eapply (no_delimiter_eq "/" _ ns (m +:+ ":" +:+ t)).
  - intros (ns & m & _ & _ & E). by eapply (no_delimiter_eq "/" _ ns m).
Qed.

Lemma parseWith_skip re ps s :
  FindStringSubmatch re s = None -> parseWith (re :: ps) s = parseWith ps s.
Proof. intros E. simpl. by rewrite E. Qed.

(** X4.  The two-part and one-part forms parse as they read, without
    regard to the earlier patterns: namespace/model always has the default
    host and tag, with any ['/'] after the first in the model;
    namespace/model:tag, model:tag and model parse to their parts when
    model and tag hold no ['/']. *)
Theorem parseModelName_unambiguous :
  (forall ns m, part "/" ns -> part ":" m ->
     parseModelName (ns +:+ "/" +:+ m)
     = OK {| Host := "registry.ollama.ai"; Namespace := ns;
             Model := m; Tag := "latest" |}) /\
  (forall ns m t, part "/" ns -> part ":" m -> part "010" t ->
     str_all (is_not "/") m = true -> str_all (is_not "/") t = true ->
     parseModelName (ns +:+ "/" +:+ m +:+ ":" +:+ t)
     = OK {| Host := "registry.ollama.ai"; Namespace := ns;
             Model := m; Tag := t |}) /\
  (forall m t, part ":" m -> part "010" t ->
     str_all (is_not "/") m = true -> str_all (is_not "/") t = true ->
     parseModelName (m +:+ ":" +:+ t)
     = OK {| Host := "registry.ollama.ai"; Namespace := "library";
             Model := m; Tag := t |}) /\
  (forall m, part ":" m -> str_all (is_not "/") m = true ->
     parseModelName m
     = OK {| Host := "registry.ollama.ai"; Namespace := "library";
             Model := m; Tag := "latest" |}).
Proof.
  unfold parseModelName, patterns. split_and!.
  - intros ns m Hns Hm.
    destruct (namespace_model_not_tagged ns m Hns Hm) as [H1 H2].
    apply host_namespace_model_tag_None in H1. apply namespace_model_tag_None in H2.
    rewrite !parseWith_skip by done. simpl.
    by rewrite (match_namespace_model ns m Hns Hm).
  - intros ns m t Hns Hm Ht Hm' Ht'.
    assert (~ is_host_namespace_model_tag (ns +:+ "/" +:+ m +:+ ":" +:+ t)) as H1.
    { apply one_slash_no_host; [done|].
      change (m +:+ ":" +:+ t) with (m +:+ String ":" t).
      rewrite str_all_app. simpl. by rewrite Hm', Ht'. }
    apply host_namespace_model_tag_None in H1.
    rewrite !parseWith_skip by done. simpl.
    by rewrite (match_namespace_model_tag ns m t Hns Hm Ht).
  - intros m t Hm Ht Hm' Ht'.
    assert (str_all (is_not "/") (m +:+ ":" +:+ t) = true) as Hs.
    { change (m +:+ ":" +:+ t) with (m +:+ String ":" t).
      rewrite str_all_app. simpl. by rewrite Hm', Ht'. }
    destruct (no_slash_no_namespace _ Hs) as (H1 & H2 & H3).
    apply host_namespace_model_tag_None in H1. apply namespace_model_tag_None in H2.
    apply namespace_model_None in H3.
    rewrite !parseWith_skip by done. simpl.
    by rewrite (match_model_tag m t Hm Ht).
  - intros m Hm Hm'.
    destruct (no_slash_no_namespace _ Hm') as (H1 & H2 & H3).
    apply host_namespace_model_tag_None in H1. apply namespace_model_tag_None in H2.
    apply namespace_model_None in H3.
    assert (FindStringSubmatch pattern_model_tag m = None) as H4.
    { apply model_tag_None. intros (m' & t & _ & _ & E).
      destruct Hm as [_ Hm]. by eapply (no_delimiter_eq ":" _ m' t). }
    rewrite !parseWith_skip by done. simpl.
    by rewrite (match_model m Hm).
Qed.

Lemma parseModelName_unambiguous_witness :
  parseModelName "team/llama2/7b"
  = OK {| Host := "registry.ollama.ai"; Namespace := "team";
          Model := "llama2/7b"; Tag := "latest" |} /\
  parseModelName "team/llama2:7b"
  = OK {| Host := "registry.ollama.ai"; Namespace := "team";
          Model := "llama2"; Tag := "7b" |} /\
  parseModelName "llama2:7b"
  = OK {| Host := "registry.ollama.ai"; Namespace := "library";
          Model := "llama2"; Tag := "7b" |} /\
  parseModelName "llama2"
  = OK {| Host := "registry.ollama.ai"; Namespace := "library";
          Model := "llama2"; Tag := "latest" |}.
Proof.
  destruct parseModelName_unambiguous as (H1 & H2 & H3 & H4).
  split_and!.
  - apply (H1 "team" "llama2/7b"); by split.
  - apply (H2 "team" "llama2" "7b"); try reflexivity; by split.
  - apply (H3 "llama2" "7b"); try reflexivity; by split.
  - apply (H4 "llama2"); try reflexivity; by split.
Defined.

(** ** Programs that keep a relation *)

Lemma keeps_ret {A} (R : World -> World -> Prop) `{!Reflexive R} (a : A) :
  keeps R (ret a).
Proof. intros w. simpl. reflexivity. Qed.

Lemma keeps_fail {A} (R : World -> World -> Prop) `{!Reflexive R} e :
  keeps R (@fail A e).
Proof. intros w. simpl. reflexivity. Qed.

Lemma keeps_bind {A B} (R : World -> World -> Prop) `{!Transitive R}
    (m : IO A) (f : A -> IO B) :
  keeps R m -> (forall a, keeps R (f a)) -> keeps R (m ≫= f).
Proof.
  intros Hm Hf w. unfold mbind, IO_bind, bind. specialize (Hm w).
  destruct (m w) as [[a|e] w1]; simpl in *; [|done].
  etrans; [exact Hm|]. apply Hf.
Qed.

Lemma keeps_orFail {A} (R : World -> World -> Prop) (m : IO A) wrap :
  keeps R m -> keeps R (orFail m wrap).
Proof.
  intros Hm w. unfold orFail. specialize (Hm w). by destruct (m w) as [[a|e] w1].
Qed.

Lemma keeps_defer {A} (R : World -> World -> Prop) `{!Transitive R}
    (cleanup : World -> World) (m : IO A) :
  keeps R m -> (forall w, R w (cleanup w)) -> keeps R (defer cleanup m).
Proof.
  intros Hm Hc w. unfold defer. specialize (Hm w).
  destruct (m w) as [r w1]. simpl in *. etrans; [exact Hm|]. apply Hc.
Qed.

(** ** save reads *)

Global Instance reads_refl : Reflexive reads.
Proof.
  intros w. split_and!; try done. exists []. by rewrite app_nil_r.
Qed.

Global Instance reads_trans : Transitive reads.
Proof.
  intros w1 w2 w3 (Hf & Hc & He & cs & Hcs & Hall) (Hf' & Hc' & He' & cs' & Hcs' & Hall').
  split_and!; try congruence.
  exists (cs ++ cs'). split; [by rewrite Hcs', Hcs, app_assoc|].
  by apply Forall_app.
Qed.

Lemma reads_log c w : mutates c = false -> reads w (log c w).
Proof. intros Hc. split_and!; try done. exists [c]. split; [done|]. by constructor. Qed.

Lemma reads_emit e w : reads w (emit e w).
Proof. split_and!; try done. exists []. by rewrite app_nil_r. Qed.

Lemma reads_Stat path : keeps reads (os.Stat path).
Proof.
  intros w. unfold os.Stat.
  destruct (nodeAt (log (CallStat path) w) path); by apply reads_log.
Qed.

Lemma reads_ReadFile path : keeps reads (os.ReadFile path).
Proof.
  intros w. unfold os.ReadFile.
  destruct (nodeAt (log (CallReadFile path) w) path) as [[? ? ? ?|? ? ?]|];
    by apply reads_log.
Qed.

Lemma reads_Open path : keeps reads (os.Open path).
Proof.
  intros w. unfold os.Open.
  destruct (nodeAt (log (CallOpen path) w) path); by apply reads_log.
Qed.

Lemma reads_ReadAll path file : keeps reads (os.ReadAll path file).
Proof. intros w. unfold os.ReadAll. destruct file; by apply reads_log. Qed.

Lemma reads_WriteHeader h : keeps reads (tar.WriteHeader h).
Proof.
  intros w. unfold tar.WriteHeader. simpl.
  etrans; [by apply (reads_log CallWriteStdout)|]. apply reads_emit.
Qed.

Lemma reads_tar_Write data : keeps reads (tar.Write data).
Proof.
  intros w. unfold tar.Write. simpl.
  etrans; [by apply (reads_log CallWriteStdout)|]. apply reads_emit.
Qed.

Lemma reads_Close w : reads w (tar.Close w).
Proof.
  unfold tar.Close. etrans; [by apply (reads_log CallWriteStdout)|]. apply reads_emit.
Qed.

Lemma reads_writeEntry modelPath relPath : keeps reads (writeEntry modelPath relPath).
Proof.
  unfold writeEntry.
  apply keeps_bind; [apply _ | apply keeps_orFail, reads_Stat | intros info].
  apply keeps_bind; [apply _ | apply keeps_orFail, reads_WriteHeader | intros _].
  apply keeps_bind; [apply _ | apply keeps_orFail, reads_Open | intros file].
  apply keeps_bind; [apply _ | apply keeps_orFail, reads_ReadAll | intros data].
  apply keeps_orFail, reads_tar_Write.
Qed.

Lemma reads_writeEntries modelPath relativePaths :
  keeps reads (writeEntries modelPath relativePaths).
Proof.
  induction relativePaths as [|relPath rest IH]; simpl.
  - apply keeps_ret, _.
  - apply keeps_bind; [apply _ | apply reads_writeEntry | by intros _].
Qed.

Lemma reads_createTarball modelPath relativePaths :
  keeps reads (createTarball modelPath relativePaths).
Proof.
  apply keeps_defer; [apply _ | apply reads_writeEntries | apply reads_Close].
Qed.

Lemma reads_getOllamaModelsPath : keeps reads getOllamaModelsPath.
Proof.
  intros w. unfold getOllamaModelsPath.
  destruct (String.eqb _ ""); [|simpl; reflexivity].
  pose proof (reads_Stat systemPath w) as Hstat.
  destruct (os.Stat systemPath w) as [[n|e] w1]; simpl in *; [done|].
  unfold os.UserHomeDir. by destruct (String.eqb (Getenv "HOME" w1) "").
Qed.

Section SaveReads.
Context `{Libraries}.

Lemma reads_getFilePaths modelName modelPath :
  keeps reads (getFilePaths modelName modelPath).
Proof.
  unfold getFilePaths, parseManifest.
  apply keeps_bind; [apply _ | | intros shas; apply keeps_ret, _].
  apply keeps_bind; [apply _ | apply keeps_orFail, reads_ReadFile | intros data].
  destruct (json_Unmarshal data); [apply keeps_ret, _ | apply keeps_fail, _].
Qed.

(** X5.  save only reads: whatever the name and the world are, and
    whether it fails or not, the file tree and standard error are as
    before, and none of the calls it makes creates, opens for writing,
    writes or changes the owner of a file. *)
Theorem saveCmd_RunE_read_only modelNameStr w :
  fs (snd (saveCmd_RunE modelNameStr w)) = fs w /\
  stderr (snd (saveCmd_RunE modelNameStr w)) = stderr w /\
  exists cs,
    calls (snd (saveCmd_RunE modelNameStr w)) = calls w ++ cs /\
    Forall (fun c => mutates c = false) cs.
Proof.
  assert (reads w (snd (saveCmd_RunE modelNameStr w))) as (Hfs & _ & Herr & Hcalls).
  { unfold saveCmd_RunE. destruct (stdout_tty w); [simpl; reflexivity|].
    destruct (parseModelName modelNameStr) as [modelName|e]; [|simpl; reflexivity].
    revert w. change (keeps reads (modelPath ← getOllamaModelsPath;
                                   filePaths ← getFilePaths modelName modelPath;
                                   createTarball modelPath filePaths)).
    apply keeps_bind; [apply _ | apply reads_getOllamaModelsPath | intros modelPath].
    apply keeps_bind; [apply _ | apply reads_getFilePaths | intros filePaths].
    apply reads_createTarball. }
  done.
Qed.

End SaveReads.

(** ** save: failures *)

Section SaveFailures.
Context `{Libraries}.

(** X6.  [getFilePaths] makes one call, the read of the manifest below
    the storage root, whatever comes of it; it does not look at the
    blobs.  When no regular file is at that path it fails with
    [ManifestReadError], and when the file does not decode with
    [ManifestParseError]. *)
Theorem getFilePaths_failures modelName modelPath w :
  snd (getFilePaths modelName modelPath w)
  = log (CallReadFile (manifestAbsPath modelName modelPath)) w /\
  (~ isFile (os.nodeAt w (manifestAbsPath modelName modelPath)) ->
   fst (getFilePaths modelName modelPath w)
   = Err (ManifestReadError (manifestAbsPath modelName modelPath))) /\
  (forall mode uid gid data,
      os.nodeAt w (manifestAbsPath modelName modelPath)
      = Some (File mode uid gid data) ->
      json_Unmarshal data = None ->
      fst (getFilePaths modelName modelPath w) = Err ManifestParseError).
Proof.
  unfold getFilePaths, parseManifest, mbind, IO_bind, bind, orFail, os.ReadFile.
  change (os.nodeAt (log _ w) ?p) with (os.nodeAt w p).
  fold (manifestAbsPath modelName modelPath).
  destruct (os.nodeAt w (manifestAbsPath modelName modelPath))
    as [[mode uid gid data|mode uid gid]|] eqn:Hfile.
  - split_and!.
    + by destruct (json_Unmarshal data).
    + intros Hno. by destruct Hno.
    + intros ? ? ? ? [= _ _ _ <-] ->. done.
  - split_and!; [done|done|]. intros ? ? ? ? [=].
  - split_and!; [done|done|]. intros ? ? ? ? [=].
Qed.

End SaveFailures.

Lemma getFilePaths_failures_witness :
  ~ isFile (os.nodeAt homelessWorld (manifestAbsPath exampleModel "/models")) /\
  fst (@getFilePaths testLibraries exampleModel "/models" homelessWorld)
  = Err (ManifestReadError "/models/manifests/registry.ollama.ai/library/llama2/latest") /\
  os.nodeAt garbledWorld (manifestAbsPath exampleModel "/models")
  = Some (File 420 0 0 "not a manifest") /\
  @json_Unmarshal testLibraries "not a manifest" = None /\
  fst (@getFilePaths testLibraries exampleModel "/models" garbledWorld)
  = Err ManifestParseError.
Proof.
  assert (~ isFile (os.nodeAt homelessWorld (manifestAbsPath exampleModel "/models")))
    as Hno by (intros []).
  split; [exact Hno|]. split.
  { exact (proj1 (proj2 (@getFilePaths_failures testLibraries exampleModel "/models"
                           homelessWorld)) Hno). }
  split; [reflexivity|]. split; [reflexivity|].
  exact (proj2 (proj2 (@getFilePaths_failures testLibraries exampleModel "/models"
                         garbledWorld)) 420%Z 0%Z 0%Z "not a manifest" eq_refl eq_refl).
Defined.

(** ** save: an archive that stops short *)

Lemma writeEntries_app modelPath done rest w :
  writeEntries modelPath (done ++ rest) w
  = match writeEntries modelPath done w with
    | (OK _, w1) => writeEntries modelPath rest w1
    | (Err e, w1) => (Err e, w1)
    end.
Proof.
  revert w. induction done as [|p done IH]; intros w; [done|].
  simpl. unfold mbind, IO_bind, bind.
  destruct (writeEntry modelPath p w) as [[[]|e] w1]; [|done]. apply IH.
Qed.

Lemma writeEntry_missing modelPath relPath w :
  os.nodeAt w (Join [modelPath; relPath]) = None ->
  writeEntry modelPath relPath w
  = (Err (StatError (Join [modelPath; relPath])),
     log (CallStat (Join [modelPath; relPath])) w).
Proof.
  intros Hnone. unfold writeEntry, mbind, IO_bind, bind, orFail, os.Stat.
  change (os.nodeAt (log _ w) ?p) with (os.nodeAt w p). by rewrite Hnone.
Qed.

Lemma writeEntry_directory modelPath relPath w mode uid gid :
  os.nodeAt w (Join [modelPath; relPath]) = Some (Directory mode uid gid) ->
  exists w',
    writeEntry modelPath relPath w = (Err (CopyError relPath), w') /\
    stdout w' = stdout w ++ [WroteHeader {| Name := relPath; Mode := Z.land mode 4095;
                                            Size := 0; Type_ := TypeDir |}].
Proof.
  intros Hdir.
  unfold writeEntry, mbind, IO_bind, bind, orFail, os.Stat, os.Open, os.ReadAll,
    tar.WriteHeader.
  change (os.nodeAt (log _ w) ?p) with (os.nodeAt w p). rewrite Hdir.
  cbv beta iota.
  change (os.nodeAt (log _ (emit _ (log _ (log _ w)))) ?p) with (os.nodeAt w p).
  rewrite Hdir. eexists. split; reflexivity.
Qed.

(** X7.  [createTarball] stops at the first path that is no regular
    file, after the entries before it have been written, and the
    deferred [Close] still ends the archive: a missing file gives
    [StatError] with its absolute path, a directory gives [CopyError]
    after the header of the directory has been written.  In both cases
    standard output holds a complete archive of the files before. *)
Theorem createTarball_stops modelPath done relPath rest entries w :
  Forall2 (fun p e => savedEntry w modelPath p = Some e) done entries ->
  (os.nodeAt w (Join [modelPath; relPath]) = None ->
   exists w',
     createTarball modelPath (done ++ relPath :: rest) w
     = (Err (StatError (Join [modelPath; relPath])), w') /\
     stdout w' = stdout w ++ eventsOf entries ++ [Closed]) /\
  (forall mode uid gid,
      os.nodeAt w (Join [modelPath; relPath]) = Some (Directory mode uid gid) ->
      exists w',
        createTarball modelPath (done ++ relPath :: rest) w
        = (Err (CopyError relPath), w') /\
        stdout w'
        = stdout w ++ eventsOf entries
          ++ [WroteHeader {| Name := relPath; Mode := Z.land mode 4095;
                             Size := 0; Type_ := TypeDir |}; Closed]).
Proof.
  intros Hdone.
  destruct (writeEntries_files _ _ _ _ Hdone) as (w1 & Hrun & Hfs & Hcwd & Hout).
  unfold createTarball, defer. rewrite writeEntries_app, Hrun. simpl writeEntries.
  unfold mbind, IO_bind, bind. split.
  - intros Hnone. rewrite <- (nodeAt_same w w1) in Hnone by done.
    rewrite (writeEntry_missing _ _ _ Hnone). eexists. split; [reflexivity|].
    simpl. rewrite Hout. by rewrite <- app_assoc.
  - intros mode uid gid Hdir. rewrite <- (nodeAt_same w w1) in Hdir by done.
    destruct (writeEntry_directory _ _ _ _ _ _ Hdir) as (w2 & -> & Hout2).
    eexists. split; [reflexivity|]. simpl. rewrite Hout2, Hout.
    by rewrite <- !app_assoc.
Qed.

Lemma createTarball_stops_witness :
  Forall2 (fun p e => savedEntry incompleteWorld "/models" p = Some e)
          [exampleManifestPath; "blobs/sha256-aa"]
          [({| Name := exampleManifestPath; Mode := 420;
               Size := Z.of_nat (String.length exampleManifestText);
               Type_ := TypeReg |}, exampleManifestText);
           ({| Name := "blobs/sha256-aa"; Mode := 420; Size := 6; Type_ := TypeReg |},
            "config")] /\
  os.nodeAt incompleteWorld (Join ["/models"; "blobs/sha256-bb"]) = None /\
  exists w',
    createTarball "/models" examplePaths incompleteWorld
    = (Err (StatError "/models/blobs/sha256-bb"), w') /\
    stdout w'
    = [WroteHeader {| Name := exampleManifestPath; Mode := 420;
                      Size := Z.of_nat (String.length exampleManifestText);
                      Type_ := TypeReg |};
       WroteData exampleManifestText;
       WroteHeader {| Name := "blobs/sha256-aa"; Mode := 420; Size := 6;
                      Type_ := TypeReg |};
       WroteData "config"; Closed].
Proof.
  assert (Forall2 (fun p e => savedEntry incompleteWorld "/models" p = Some e)
            [exampleManifestPath; "blobs/sha256-aa"]
            [({| Name := exampleManifestPath; Mode := 420;
                 Size := Z.of_nat (String.length exampleManifestText);
                 Type_ := TypeReg |}, exampleManifestText);
             ({| Name := "blobs/sha256-aa"; Mode := 420; Size := 6;
                 Type_ := TypeReg |}, "config")]) as Hdone
    by (repeat constructor).
  split; [exact Hdone|]. split; [reflexivity|].
  exact (proj1 (createTarball_stops "/models" _ "blobs/sha256-bb" [] _ incompleteWorld
                  Hdone) eq_refl).
Defined.

(** ** save: from the name to the archive *)

Lemma savedEntry_spec w modelPath relPath e :
  savedEntry w modelPath relPath = Some e ->
  Name (fst e) = relPath /\ Type_ (fst e) = TypeReg /\
  exists mode uid gid,
    os.nodeAt w (Join [modelPath; relPath]) = Some (File mode uid gid (snd e)) /\
    Mode (fst e) = Z.land mode 4095 /\
    Size (fst e) = Z.of_nat (String.length (snd e)).
Proof.
  unfold savedEntry. intros Hs.
  destruct (os.nodeAt w (Join [modelPath; relPath])) as [[mode uid gid content|]|];
    try done.
  injection Hs as <-. simpl. split_and!; try done. by exists mode, uid, gid.
Qed.

Section SaveModel.
Context `{Libraries}.

(** What save writes, entry by entry. *)
Lemma saveCmd_RunE_entries modelNameStr modelName modelPath mode uid gid data
    manifest w :
  stdout_tty w = false ->
  parseModelName modelNameStr = OK modelName ->
  fst (getOllamaModelsPath w) = OK modelPath ->
  os.nodeAt w (manifestAbsPath modelName modelPath)
  = Some (File mode uid gid data) ->
  json_Unmarshal data = Some manifest ->
  let filePaths :=
    Join ["manifests"; Host modelName; Namespace modelName; Model modelName;
          Tag modelName]
    :: map (fun sha => Join ["blobs"; sha]) (blobShas manifest) in
  Forall (fun p => isFile (os.nodeAt w (Join [modelPath; p]))) filePaths ->
  exists entries w',
    saveCmd_RunE modelNameStr w = (OK tt, w') /\
    fs w' = fs w /\
    stdout w' = stdout w ++ eventsOf entries ++ [Closed] /\
    Forall2 (fun relPath e => savedEntry w modelPath relPath = Some e)
            filePaths entries.
Proof.
  intros Htty Hparse Hroot Hmanifest Hjson filePaths Hfiles.
  destruct (files_savedEntries _ _ _ Hfiles) as [entries Hsaved].
  pose proof (reads_getOllamaModelsPath w) as (Hfs1 & Hcwd1 & _ & _).
  destruct (getOllamaModelsPath w) as [r w1] eqn:Hrun1. simpl in *. subst r.
  assert (getFilePaths modelName modelPath w1
          = (OK filePaths, log (CallReadFile (manifestAbsPath modelName modelPath)) w1))
    as Hrun2.
  { apply (getFilePaths_run _ _ mode uid gid data); [|done].
    by rewrite (nodeAt_same w w1). }
  set (w2 := log (CallReadFile (manifestAbsPath modelName modelPath)) w1) in *.
  destruct (writeEntries_files modelPath filePaths w2 entries)
    as (w3 & Hrun3 & Hfs3 & Hcwd3 & Hout3).
  { eapply Forall2_impl; [exact Hsaved|]. intros p e Hp. simpl in Hp.
    by rewrite (savedEntry_same w w2). }
  exists entries, (tar.Close w3). split_and!.
  - unfold saveCmd_RunE. rewrite Htty, Hparse.
    unfold mbind, IO_bind, bind. rewrite Hrun1, Hrun2.
    unfold createTarball, defer. by rewrite Hrun3.
  - simpl. by rewrite Hfs3.
  - simpl. rewrite Hout3.
    assert (stdout w2 = stdout w) as ->.
    { unfold getOllamaModelsPath in Hrun1.
      destruct (String.eqb _ ""); [|by injection Hrun1 as _ <-].
      unfold os.Stat in Hrun1.
      destruct (nodeAt (log _ w) systemPath); [by injection Hrun1 as _ <-|].
      unfold os.UserHomeDir in Hrun1.
      destruct (String.eqb (Getenv "HOME" _) ""); [done|].
      by injection Hrun1 as _ <-. }
    by rewrite <- app_assoc.
  - exact Hsaved.
Qed.


(** X8.  save, from the name to the archive.  With standard output not
    on a terminal, a name that parses, a storage root, a manifest below
    it that decodes and a regular file at the manifest path and at each
    blob path, [saveCmd.RunE] returns nil, leaves the file tree as it is
    and writes to standard output the manifest, then the blobs in the
    order of the manifest, then the end of the archive; each entry has
    the relative path as its name and the mode bits, size and content of
    the file. *)
Theorem saveCmd_RunE_saves modelNameStr modelName modelPath mode uid gid data
    manifest w :
  stdout_tty w = false ->
  parseModelName modelNameStr = OK modelName ->
  fst (getOllamaModelsPath w) = OK modelPath ->
  os.nodeAt w (manifestAbsPath modelName modelPath)
  = Some (File mode uid gid data) ->
  json_Unmarshal data = Some manifest ->
  let filePaths :=
    Join ["manifests"; Host modelName; Namespace modelName; Model modelName;
          Tag modelName]
    :: map (fun sha => Join ["blobs"; sha]) (blobShas manifest) in
  Forall (fun p => isFile (os.nodeAt w (Join [modelPath; p]))) filePaths ->
  exists entries w',
    saveCmd_RunE modelNameStr w = (OK tt, w') /\
    fs w' = fs w /\
    stdout w' = stdout w ++ eventsOf entries ++ [Closed] /\
    Forall2 (fun relPath e =>
               Name (fst e) = relPath /\ Type_ (fst e) = TypeReg /\
               exists mode uid gid,
                 os.nodeAt w (Join [modelPath; relPath])
                 = Some (File mode uid gid (snd e)) /\
                 Mode (fst e) = Z.land mode 4095 /\
                 Size (fst e) = Z.of_nat (String.length (snd e)))
            filePaths entries.
Proof.
  intros Htty Hparse Hroot Hmanifest Hjson filePaths Hfiles.
  destruct (saveCmd_RunE_entries _ _ _ _ _ _ _ _ _ Htty Hparse Hroot Hmanifest Hjson
              Hfiles) as (entries & w' & Hrun & Hfs & Hout & Hsaved).
  exists entries, w'. split_and!; [done..|].
  eapply Forall2_impl; [exact Hsaved|]. intros p e. apply savedEntry_spec.
Qed.

End SaveModel.

Lemma saveCmd_RunE_saves_witness :
  stdout_tty exampleWorld = false /\
  parseModelName "llama2" = OK exampleModel /\
  fst (getOllamaModelsPath exampleWorld) = OK "/models" /\
  os.nodeAt exampleWorld (manifestAbsPath exampleModel "/models")
  = Some (File 420 0 0 exampleManifestText) /\
  @json_Unmarshal testLibraries exampleManifestText = Some exampleManifest /\
  Forall (fun p => isFile (os.nodeAt exampleWorld (Join ["/models"; p]))) examplePaths /\
  exists entries w',
    @saveCmd_RunE testLibraries "llama2" exampleWorld = (OK tt, w') /\
    fs w' = fs exampleWorld /\
    stdout w' = eventsOf entries ++ [Closed] /\
    Forall2 (fun relPath e =>
               Name (fst e) = relPath /\ Type_ (fst e) = TypeReg /\
               exists mode uid gid,
                 os.nodeAt exampleWorld (Join ["/models"; relPath])
                 = Some (File mode uid gid (snd e)) /\
                 Mode (fst e) = Z.land mode 4095 /\
                 Size (fst e) = Z.of_nat (String.length (snd e)))
            examplePaths entries.
Proof.
  split; [reflexivity|]. split; [reflexivity|]. split; [reflexivity|].
  split; [reflexivity|]. split; [reflexivity|]. split; [exact example_files|].
  exact (@saveCmd_RunE_saves testLibraries "llama2" exampleModel "/models" 420%Z 0%Z 0%Z
           exampleManifestText exampleManifest exampleWorld eq_refl eq_refl eq_refl
           eq_refl eq_refl example_files).
Defined.

(** ** load: an account with a malformed id *)

Section MalformedAccount.
Context `{Libraries}.

(** X9.  An ollama account that exists but whose user or group id is no
    decimal number makes load fail, unlike a missing account: the
    extraction returns the lookup error with the parse failure as its
    cause, the user id being parsed first, and it does so before the
    archive is opened, with no call but the two lookups. *)
Theorem extractTarball_malformed_account fileName destPath w u g :
  passwd w !! "ollama" = Some u -> groups w !! "ollama" = Some g ->
  Atoi u = None \/ Atoi g = None ->
  extractTarball fileName destPath w
  = (Err (LookupError (match Atoi u with Some _ => ParseGIDError | None => ParseUIDError end)),
     log (CallLookupGroup "ollama") (log (CallLookupUser "ollama") w)).
Proof.
  intros Hu Hg Hbad.
  unfold extractTarball, mbind, IO_bind, bind, orFail, getOllamaUIDGID,
    os.LookupUser, os.LookupGroup.
  change (passwd (log _ w)) with (passwd w). rewrite Hu.
  change (groups (log _ (log _ w))) with (groups w). rewrite Hg.
  destruct (Atoi u) as [uid|]; [|done].
  destruct (Atoi g) as [gid|]; [|done]. by destruct Hbad.
Qed.

End MalformedAccount.

Lemma extractTarball_malformed_account_witness :
  passwd sidWorld !! "ollama" = Some "S-1-5-21-1004" /\
  groups sidWorld !! "ollama" = Some "998" /\
  Atoi "S-1-5-21-1004" = None /\
  @extractTarball testLibraries "/tmp/llama2.tar" "/models" sidWorld
  = (Err (LookupError ParseUIDError),
     log (CallLookupGroup "ollama") (log (CallLookupUser "ollama") sidWorld)).
Proof.
  split; [reflexivity|]. split; [reflexivity|]. split; [reflexivity|].
  exact (@extractTarball_malformed_account testLibraries "/tmp/llama2.tar" "/models"
           sidWorld "S-1-5-21-1004" "998" eq_refl eq_refl (or_introl eq_refl)).
Defined.

(** ** cmd/util.go without the system-wide path *)

Lemma joinElements_app es l :
  es <> [] -> l <> [] ->
  joinElements (es ++ l) = joinElements es +:+ String "/" (joinElements l).
Proof.
  intros Hes Hl. induction es as [|e es IH]; [done|].
  destruct es as [|e' es].
  - destruct l as [|x l]; [done|]. simpl app. by rewrite joinElements_cons.
  - simpl app in *. rewrite !joinElements_cons, IH by done.
    by rewrite str_app_assoc.
Qed.

Lemma plain_no_slash es :
  forallb plainb es = true -> forallb (str_all (is_not "/")) es = true.
Proof. intros Hes. by apply kept_no_slash, forallb_forall; intros e He;
  apply plainb_keptb; eapply forallb_forall in Hes. Qed.

(** A path from the root with plain elements is clean. *)
Lemma Clean_rooted_plain es :
  forallb plainb es = true -> Clean ("/" +:+ joinElements es) = "/" +:+ joinElements es.
Proof.
  intros Hes. unfold Clean.
  change (IsAbs ("/" +:+ joinElements es)) with true. cbv iota.
  change (elements ("/" +:+ joinElements es)) with ("" :: elements (joinElements es)).
  simpl fold_left. change (cleanStep true [] "") with (@nil string).
  destruct es as [|e es]; [done|].
  rewrite elements_joinElements by (done || by apply plain_no_slash).
  rewrite fold_cleanStep_plain by done. by rewrite app_nil_r, rev_involutive.
Qed.

(** X10.  The version of [getOllamaModelsPath] in cmd/util.go makes no
    call at all and leaves the world as it is.  It returns a non-empty
    OLLAMA_MODELS as the later version does, agrees with the later
    version in its result whenever the system-wide directory does not
    exist, and for a clean home directory its default is the text
    $HOME/.ollama/models. *)
Theorem getOllamaModelsPath_home_agrees w :
  snd (getOllamaModelsPath_home w) = w /\
  (os.Getenv "OLLAMA_MODELS" w <> "" ->
   getOllamaModelsPath_home w = (OK (os.Getenv "OLLAMA_MODELS" w), w) /\
   getOllamaModelsPath w = (OK (os.Getenv "OLLAMA_MODELS" w), w)) /\
  (os.nodeAt w systemPath = None ->
   fst (getOllamaModelsPath_home w) = fst (getOllamaModelsPath w)) /\
  (os.Getenv "OLLAMA_MODELS" w = "" ->
   forall es, forallb plainb es = true -> es <> [] ->
     os.Getenv "HOME" w = "/" +:+ joinElements es ->
     fst (getOllamaModelsPath_home w)
     = OK (os.Getenv "HOME" w +:+ "/.ollama/models")).
Proof.
  unfold getOllamaModelsPath_home, getOllamaModelsPath, os.UserHomeDir, os.Stat.
  split_and!.
  - destruct (String.eqb (Getenv "OLLAMA_MODELS" w) ""); [|done].
    by destruct (String.eqb (Getenv "HOME" w) "").
  - intros Hne. apply String.eqb_neq in Hne. by rewrite Hne.
  - intros Hnone. destruct (String.eqb (Getenv "OLLAMA_MODELS" w) ""); [|done].
    change (nodeAt (log _ w) ?p) with (nodeAt w p). rewrite Hnone.
    change (Getenv "HOME" (log _ w)) with (Getenv "HOME" w).
    by destruct (String.eqb (Getenv "HOME" w) "").
  - intros -> es Hes Hne Hhome. simpl String.eqb. cbv iota.
    rewrite Hhome. change (String.eqb ("/" +:+ joinElements es) "") with false.
    cbv iota. simpl fst. f_equal.
    change (Join ["/" +:+ joinElements es; ".ollama"; "models"])
      with (Clean (joinElements ["/" +:+ joinElements es; ".ollama"; "models"])).
    rewrite joinElements_cons.
    change (joinElements [".ollama"; "models"]) with ".ollama/models".
    assert (("/" +:+ joinElements es) +:+ String "/" ".ollama/models"
            = "/" +:+ joinElements (es ++ [".ollama"; "models"])) as ->.
    { rewrite joinElements_app by done. by rewrite str_app_assoc. }
    rewrite Clean_rooted_plain.
    + by rewrite joinElements_app.
    + rewrite forallb_app, Hes. done.
Qed.

Lemma getOllamaModelsPath_home_agrees_witness :
  os.Getenv "OLLAMA_MODELS" exampleWorld <> "" /\
  getOllamaModelsPath_home exampleWorld = (OK "/models", exampleWorld) /\
  os.nodeAt emptyValueWorld systemPath = None /\
  fst (getOllamaModelsPath_home emptyValueWorld)
  = fst (getOllamaModelsPath emptyValueWorld) /\
  os.Getenv "OLLAMA_MODELS" emptyValueWorld = "" /\
  os.Getenv "HOME" emptyValueWorld = "/" +:+ joinElements ["home"; "u"] /\
  fst (getOllamaModelsPath_home emptyValueWorld) = OK "/home/u/.ollama/models".
Proof.
  assert (os.Getenv "OLLAMA_MODELS" exampleWorld <> "") as Hset by discriminate.
  split; [exact Hset|]. split.
  { exact (proj1 (proj1 (proj2 (getOllamaModelsPath_home_agrees exampleWorld)) Hset)). }
  split; [reflexivity|]. split.
  { exact (proj1 (proj2 (proj2 (getOllamaModelsPath_home_agrees emptyValueWorld)))
             eq_refl). }
  split; [reflexivity|]. split; [reflexivity|].
  exact (proj2 (proj2 (proj2 (getOllamaModelsPath_home_agrees emptyValueWorld)))
           eq_refl ["home"; "u"] eq_refl ltac:(discriminate) eq_refl).
Defined.

(** ** load: what it leaves alone *)

Global Instance sameSurroundings_refl : Reflexive sameSurroundings.
Proof. intros w. by repeat split. Qed.

Global Instance sameSurroundings_trans : Transitive sameSurroundings.
Proof.
  intros w1 w2 w3 (?&?&?&?&?&?&?&?&?&?&?) (?&?&?&?&?&?&?&?&?&?&?).
  repeat split; congruence.
Qed.

Lemma sameSurroundings_log c w : sameSurroundings w (log c w).
Proof. by repeat split. Qed.

Ltac surroundings_cases :=
  repeat match goal with
         | |- context [if ?b then _ else _] => destruct b
         | |- context [match ?x with _ => _ end] => destruct x
         end;
  by repeat split.

Lemma surroundings_MkdirAll path perm : keeps sameSurroundings (MkdirAll path perm).
Proof. intros w. unfold MkdirAll. surroundings_cases. Qed.

Lemma surroundings_OpenFile path perm : keeps sameSurroundings (OpenFile path perm).
Proof. intros w. unfold OpenFile. surroundings_cases. Qed.

Lemma surroundings_Write path k data : keeps sameSurroundings (os.Write path k data).
Proof. intros w. unfold os.Write. surroundings_cases. Qed.

Lemma surroundings_Chown path uid gid : keeps sameSurroundings (Chown path uid gid).
Proof. intros w. unfold Chown. surroundings_cases. Qed.

Lemma surroundings_chownIfKnown path uid gid :
  keeps sameSurroundings (chownIfKnown path uid gid).
Proof.
  unfold chownIfKnown. destruct (_ && _); [|apply keeps_ret, _].
  apply keeps_orFail, surroundings_Chown.
Qed.

Lemma surroundings_extractDirectory uid gid targetPath :
  keeps sameSurroundings (extractDirectory uid gid targetPath).
Proof.
  unfold extractDirectory.
  apply keeps_bind; [apply _ | apply keeps_orFail, surroundings_MkdirAll | intros _].
  apply surroundings_chownIfKnown.
Qed.

Lemma surroundings_extractFile uid gid targetPath header data complete :
  keeps sameSurroundings (extractFile uid gid targetPath header data complete).
Proof.
  unfold extractFile.
  apply keeps_bind; [apply _ | apply keeps_orFail, surroundings_MkdirAll | intros _].
  apply keeps_bind; [apply _ | apply surroundings_chownIfKnown | intros _].
  apply keeps_bind; [apply _ | apply keeps_orFail, surroundings_OpenFile | intros outFile].
  apply keeps_bind; [apply _ | apply keeps_orFail, surroundings_Write | intros _].
  apply keeps_bind; [apply _ | | intros _; apply surroundings_chownIfKnown].
  destruct complete; [apply keeps_ret, _ | apply keeps_fail, _].
Qed.

Lemma surroundings_extractEntries uid gid destPath tarReader :
  keeps sameSurroundings (extractEntries uid gid destPath tarReader).
Proof.
  induction tarReader as [| |header data complete rest IH]; simpl.
  - apply keeps_ret, _.
  - apply keeps_fail, _.
  - destruct (Type_ header).
    + apply keeps_bind; [apply _ | apply surroundings_extractFile | by intros _].
    + apply keeps_bind; [apply _ | apply surroundings_extractDirectory | by intros _].
    + apply keeps_bind; [apply _ | apply surroundings_extractFile | by intros _].
Qed.

Lemma surroundings_getOllamaUIDGID : keeps sameSurroundings getOllamaUIDGID.
Proof.
  intros w. unfold getOllamaUIDGID, LookupUser, LookupGroup.
  destruct (passwd _ !! _); simpl; [|apply sameSurroundings_log].
  assert (sameSurroundings w (log (CallLookupGroup "ollama")
                                  (log (CallLookupUser "ollama") w))) as Hlog.
  { etrans; apply sameSurroundings_log. }
  destruct (groups _ !! _); simpl; [|done].
  destruct (Atoi _); [|done]. by destruct (Atoi _).
Qed.

Lemma surroundings_getOllamaModelsPath : keeps sameSurroundings getOllamaModelsPath.
Proof.
  intros w. unfold getOllamaModelsPath.
  destruct (String.eqb _ ""); [|simpl; reflexivity].
  unfold Stat. destruct (nodeAt _ systemPath); simpl; [apply sameSurroundings_log|].
  unfold UserHomeDir. destruct (String.eqb _ ""); apply sameSurroundings_log.
Qed.

Section LoadReports.
Context `{Libraries}.

Lemma surroundings_extractTarball fileName destPath :
  keeps sameSurroundings (extractTarball fileName destPath).
Proof.
  unfold extractTarball.
  apply keeps_bind; [apply _ | apply keeps_orFail, surroundings_getOllamaUIDGID|].
  intros [uid gid].
  apply keeps_bind; [apply _ | apply keeps_orFail | intros file].
  { intros w. unfold Open. destruct (nodeAt _ _); apply sameSurroundings_log. }
  destruct (codecOf fileName) as [codec|]; [|apply keeps_fail, _].
  destruct (newTarReader codec file); [|apply keeps_fail, _].
  apply surroundings_extractEntries.
Qed.

(** X11.  load reports on standard error exactly when it succeeds: one
    line that names the archive and the storage root it was extracted
    to.  When load fails it has written nothing to standard error, and it
    never writes to standard output. *)
Theorem loadCmd_RunE_reports fileName w :
  stdout (snd (loadCmd_RunE fileName w)) = stdout w /\
  (forall e, fst (loadCmd_RunE fileName w) = Err e ->
             stderr (snd (loadCmd_RunE fileName w)) = stderr w) /\
  (fst (loadCmd_RunE fileName w) = OK tt ->
   exists modelPath,
     fst (getOllamaModelsPath w) = OK modelPath /\
     fst (extractTarball fileName modelPath (snd (getOllamaModelsPath w))) = OK tt /\
     stderr (snd (loadCmd_RunE fileName w))
     = stderr w ++ ["Successfully loaded model from " +:+ fileName
                    +:+ " to " +:+ modelPath]).
Proof.
  unfold loadCmd_RunE, mbind, IO_bind, bind.
  pose proof (surroundings_getOllamaModelsPath w) as Hroot.
  destruct (getOllamaModelsPath w) as [[modelPath|e1] w1]; simpl in Hroot.
  - pose proof (surroundings_extractTarball fileName modelPath w1) as Hex.
    destruct (extractTarball fileName modelPath w1) as [[[]|e2] w2] eqn:Hrun;
      simpl in Hex.
    + assert (sameSurroundings w w2) as (_&_&_&_&_&_&_&_&_&Hout&Herr)
        by (by etrans).
      simpl. split_and!; [done|done|]. intros _. exists modelPath.
      rewrite Hrun. split_and!; [done|done|]. by rewrite Herr.
    + assert (sameSurroundings w w2) as (_&_&_&_&_&_&_&_&_&Hout&Herr)
        by (by etrans).
      simpl. split_and!; done.
  - destruct Hroot as (_&_&_&_&_&_&_&_&_&Hout&Herr). simpl. split_and!; done.
Qed.

End LoadReports.

Lemma loadCmd_RunE_reports_witness :
  fst (@loadCmd_RunE testLibraries "/tmp/llama2.tar" exampleWorld) = OK tt /\
  stderr (snd (@loadCmd_RunE testLibraries "/tmp/llama2.tar" exampleWorld))
  = ["Successfully loaded model from /tmp/llama2.tar to /models"] /\
  fst (@loadCmd_RunE testLibraries "/tmp/llama2.zip" exampleWorld) = Err OpenError /\
  stderr (snd (@loadCmd_RunE testLibraries "/tmp/llama2.zip" exampleWorld)) = [].
Proof.
  assert (fst (@loadCmd_RunE testLibraries "/tmp/llama2.tar" exampleWorld) = OK tt)
    as Hok by (by vm_compute).
  assert (fst (@loadCmd_RunE testLibraries "/tmp/llama2.zip" exampleWorld)
          = Err OpenError) as Hfail by (by vm_compute).
  split; [exact Hok|]. split.
  { destruct (proj2 (proj2 (@loadCmd_RunE_reports testLibraries "/tmp/llama2.tar"
                              exampleWorld)) Hok) as (modelPath & Hroot & _ & ->).
    injection Hroot as <-. reflexivity. }
  split; [exact Hfail|].
  exact (proj1 (proj2 (@loadCmd_RunE_reports testLibraries "/tmp/llama2.zip"
                         exampleWorld)) _ Hfail).
Defined.

(** ** load: a damaged archive *)


Section Damaged.
Context `{Libraries}.


End Damaged.


(** ** What the calls do to one place of the tree *)

Lemma lookupTree_insert_root f n K : lookupTree (<[ [] := n ]> f) K = lookupTree f K.
Proof. destruct K as [|e K]; [done|]. simpl. by rewrite lookup_insert_ne. Qed.

Lemma mkdirAll_inv w perm rk : forall f f',
  mkdirAll w perm rk f = Some f' ->
  forall K, lookupTree f' K = lookupTree f K \/
            (lookupTree f K = None /\ K `prefix_of` rev rk /\
             lookupTree f' K = Some (Directory (masked perm w) (euid w) (egid w))).
Proof.
  induction rk as [|e rk IH]; intros f f' Hrun K.
  - simpl in Hrun. injection Hrun as <-. by left.
  - rewrite mkdirAll_cons in Hrun.
    destruct (lookupTree f (rev (e :: rk))) as [[mode u g c|mode u g]|] eqn:Hhere;
      [done|injection Hrun as <-; by left|].
    destruct (mkdirAll w perm rk f) as [f1|] eqn:Hparent; [|done].
    injection Hrun as <-.
    assert (rev (e :: rk) <> []) as Hne by (simpl; by destruct (rev rk)).
    rewrite lookupTree_insert by done. case_decide as HK.
    + subst K. right. by split_and!.
    + destruct (IH f f1 Hparent K) as [?|(? & Hpre & ?)]; [by left|].
      right. split_and!; [done| |done]. simpl. by apply prefix_app_r.
Qed.

Lemma MkdirAll_effect path perm w K :
  lookupTree (fs (snd (MkdirAll path perm w))) K = lookupTree (fs w) K \/
  (lookupTree (fs w) K = None /\ K `prefix_of` resolve w path /\
   lookupTree (fs (snd (MkdirAll path perm w))) K
   = Some (Directory (masked perm w) (euid w) (egid w))).
Proof.
  unfold MkdirAll. destruct (String.eqb path ""); [by left|].
  change (resolve (log _ w) path) with (resolve w path).
  change (fs (log _ w)) with (fs w).
  destruct (mkdirAll (log (CallMkdirAll path) w) perm (rev (resolve w path)) (fs w))
    as [f'|] eqn:Hrun; [|by left].
  simpl. destruct (mkdirAll_inv _ _ _ _ _ Hrun K) as [?|(? & Hpre & ?)]; [by left|].
  right. rewrite rev_involutive in Hpre. by split_and!.
Qed.

Lemma Chown_effect path uid gid w K :
  lookupTree (fs (snd (Chown path uid gid w))) K = lookupTree (fs w) K \/
  (K = resolve w path /\ fst (Chown path uid gid w) = OK tt /\
   exists n, lookupTree (fs w) K = Some n /\
             lookupTree (fs (snd (Chown path uid gid w))) K = Some (withOwner uid gid n)).
Proof.
  unfold Chown. destruct (String.eqb path ""); [by left|].
  change (resolve (log _ w) path) with (resolve w path).
  change (fs (log _ w)) with (fs w).
  destruct (lookupTree (fs w) (resolve w path)) as [[mode u g c|mode u g]|] eqn:Hhere;
    [| |by left].
  - destruct (_ || _); [|by left]. simpl.
    assert (resolve w path <> []) as Hne by (intros E; by rewrite E in Hhere).
    rewrite lookupTree_insert by done. case_decide as HK; [|by left].
    subst K. right. split_and!; [done|done|]. by eexists.
  - destruct (_ || _); [|by left].
    destruct (resolve w path) as [|e k] eqn:Hk; [by left|]. simpl.
    rewrite lookupTree_insert by done. case_decide as HK; [|by left].
    subst K. right. split_and!; [done|done|]. by eexists.
Qed.

Lemma OpenFile_effect path perm w K :
  lookupTree (fs (snd (OpenFile path perm w))) K = lookupTree (fs w) K \/
  (K = resolve w path /\ fst (OpenFile path perm w) = OK K /\
   ((exists mode u g c,
        lookupTree (fs w) K = Some (File mode u g c) /\
        lookupTree (fs (snd (OpenFile path perm w))) K = Some (File mode u g "")) \/
    (lookupTree (fs w) K = None /\
     lookupTree (fs (snd (OpenFile path perm w))) K
     = Some (File (masked perm w) (euid w) (egid w) "")))).
Proof.
  unfold OpenFile. destruct (String.eqb path ""); [by left|].
  change (resolve (log _ w) path) with (resolve w path).
  change (fs (log _ w)) with (fs w).
  destruct (lookupTree (fs w) (resolve w path)) as [[mode u g c|mode u g]|] eqn:Hhere.
  - simpl. assert (resolve w path <> []) as Hne by (intros E; by rewrite E in Hhere).
    rewrite lookupTree_insert by done. case_decide as HK; [|by left].
    subst K. right. split_and!; [done|done|]. left. by exists mode, u, g, c.
  - by left.
  - destruct (lookupTree (fs w) (removelast (resolve w path)))
      as [[mode u g c|mode u g]|]; [by left| |by left].
    simpl. assert (resolve w path <> []) as Hne by (intros E; by rewrite E in Hhere).
    rewrite lookupTree_insert by done. case_decide as HK; [|by left].
    subst K. right. split_and!; [done|done|]. by right.
Qed.

Lemma OpenFile_handle path perm w k w' :
  OpenFile path perm w = (OK k, w') -> k = resolve w path.
Proof.
  unfold OpenFile. destruct (String.eqb path ""); [done|].
  change (resolve (log _ w) path) with (resolve w path).
  destruct (lookupTree _ (resolve w path)) as [[mode u g c|mode u g]|];
    [by intros [= <- _]|done|].
  destruct (lookupTree _ _) as [[? ? ? ?|? ? ?]|]; try done. by intros [= <- _].
Qed.

Lemma Write_effect path k data w K :
  lookupTree (fs (snd (os.Write path k data w))) K = lookupTree (fs w) K \/
  (K = k /\ fst (os.Write path k data w) = OK tt /\
   exists mode u g c,
     lookupTree (fs w) K = Some (File mode u g c) /\
     lookupTree (fs (snd (os.Write path k data w))) K
     = Some (File mode u g (c +:+ data))).
Proof.
  unfold os.Write. change (fs (log _ w)) with (fs w).
  destruct (fs w !! k) as [[mode u g c|mode u g]|] eqn:Hhere; [|by left..].
  simpl. destruct k as [|e k]; [left; apply lookupTree_insert_root|].
  rewrite lookupTree_insert by done. case_decide as HK; [|by left].
  subst K. right. split_and!; [done|done|]. by exists mode, u, g, c.
Qed.

(** ** Places load does not touch *)

Global Instance besides_refl w0 allowed : Reflexive (besides w0 allowed).
Proof. intros w Hsur. split; [done|]. intros K _. by left. Qed.

Global Instance besides_trans w0 allowed : Transitive (besides w0 allowed).
Proof.
  intros w1 w2 w3 H12 H23 Hsur. destruct (H12 Hsur) as [Hsur2 Hk2].
  destruct (H23 Hsur2) as [Hsur3 Hk3]. split; [done|]. intros K HK.
  destruct (Hk2 K HK) as [E2|[E2 N2]], (Hk3 K HK) as [E3|[E3 N3]].
  - left. congruence.
  - right. split; congruence.
  - right. split; congruence.
  - congruence.
Qed.

Lemma newDirectory_same w0 w :
  sameSurroundings w0 w ->
  Directory (masked ModePerm w) (euid w) (egid w) = newDirectory w0.
Proof.
  intros (_&_&_&_&He&Hg&Hu&_). unfold newDirectory, masked. by rewrite He, Hg, Hu.
Qed.

Lemma besides_step w0 allowed {A} (m : IO A) :
  keeps sameSurroundings m ->
  (forall w K, sameSurroundings w0 w -> ~ allowed K ->
     lookupTree (fs (snd (m w))) K = lookupTree (fs w) K \/
     (lookupTree (fs w) K = None /\
      lookupTree (fs (snd (m w))) K = Some (newDirectory w0))) ->
  keeps (besides w0 allowed) m.
Proof.
  intros Hsur Hk w Hw. split; [by etrans; [|apply Hsur]|].
  intros K HK. by apply Hk.
Qed.

Lemma besides_MkdirAll w0 allowed path :
  keeps (besides w0 allowed) (MkdirAll path ModePerm).
Proof.
  apply besides_step; [apply surroundings_MkdirAll|]. intros w K Hw _.
  destruct (MkdirAll_effect path ModePerm w K) as [?|(? & _ & ?)]; [by left|].
  right. by rewrite <- (newDirectory_same w0 w).
Qed.

Lemma resolve_surroundings w0 w path :
  sameSurroundings w0 w -> resolve w path = resolve w0 path.
Proof. intros [Hcwd _]. unfold resolve. by rewrite Hcwd. Qed.

Lemma besides_Chown w0 (allowed : list string -> Prop) path uid gid :
  allowed (resolve w0 path) -> keeps (besides w0 allowed) (Chown path uid gid).
Proof.
  intros Hal. apply besides_step; [apply surroundings_Chown|]. intros w K Hw HK.
  destruct (Chown_effect path uid gid w K) as [?|(-> & _)]; [by left|].
  by rewrite (resolve_surroundings w0 w) in HK.
Qed.

Lemma besides_chownIfKnown w0 (allowed : list string -> Prop) path uid gid :
  allowed (resolve w0 path) -> keeps (besides w0 allowed) (chownIfKnown path uid gid).
Proof.
  intros Hal. unfold chownIfKnown. destruct (_ && _); [|apply keeps_ret, _].
  by apply keeps_orFail, besides_Chown.
Qed.

Lemma besides_OpenFile w0 (allowed : list string -> Prop) path perm :
  allowed (resolve w0 path) -> keeps (besides w0 allowed) (OpenFile path perm).
Proof.
  intros Hal. apply besides_step; [apply surroundings_OpenFile|]. intros w K Hw HK.
  destruct (OpenFile_effect path perm w K) as [?|(-> & _)]; [by left|].
  by rewrite (resolve_surroundings w0 w) in HK.
Qed.

Lemma besides_Write w0 (allowed : list string -> Prop) path k data :
  allowed k -> keeps (besides w0 allowed) (os.Write path k data).
Proof.
  intros Hal. apply besides_step; [apply surroundings_Write|]. intros w K Hw HK.
  destruct (Write_effect path k data w K) as [?|(-> & _)]; [by left|]. done.
Qed.

Lemma besides_extractDirectory w0 (allowed : list string -> Prop) uid gid targetPath :
  allowed (resolve w0 targetPath) ->
  keeps (besides w0 allowed) (extractDirectory uid gid targetPath).
Proof.
  intros Hal. unfold extractDirectory.
  apply keeps_bind; [apply _ | apply keeps_orFail, besides_MkdirAll | intros _].
  by apply besides_chownIfKnown.
Qed.

Lemma besides_extractFile w0 (allowed : list string -> Prop) uid gid targetPath
    header data complete :
  allowed (resolve w0 targetPath) -> allowed (resolve w0 (Dir targetPath)) ->
  keeps (besides w0 allowed) (extractFile uid gid targetPath header data complete).
Proof.
  intros Hal Hpar. unfold extractFile.
  apply keeps_bind; [apply _ | apply keeps_orFail, besides_MkdirAll | intros _].
  apply keeps_bind; [apply _ | by apply besides_chownIfKnown | intros _].
  intros w Hw. unfold mbind, IO_bind, bind, orFail.
  pose proof (besides_OpenFile w0 allowed targetPath (Mode header) Hal w) as Hopen.
  destruct (OpenFile targetPath (Mode header) w) as [[k|e] w1] eqn:Hrun;
    simpl in Hopen; [|by apply Hopen].
  apply OpenFile_handle in Hrun as ->.
  rewrite (resolve_surroundings w0 w) by done.
  revert Hw. change (besides w0 allowed w
    (snd ((orFail (os.Write targetPath (resolve w0 targetPath) data)
                  (fun _ => WriteFileError targetPath) ;;
           (if complete then ret tt else fail (WriteFileError targetPath)) ;;
           chownIfKnown targetPath uid gid) w1))).
  etrans; [exact Hopen|]. revert w1 Hopen. intros w1 _. revert w1.
  apply keeps_bind; [apply _ | by apply keeps_orFail, besides_Write | intros _].
  apply keeps_bind; [apply _ | | intros _; by apply besides_chownIfKnown].
  destruct complete; [apply keeps_ret, _ | apply keeps_fail, _].
Qed.

Lemma besides_extractEntries w0 (allowed : list string -> Prop) uid gid destPath
    tarReader :
  (forall h, h ∈ headersOf tarReader ->
     allowed (resolve w0 (Join [destPath; Name h])) /\
     (Type_ h <> TypeDir -> allowed (resolve w0 (Dir (Join [destPath; Name h]))))) ->
  keeps (besides w0 allowed) (extractEntries uid gid destPath tarReader).
Proof.
  induction tarReader as [| |header data complete rest IH]; intros Hal; simpl.
  - apply keeps_ret, _.
  - apply keeps_fail, _.
  - destruct (Hal header) as [Ht Hp]; [simpl; apply elem_of_cons; by left|].
    assert (keeps (besides w0 allowed) (extractEntries uid gid destPath rest)) as Hrest.
    { apply IH. intros h Hh. apply Hal. simpl. apply elem_of_cons. by right. }
    destruct (Type_ header) eqn:Hty.
    + apply keeps_bind; [apply _ | by apply besides_extractFile; [|apply Hp] | by intros _].
    + apply keeps_bind; [apply _ | by apply besides_extractDirectory | by intros _].
    + apply keeps_bind; [apply _ | by apply besides_extractFile; [|apply Hp] | by intros _].
Qed.

(** ** Where an entry is written *)

(** Below a directory, a path leads where its elements lead from there. *)
Lemma resolve_Join_walk w d p :
  d <> "" ->
  resolve w (Join [d; p]) = rev (fold_left walkStep (elements p) (rev (resolve w d))).
Proof.
  intros Hd. cbn [Join]. apply String.eqb_neq in Hd as Hd'. rewrite Hd'.
  rewrite resolve_Clean, joinElements_cons. change (joinElements [p]) with p.
  unfold resolve. rewrite elements_app_slash, fold_left_app, IsAbs_app by done.
  by rewrite rev_involutive.
Qed.

Lemma walk_down es : forall at_rev,
  Forall (fun e => e <> "..") es ->
  at_rev `suffix_of` fold_left walkStep es at_rev.
Proof.
  induction es as [|e es IH]; intros at_rev Hes; [done|].
  apply Forall_cons in Hes as [He Hes]. simpl.
  etrans; [|by apply IH]. unfold walkStep.
  destruct (_ || _); [done|]. apply String.eqb_neq in He. rewrite He.
  by apply suffix_cons_r.
Qed.

Lemma suffix_rev_prefix (a x : list string) :
  a `suffix_of` x -> rev a `prefix_of` rev x.
Proof. intros [k ->]. rewrite rev_app_distr. by exists (rev k). Qed.

Lemma resolve_Join_below w d p :
  d <> "" -> Forall (fun e => e <> "..") (elements p) ->
  resolve w d `prefix_of` resolve w (Join [d; p]).
Proof.
  intros Hd Hp. rewrite resolve_Join_walk by done.
  rewrite <- (rev_involutive (resolve w d)) at 1.
  by apply suffix_rev_prefix, walk_down.
Qed.

Section Confined.
Context `{Libraries}.

(** The world [extractTarball] returns is the one of the extraction loop,
    or one with the file tree as before. *)
Lemma extractTarball_cases fileName destPath w :
  (fs (snd (extractTarball fileName destPath w)) = fs w) \/
  exists uid gid w1 codec file tarReader,
    sameSurroundings w w1 /\ fs w1 = fs w /\
    os.nodeAt w fileName = Some file /\ codecOf fileName = Some codec /\
    newTarReader codec file = OK tarReader /\
    extractTarball fileName destPath w = extractEntries uid gid destPath tarReader w1.
Proof.
  pose proof (surroundings_getOllamaUIDGID w) as Hsur.
  pose proof (getOllamaUIDGID_frame w) as (Hfs & _ & _).
  destruct (getOllamaUIDGID w) as [[[uid gid]|e] w1] eqn:Hids; simpl in Hsur, Hfs.
  - destruct (os.nodeAt w fileName) as [file|] eqn:Hfile.
    + rewrite (extractTarball_opened _ _ _ _ _ _ _ Hids Hfile).
      destruct (codecOf fileName) as [codec|] eqn:Hcodec; [|by left].
      destruct (newTarReader codec file) as [tarReader|e] eqn:Hreader; [|by left].
      right. exists uid, gid, (log (CallOpen fileName) w1), codec, file, tarReader.
      split_and!; [etrans; [exact Hsur|apply sameSurroundings_log] | done..].
    + left. unfold extractTarball, mbind, IO_bind, bind, orFail. rewrite Hids.
      unfold Open. change (nodeAt (log _ w1) fileName) with (nodeAt w1 fileName).
      rewrite (nodeAt_same w w1), Hfile; [done|done|apply Hsur].
  - left. unfold extractTarball, mbind, IO_bind, bind, orFail. by rewrite Hids.
Qed.

(** X13.  An archive whose names do not climb stays below the
    destination.  When no directory entry has [".."] among the elements
    of its name and every other entry has a clean relative name, then
    outside the destination the extraction changes nothing that is
    there, whether it succeeds or not; it can at most create missing
    directories, those above the destination. *)
Theorem extractTarball_confined fileName destPath w K :
  destPath <> "" ->
  (forall codec file tarReader h,
      codecOf fileName = Some codec -> os.nodeAt w fileName = Some file ->
      newTarReader codec file = OK tarReader -> h ∈ headersOf tarReader ->
      match Type_ h with
      | TypeDir => Forall (fun e => e <> "..") (elements (Name h))
      | _ => isLocal (Name h) = true
      end) ->
  ~ resolve w destPath `prefix_of` K ->
  lookupTree (fs (snd (extractTarball fileName destPath w))) K = lookupTree (fs w) K \/
  (lookupTree (fs w) K = None /\
   lookupTree (fs (snd (extractTarball fileName destPath w))) K
   = Some (newDirectory w)).
Proof.
  intros Hdest Hnames HK.
  destruct (extractTarball_cases fileName destPath w)
    as [->|(uid & gid & w1 & codec & file & tarReader & Hsur & Hfs & Hfile & Hcodec
            & Hreader & ->)]; [by left|].
  destruct (besides_extractEntries w (fun k => resolve w destPath `prefix_of` k)
              uid gid destPath tarReader) with (w := w1) as [_ Hk]; [|done|].
  - intros h Hh. specialize (Hnames codec file tarReader h Hcodec Hfile Hreader Hh).
    destruct (Type_ h) eqn:Hty.
    + destruct (join_target w destPath (Name h) Hnames) as (_ & _ & -> & -> & _).
      split; [|intros _]; by apply prefix_app_r.
    + split; [by apply resolve_Join_below|done].
    + destruct (join_target w destPath (Name h) Hnames) as (_ & _ & -> & -> & _).
      split; [|intros _]; by apply prefix_app_r.
  - unfold lookupTree in *. rewrite <- Hfs. apply (Hk K HK).
Qed.

(** X14.  The directories that load creates on the way to an entry stay
    with the process.  A place where nothing was, and that is neither
    the target of an entry nor the directory of a file entry, holds after
    the extraction nothing or a directory with the mode 0777 less the
    umask and the user and group of the process, also when the ollama
    account is known: only the files, their directories and the directory
    entries are given to the account. *)
Theorem extractTarball_intermediate fileName destPath w K :
  lookupTree (fs w) K = None ->
  (forall codec file tarReader h,
      codecOf fileName = Some codec -> os.nodeAt w fileName = Some file ->
      newTarReader codec file = OK tarReader -> h ∈ headersOf tarReader ->
      K <> resolve w (Join [destPath; Name h]) /\
      K <> resolve w (Dir (Join [destPath; Name h]))) ->
  lookupTree (fs (snd (extractTarball fileName destPath w))) K = None \/
  lookupTree (fs (snd (extractTarball fileName destPath w))) K
  = Some (Directory (Z.ldiff 511 (umask w)) (euid w) (egid w)).
Proof.
  intros Hnone Hnames.
  destruct (extractTarball_cases fileName destPath w)
    as [->|(uid & gid & w1 & codec & file & tarReader & Hsur & Hfs & Hfile & Hcodec
            & Hreader & ->)]; [by left|].
  destruct (besides_extractEntries w
              (fun k => exists h, h ∈ headersOf tarReader /\
                                  (k = resolve w (Join [destPath; Name h]) \/
                                   k = resolve w (Dir (Join [destPath; Name h]))))
              uid gid destPath tarReader) with (w := w1) as [_ Hk]; [|done|].
  - intros h Hh. split; [|intros _]; exists h; split; auto.
  - destruct (Hk K) as [E|[_ E]].
    + intros (h & Hh & Hcase).
      destruct (Hnames codec file tarReader h Hcodec Hfile Hreader Hh) as [H1 H2].
      by destruct Hcase.
    + left. rewrite E. unfold lookupTree in *. by rewrite Hfs.
    + right. exact E.
Qed.

End Confined.

Lemma example_reader codec file tarReader h :
  codecOf "/tmp/llama2.tar" = Some codec ->
  os.nodeAt exampleWorld "/tmp/llama2.tar" = Some file ->
  @newTarReader testLibraries codec file = OK tarReader ->
  h ∈ headersOf tarReader ->
  h ∈ map fst exampleEntries.
Proof. intros [= <-] [= <-] [= <-] Hh. exact Hh. Qed.

Lemma extractTarball_confined_witness :
  "/restore/" <> "" /\
  ~ resolve exampleWorld "/restore/" `prefix_of` ["models"; "blobs"; "sha256-aa"] /\
  (lookupTree (fs (snd (@extractTarball testLibraries "/tmp/llama2.tar" "/restore/"
                          exampleWorld))) ["models"; "blobs"; "sha256-aa"]
   = lookupTree (fs exampleWorld) ["models"; "blobs"; "sha256-aa"] \/
   (lookupTree (fs exampleWorld) ["models"; "blobs"; "sha256-aa"] = None /\
    lookupTree (fs (snd (@extractTarball testLibraries "/tmp/llama2.tar" "/restore/"
                           exampleWorld))) ["models"; "blobs"; "sha256-aa"]
    = Some (newDirectory exampleWorld))).
Proof.
  assert ("/restore/" <> "") as Hdest by discriminate.
  assert (~ resolve exampleWorld "/restore/" `prefix_of` ["models"; "blobs"; "sha256-aa"])
    as HK.
  { intros [k Hk]. discriminate Hk. }
  split; [exact Hdest|]. split; [exact HK|].
  apply (@extractTarball_confined testLibraries "/tmp/llama2.tar" "/restore/"
           exampleWorld _ Hdest); [|exact HK].
  intros codec file tarReader h Hcodec Hfile Hreader Hh.
  pose proof (example_reader _ _ _ _ Hcodec Hfile Hreader Hh) as Hin.
  simpl in Hin.
  repeat (apply elem_of_cons in Hin as [->|Hin]; [reflexivity|]).
  by apply elem_of_nil in Hin.
Defined.

Lemma service_reader codec file tarReader h :
  codecOf "/tmp/llama2.tar" = Some codec ->
  os.nodeAt serviceWorld "/tmp/llama2.tar" = Some file ->
  @newTarReader testLibraries codec file = OK tarReader ->
  h ∈ headersOf tarReader ->
  h ∈ map fst exampleEntries.
Proof. intros [= <-] [= <-] [= <-] Hh. exact Hh. Qed.

Lemma extractTarball_intermediate_witness :
  fst (getOllamaUIDGID serviceWorld) = OK (998%Z, 997%Z) /\
  lookupTree (fs serviceWorld) ["restore"; "manifests"] = None /\
  lookupTree (fs (snd (@extractTarball testLibraries "/tmp/llama2.tar" "/restore/"
                         serviceWorld))) ["restore"; "manifests"]
  = Some (Directory 493 0 0) /\
  lookupTree (fs (snd (@extractTarball testLibraries "/tmp/llama2.tar" "/restore/"
                         serviceWorld))) ["restore"; "blobs"]
  = Some (Directory 493 998 997).
Proof.
  split; [reflexivity|]. split; [reflexivity|]. split; [|by vm_compute].
  destruct (@extractTarball_intermediate testLibraries "/tmp/llama2.tar" "/restore/"
              serviceWorld ["restore"; "manifests"] eq_refl) as [Hnone|Hdir].
  - intros codec file tarReader h Hcodec Hfile Hreader Hh.
    pose proof (service_reader _ _ _ _ Hcodec Hfile Hreader Hh) as Hin.
    simpl in Hin.
    repeat (apply elem_of_cons in Hin as [->|Hin]; [by vm_compute|]).
    by apply elem_of_nil in Hin.
  - vm_compute in Hnone. discriminate Hnone.
  - exact Hdir.
Defined.

(** ** load with the ollama account *)

Global Instance keepsOwned_refl uid gid : Reflexive (keepsOwned uid gid).
Proof. by intros w K. Qed.

Global Instance keepsOwned_trans uid gid : Transitive (keepsOwned uid gid).
Proof. intros w1 w2 w3 H12 H23 K HK. by apply H23, H12. Qed.

Lemma ownedBy_withOwner uid gid n : ownedBy uid gid (Some (withOwner uid gid n)).
Proof. by destruct n. Qed.

Lemma owned_MkdirAll uid gid path perm : keeps (keepsOwned uid gid) (MkdirAll path perm).
Proof.
  intros w K HK.
  destruct (MkdirAll_effect path perm w K) as [->|(Hnone & _)]; [done|].
  by rewrite Hnone in HK.
Qed.

Lemma owned_Chown uid gid path : keeps (keepsOwned uid gid) (Chown path uid gid).
Proof.
  intros w K HK.
  destruct (Chown_effect path uid gid w K) as [->|(_ & _ & n & _ & ->)]; [done|].
  apply ownedBy_withOwner.
Qed.

Lemma owned_chownIfKnown uid gid path :
  keeps (keepsOwned uid gid) (chownIfKnown path uid gid).
Proof.
  unfold chownIfKnown. destruct (_ && _); [|apply keeps_ret, _].
  apply keeps_orFail, owned_Chown.
Qed.

Lemma owned_OpenFile uid gid path perm : keeps (keepsOwned uid gid) (OpenFile path perm).
Proof.
  intros w K HK.
  destruct (OpenFile_effect path perm w K)
    as [->|(_ & _ & [(mode & u & g & c & Hb & ->)|(Hnone & _)])]; [done| |].
  - by rewrite Hb in HK.
  - by rewrite Hnone in HK.
Qed.

Lemma owned_Write uid gid path k data : keeps (keepsOwned uid gid) (os.Write path k data).
Proof.
  intros w K HK.
  destruct (Write_effect path k data w K)
    as [->|(_ & _ & mode & u & g & c & Hb & ->)]; [done|].
  by rewrite Hb in HK.
Qed.

Lemma owned_extractDirectory uid gid targetPath :
  keeps (keepsOwned uid gid) (extractDirectory uid gid targetPath).
Proof.
  unfold extractDirectory.
  apply keeps_bind; [apply _ | apply keeps_orFail, owned_MkdirAll | intros _].
  apply owned_chownIfKnown.
Qed.

Lemma owned_extractFile uid gid targetPath header data complete :
  keeps (keepsOwned uid gid) (extractFile uid gid targetPath header data complete).
Proof.
  unfold extractFile.
  apply keeps_bind; [apply _ | apply keeps_orFail, owned_MkdirAll | intros _].
  apply keeps_bind; [apply _ | apply owned_chownIfKnown | intros _].
  apply keeps_bind; [apply _ | apply keeps_orFail, owned_OpenFile | intros outFile].
  apply keeps_bind; [apply _ | apply keeps_orFail, owned_Write | intros _].
  apply keeps_bind; [apply _ | | intros _; apply owned_chownIfKnown].
  destruct complete; [apply keeps_ret, _ | apply keeps_fail, _].
Qed.

Lemma owned_extractEntries uid gid destPath tarReader :
  keeps (keepsOwned uid gid) (extractEntries uid gid destPath tarReader).
Proof.
  induction tarReader as [| |header data complete rest IH]; simpl.
  - apply keeps_ret, _.
  - apply keeps_fail, _.
  - destruct (Type_ header).
    + apply keeps_bind; [apply _ | apply owned_extractFile | by intros _].
    + apply keeps_bind; [apply _ | apply owned_extractDirectory | by intros _].
    + apply keeps_bind; [apply _ | apply owned_extractFile | by intros _].
Qed.

(** A change of owner that succeeded has been made, but at the root. *)
Lemma Chown_done path uid gid w w' :
  Chown path uid gid w = (OK tt, w') ->
  resolve w path <> [] ->
  ownedBy uid gid (lookupTree (fs w') (resolve w path)).
Proof.
  unfold Chown. destruct (String.eqb path ""); [done|].
  change (resolve (log _ w) path) with (resolve w path).
  change (fs (log _ w)) with (fs w).
  destruct (lookupTree (fs w) (resolve w path)) as [[mode u g c|mode u g]|] eqn:Hhere;
    [| |done].
  - destruct (_ || _); [|done]. intros [= <-] Hk. simpl.
    rewrite lookupTree_insert by done. by rewrite decide_True.
  - destruct (_ || _); [|done]. intros Hrun Hk.
    destruct (resolve w path) as [|e k] eqn:Hres; [done|].
    injection Hrun as <-. cbn [fs set_fs].
    rewrite lookupTree_insert by done. by rewrite decide_True.
Qed.

Lemma chownIfKnown_done path uid gid w w' :
  uid <> (-1)%Z -> gid <> (-1)%Z ->
  chownIfKnown path uid gid w = (OK tt, w') ->
  resolve w path <> [] ->
  ownedBy uid gid (lookupTree (fs w') (resolve w path)).
Proof.
  intros Hu Hg Hrun Hk. unfold chownIfKnown in Hrun.
  apply Z.eqb_neq in Hu, Hg. rewrite Hu, Hg in Hrun. simpl in Hrun.
  unfold orFail in Hrun.
  destruct (Chown path uid gid w) as [[[]|e] w1] eqn:HC; [|done].
  injection Hrun as <-. by apply (Chown_done path uid gid w).
Qed.

Lemma OpenFile_not_root path perm w k w' :
  OpenFile path perm w = (OK k, w') -> resolve w path <> [].
Proof.
  unfold OpenFile. destruct (String.eqb path ""); [done|].
  change (resolve (log _ w) path) with (resolve w path).
  change (fs (log _ w)) with (fs w). intros Hrun Hk. rewrite Hk in Hrun. done.
Qed.

(** The owner of what one entry leaves. *)
Lemma extractFile_owner uid gid targetPath header data complete w w' :
  uid <> (-1)%Z -> gid <> (-1)%Z ->
  extractFile uid gid targetPath header data complete w = (OK tt, w') ->
  ownedBy uid gid (lookupTree (fs w') (resolve w targetPath)) /\
  (resolve w (Dir targetPath) <> [] ->
   ownedBy uid gid (lookupTree (fs w') (resolve w (Dir targetPath)))).
Proof.
  intros Hu Hg. unfold extractFile, mbind, IO_bind, bind, orFail.
  pose proof (surroundings_MkdirAll (Dir targetPath) ModePerm w) as S1.
  destruct (MkdirAll (Dir targetPath) ModePerm w) as [[[]|e1] w1]; [|done].
  pose proof (surroundings_chownIfKnown (Dir targetPath) uid gid w1) as S2.
  destruct (chownIfKnown (Dir targetPath) uid gid w1) as [[[]|e2] w2] eqn:R2; [|done].
  pose proof (surroundings_OpenFile targetPath (Mode header) w2) as S3.
  pose proof (owned_OpenFile uid gid targetPath (Mode header) w2) as O3.
  destruct (OpenFile targetPath (Mode header) w2) as [[k|e3] w3] eqn:R3; [|done].
  pose proof (surroundings_Write targetPath k data w3) as S4.
  pose proof (owned_Write uid gid targetPath k data w3) as O4.
  destruct (os.Write targetPath k data w3) as [[[]|e4] w4]; [|done].
  destruct complete; [|done]. unfold ret.
  pose proof (owned_chownIfKnown uid gid targetPath w4) as O5.
  destruct (chownIfKnown targetPath uid gid w4) as [[[]|e5] w5] eqn:R5; [|done].
  intros [= <-]. simpl in *.
  assert (sameSurroundings w w2) as S12 by (by etrans).
  assert (sameSurroundings w w4) as S14 by (etrans; [exact S12|by etrans]).
  split.
  - rewrite <- (resolve_surroundings w w4) by done.
    apply (chownIfKnown_done _ _ _ _ _ Hu Hg R5).
    rewrite (resolve_surroundings w w4), <- (resolve_surroundings w w2) by done.
    by apply OpenFile_not_root in R3.
  - intros Hk. apply O5, O4, O3.
    rewrite <- (resolve_surroundings w w1) in * by done.
    by apply (chownIfKnown_done _ _ _ _ _ Hu Hg R2).
Qed.

Lemma extractDirectory_owner uid gid targetPath w w' :
  uid <> (-1)%Z -> gid <> (-1)%Z ->
  extractDirectory uid gid targetPath w = (OK tt, w') ->
  resolve w targetPath <> [] ->
  ownedBy uid gid (lookupTree (fs w') (resolve w targetPath)).
Proof.
  intros Hu Hg. unfold extractDirectory, mbind, IO_bind, bind, orFail.
  pose proof (surroundings_MkdirAll targetPath ModePerm w) as S1.
  destruct (MkdirAll targetPath ModePerm w) as [[[]|e1] w1]; [|done].
  intros Hrun Hk. simpl in S1.
  rewrite <- (resolve_surroundings w w1) in * by done.
  by apply (chownIfKnown_done _ _ _ _ _ Hu Hg Hrun).
Qed.

Lemma extractEntries_owner uid gid destPath tarReader :
  uid <> (-1)%Z -> gid <> (-1)%Z ->
  forall w w',
    extractEntries uid gid destPath tarReader w = (OK tt, w') ->
    forall h, h ∈ headersOf tarReader ->
      (resolve w (Join [destPath; Name h]) <> [] ->
       ownedBy uid gid (lookupTree (fs w') (resolve w (Join [destPath; Name h])))) /\
      (Type_ h <> TypeDir -> resolve w (Dir (Join [destPath; Name h])) <> [] ->
       ownedBy uid gid (lookupTree (fs w') (resolve w (Dir (Join [destPath; Name h]))))).
Proof.
  intros Hu Hg.
  induction tarReader as [| |header data complete rest IH]; intros w w' Hrun h Hh;
    [by apply elem_of_nil in Hh..|].
  simpl in Hh, Hrun.
  assert (exists w1,
    sameSurroundings w w1 /\
    extractEntries uid gid destPath rest w1 = (OK tt, w') /\
    (resolve w (Join [destPath; Name header]) <> [] ->
     ownedBy uid gid (lookupTree (fs w1) (resolve w (Join [destPath; Name header])))) /\
    (Type_ header <> TypeDir ->
     resolve w (Dir (Join [destPath; Name header])) <> [] ->
     ownedBy uid gid
       (lookupTree (fs w1) (resolve w (Dir (Join [destPath; Name header]))))))
    as (w1 & S1 & Hrest & Hown & Hpar).
  { unfold mbind, IO_bind, bind in Hrun. destruct (Type_ header) eqn:Hty.
    - pose proof (surroundings_extractFile uid gid (Join [destPath; Name header])
                    header data complete w) as S1.
      destruct (extractFile _ _ _ _ _ _ w) as [[[]|e] w1] eqn:R1; [|done].
      destruct (extractFile_owner _ _ _ _ _ _ _ _ Hu Hg R1) as [Ho Hp].
      exists w1. by split_and!.
    - pose proof (surroundings_extractDirectory uid gid (Join [destPath; Name header])
                    w) as S1.
      destruct (extractDirectory _ _ _ w) as [[[]|e] w1] eqn:R1; [|done].
      exists w1. split_and!; [done|done| |done].
      by apply (extractDirectory_owner _ _ _ _ _ Hu Hg R1).
    - pose proof (surroundings_extractFile uid gid (Join [destPath; Name header])
                    header data complete w) as S1.
      destruct (extractFile _ _ _ _ _ _ w) as [[[]|e] w1] eqn:R1; [|done].
      destruct (extractFile_owner _ _ _ _ _ _ _ _ Hu Hg R1) as [Ho Hp].
      exists w1. by split_and!. }
  pose proof (owned_extractEntries uid gid destPath rest w1) as Okeep.
  rewrite Hrest in Okeep. simpl in Okeep.
  apply elem_of_cons in Hh as [->|Hh].
  - split; [intros Hk; by apply Okeep, Hown|].
    intros Hty Hk. by apply Okeep, Hpar.
  - destruct (IH w1 w' Hrest h Hh) as [H1 H2].
    by rewrite !(resolve_surroundings w w1) in H1, H2.
Qed.

Lemma headersOf_streamOf entries : headersOf (streamOf entries) = map fst entries.
Proof. induction entries as [|[h data] rest IH]; [done|]. simpl. by rewrite IH. Qed.

Section Owner.
Context `{Libraries}.

(** X15.  With the ollama account in the user database and the right to
    give files away, load hands what it extracts to the account: after
    the extraction of an archive of regular files that fit below the
    destination, every file is owned by the user and group of the
    account, and so is the directory it is in, unless that is the
    root. *)
Theorem extractTarball_sets_owner fileName destPath w w1 uid gid file codec entries :
  getOllamaUIDGID w = (OK (uid, gid), w1) ->
  uid <> (-1)%Z -> gid <> (-1)%Z -> privileged w = true ->
  os.nodeAt w fileName = Some file ->
  codecOf fileName = Some codec ->
  newTarReader codec file = OK (streamOf entries) ->
  fits w destPath entries ->
  exists w',
    extractTarball fileName destPath w = (OK tt, w') /\
    forall e, e ∈ entries ->
      ownedBy uid gid (lookupTree (fs w') (resolve w (targetOf destPath e))) /\
      (resolve w (Dir (targetOf destPath e)) <> [] ->
       ownedBy uid gid (lookupTree (fs w') (resolve w (Dir (targetOf destPath e))))).
Proof.
  intros Hids Hu Hg Hpriv Hfile Hcodec Hreader Hfits.
  pose proof (surroundings_getOllamaUIDGID w) as Hsur.
  pose proof (getOllamaUIDGID_frame w) as (Hfs & Hcwd & _).
  rewrite Hids in Hsur, Hfs, Hcwd. simpl in Hsur, Hfs, Hcwd.
  set (w2 := log (CallOpen fileName) w1).
  assert (sameSurroundings w w2) as Hsur2.
  { etrans; [exact Hsur|apply sameSurroundings_log]. }
  destruct (extractEntries_fits uid gid destPath entries w2) as (w3 & Hrun & _).
  { by apply (fits_same_tree w). }
  { right; right. destruct Hsur2 as (_&_&_&_&_&_&_&->&_). done. }
  exists w3. split.
  - rewrite (extractTarball_opened _ _ _ _ _ _ _ Hids Hfile), Hcodec, Hreader. done.
  - intros e He.
    destruct (fits_entry _ _ _ Hfits e He) as (Hty & _ & _ & Hpar & _ & Hnodir).
    destruct (extractEntries_owner uid gid destPath (streamOf entries) Hu Hg w2 w3 Hrun
                (fst e)) as [Ho Hp].
    { rewrite headersOf_streamOf. by apply (list_elem_of_fmap_2 fst). }
    rewrite !(resolve_surroundings w w2) in Ho, Hp by done.
    split; [|by apply Hp]. apply Ho. intros Hk.
    unfold targetOf in Hnodir. rewrite Hk in Hnodir. by apply Hnodir.
Qed.

End Owner.

Lemma extractTarball_sets_owner_witness :
  getOllamaUIDGID serviceWorld
  = (OK (998%Z, 997%Z),
     log (CallLookupGroup "ollama") (log (CallLookupUser "ollama") serviceWorld)) /\
  privileged serviceWorld = true /\
  fits serviceWorld "/restore/" exampleEntries /\
  exists w',
    @extractTarball testLibraries "/tmp/llama2.tar" "/restore/" serviceWorld
    = (OK tt, w') /\
    forall e, e ∈ exampleEntries ->
      ownedBy 998 997 (lookupTree (fs w') (resolve serviceWorld (targetOf "/restore/" e))) /\
      (resolve serviceWorld (Dir (targetOf "/restore/" e)) <> [] ->
       ownedBy 998 997
         (lookupTree (fs w') (resolve serviceWorld (Dir (targetOf "/restore/" e))))).
Proof.
  assert (fits serviceWorld "/restore/" exampleEntries) as Hfits.
  { apply (fits_same_tree exampleWorld); [done|done|exact example_fits]. }
  split; [reflexivity|]. split; [reflexivity|]. split; [exact Hfits|].
  apply (@extractTarball_sets_owner testLibraries "/tmp/llama2.tar" "/restore/"
           serviceWorld _ 998%Z 997%Z (File 420 1000 1000 "llama2 archive") NoCodec
           exampleEntries eq_refl); try done.
Defined.

(** ** load: names that climb *)



Section Climbing.
Context `{Libraries}.


End Climbing.


(** ** What load keeps at every place *)

Global Instance preserves_refl w0 P : Reflexive (preserves w0 P).
Proof. by intros w Hsur. Qed.

Global Instance preserves_trans w0 P : Transitive (preserves w0 P).
Proof.
  intros w1 w2 w3 H12 H23 Hsur. destruct (H12 Hsur) as [Hsur2 Hk2].
  destruct (H23 Hsur2) as [Hsur3 Hk3]. split; [done|]. intros K HK.
  by apply Hk3, Hk2.
Qed.

Lemma preserves_step w0 P {A} (m : IO A) :
  keeps sameSurroundings m ->
  (forall w K, sameSurroundings w0 w ->
     P (lookupTree (fs w) K) -> P (lookupTree (fs (snd (m w))) K)) ->
  keeps (preserves w0 P) m.
Proof.
  intros Hsur Hk w Hw. split; [by etrans; [|apply Hsur]|].
  intros K HK. by apply Hk.
Qed.

Section Closed.
Context (w0 : World) (uid gid : Z) (P : option node -> Prop).
Context (Hclosed : closedUnder w0 uid gid P).

Lemma preserves_MkdirAll path : keeps (preserves w0 P) (MkdirAll path ModePerm).
Proof.
  apply preserves_step; [apply surroundings_MkdirAll|]. intros w K Hw HK.
  destruct (MkdirAll_effect path ModePerm w K) as [->|(Hnone & _ & ->)]; [done|].
  rewrite (newDirectory_same w0 w) by done.
  apply (closed_mkdir _ _ _ _ Hclosed). by rewrite <- Hnone.
Qed.

Lemma preserves_chownIfKnown path : keeps (preserves w0 P) (chownIfKnown path uid gid).
Proof.
  unfold chownIfKnown. destruct (_ && _); [|apply keeps_ret, _].
  apply keeps_orFail, preserves_step; [apply surroundings_Chown|]. intros w K Hw HK.
  destruct (Chown_effect path uid gid w K) as [->|(_ & _ & n & Hn & ->)]; [done|].
  apply (closed_chown _ _ _ _ Hclosed). by rewrite <- Hn.
Qed.

Lemma preserves_OpenFile path perm : keeps (preserves w0 P) (OpenFile path perm).
Proof.
  apply preserves_step; [apply surroundings_OpenFile|]. intros w K Hw HK.
  destruct (OpenFile_effect path perm w K)
    as [->|(_ & _ & [(mode & u & g & c & Hb & ->)|(Hnone & ->)])]; [done| |].
  - apply (closed_truncate _ _ _ _ Hclosed _ _ _ c). by rewrite <- Hb.
  - destruct Hw as (_&_&_&_&He&Hg&Hu&_). unfold masked. rewrite He, Hg, Hu.
    apply (closed_create _ _ _ _ Hclosed). by rewrite <- Hnone.
Qed.

Lemma preserves_Write path k data : keeps (preserves w0 P) (os.Write path k data).
Proof.
  apply preserves_step; [apply surroundings_Write|]. intros w K Hw HK.
  destruct (Write_effect path k data w K)
    as [->|(_ & _ & mode & u & g & c & Hb & ->)]; [done|].
  apply (closed_write _ _ _ _ Hclosed). by rewrite <- Hb.
Qed.

Lemma preserves_extractDirectory targetPath :
  keeps (preserves w0 P) (extractDirectory uid gid targetPath).
Proof.
  unfold extractDirectory.
  apply keeps_bind; [apply _ | apply keeps_orFail, preserves_MkdirAll | intros _].
  apply preserves_chownIfKnown.
Qed.

Lemma preserves_extractFile targetPath header data complete :
  keeps (preserves w0 P) (extractFile uid gid targetPath header data complete).
Proof.
  unfold extractFile.
  apply keeps_bind; [apply _ | apply keeps_orFail, preserves_MkdirAll | intros _].
  apply keeps_bind; [apply _ | apply preserves_chownIfKnown | intros _].
  apply keeps_bind; [apply _ | apply keeps_orFail, preserves_OpenFile | intros outFile].
  apply keeps_bind; [apply _ | apply keeps_orFail, preserves_Write | intros _].
  apply keeps_bind; [apply _ | | intros _; apply preserves_chownIfKnown].
  destruct complete; [apply keeps_ret, _ | apply keeps_fail, _].
Qed.

Lemma preserves_extractEntries destPath tarReader :
  keeps (preserves w0 P) (extractEntries uid gid destPath tarReader).
Proof.
  induction tarReader as [| |header data complete rest IH]; simpl.
  - apply keeps_ret, _.
  - apply keeps_fail, _.
  - destruct (Type_ header).
    + apply keeps_bind; [apply _ | apply preserves_extractFile | by intros _].
    + apply keeps_bind; [apply _ | apply preserves_extractDirectory | by intros _].
    + apply keeps_bind; [apply _ | apply preserves_extractFile | by intros _].
Qed.

End Closed.

Lemma closed_fileWithMode w0 uid gid mode : closedUnder w0 uid gid (fileWithMode mode).
Proof.
  split.
  - by intros (u & g & c & ?).
  - intros n (u & g & c & [= ->]). by exists uid, gid, c.
  - intros m u g c (u' & g' & c' & [= -> -> -> ->]). by exists u', g', "".
  - by intros perm (u & g & c & ?).
  - intros m u g c data (u' & g' & c' & [= -> -> -> ->]). by eexists _, _, _.
Qed.

Lemma closed_directoryWithMode w0 uid gid mode :
  closedUnder w0 uid gid (directoryWithMode mode).
Proof.
  split.
  - by intros (u & g & ?).
  - intros n (u & g & [= ->]). by exists uid, gid.
  - by intros m u g c (u' & g' & ?).
  - by intros perm (u & g & ?).
  - by intros m u g c data (u' & g' & ?).
Qed.

Lemma closed_noOtherDirectory w0 uid gid : closedUnder w0 uid gid (noOtherDirectory w0).
Proof. split; try done. by intros [m u g c|m u g]. Qed.

Section Kept.
Context `{Libraries}.

(** Whatever the extraction keeps at every place, [extractTarball]
    does. *)
Lemma extractTarball_preserves fileName destPath w P :
  (forall uid gid, closedUnder w uid gid P) ->
  forall K, P (lookupTree (fs w) K) ->
            P (lookupTree (fs (snd (extractTarball fileName destPath w))) K).
Proof.
  intros Hclosed K HK.
  destruct (extractTarball_cases fileName destPath w)
    as [->|(uid & gid & w1 & codec & file & tarReader & Hsur & Hfs & _ & _ & _ & ->)];
    [done|].
  destruct (preserves_extractEntries w uid gid P (Hclosed uid gid) destPath tarReader w1)
    as [_ Hk]; [done|].
  apply Hk. unfold lookupTree in *. by rewrite Hfs.
Qed.

(** X17.  load removes nothing and replaces nothing by something of
    another kind.  Whatever the archive holds and however the extraction
    ends, a file that was in the tree is a file afterwards, with the mode
    it had, and a directory is a directory with the mode it had: only
    the content and the owner of a file and the owner of a directory
    can change. *)
Theorem extractTarball_keeps_nodes fileName destPath w K :
  (forall mode u g content,
      lookupTree (fs w) K = Some (File mode u g content) ->
      exists u' g' content',
        lookupTree (fs (snd (extractTarball fileName destPath w))) K
        = Some (File mode u' g' content')) /\
  (forall mode u g,
      lookupTree (fs w) K = Some (Directory mode u g) ->
      exists u' g',
        lookupTree (fs (snd (extractTarball fileName destPath w))) K
        = Some (Directory mode u' g')).
Proof.
  split.
  - intros mode u g content Hfile.
    apply (extractTarball_preserves fileName destPath w (fileWithMode mode)).
    + intros uid gid. apply closed_fileWithMode.
    + by exists u, g, content.
  - intros mode u g Hdir.
    apply (extractTarball_preserves fileName destPath w (directoryWithMode mode)).
    + intros uid gid. apply closed_directoryWithMode.
    + by exists u, g.
Qed.

(** X18.  The mode an archive records for a directory is not used: a
    directory that is in the tree after the extraction and was not there
    before has the mode 0777 less the umask, whether it comes from a
    directory entry or was created on the way to a file. *)
Theorem extractTarball_directory_mode fileName destPath w K mode u g :
  lookupTree (fs w) K = None ->
  lookupTree (fs (snd (extractTarball fileName destPath w))) K
  = Some (Directory mode u g) ->
  mode = Z.ldiff 511 (umask w).
Proof.
  intros Hnone Hdir.
  pose proof (extractTarball_preserves fileName destPath w (noOtherDirectory w)
                (fun uid gid => closed_noOtherDirectory w uid gid) K) as Hkeep.
  rewrite Hnone, Hdir in Hkeep. by apply Hkeep.
Qed.

End Kept.

Lemma extractTarball_keeps_nodes_witness :
  lookupTree (fs exampleWorld) ["models"; "blobs"; "sha256-bb"]
  = Some (File 384 0 0 "weights") /\
  (exists u' g' content',
      lookupTree (fs (snd (@extractTarball testLibraries "/tmp/llama2.tar" "/models"
                             exampleWorld))) ["models"; "blobs"; "sha256-bb"]
      = Some (File 384 u' g' content')) /\
  lookupTree (fs exampleWorld) ["models"; "blobs"] = Some (Directory 493 0 0) /\
  (exists u' g',
      lookupTree (fs (snd (@extractTarball testLibraries "/tmp/llama2.tar" "/models"
                             exampleWorld))) ["models"; "blobs"]
      = Some (Directory 493 u' g')).
Proof.
  split; [reflexivity|]. split.
  { exact (proj1 (@extractTarball_keeps_nodes testLibraries "/tmp/llama2.tar" "/models"
                    exampleWorld ["models"; "blobs"; "sha256-bb"])
             384%Z 0%Z 0%Z "weights" eq_refl). }
  split; [reflexivity|].
  exact (proj2 (@extractTarball_keeps_nodes testLibraries "/tmp/llama2.tar" "/models"
                  exampleWorld ["models"; "blobs"])
           493%Z 0%Z 0%Z eq_refl).
Defined.

Lemma extractTarball_directory_mode_witness :
  lookupTree (fs exampleWorld) ["restore"; "blobs"] = None /\
  lookupTree (fs (snd (@extractTarball directoryLibraries "/tmp/llama2.tar" "/restore"
                         exampleWorld))) ["restore"; "blobs"]
  = Some (Directory 493 1000 1000) /\
  493%Z = Z.ldiff 511 (umask exampleWorld).
Proof.
  assert (lookupTree (fs (snd (@extractTarball directoryLibraries "/tmp/llama2.tar"
                                 "/restore" exampleWorld))) ["restore"; "blobs"]
          = Some (Directory 493 1000 1000)) as Hdir by (by vm_compute).
  split; [reflexivity|]. split; [exact Hdir|].
  exact (@extractTarball_directory_mode directoryLibraries "/tmp/llama2.tar" "/restore"
           exampleWorld ["restore"; "blobs"] 493%Z 1000%Z 1000%Z eq_refl Hdir).
Defined.

(** ** load: the mode of the files *)

Lemma chownIfKnown_effect path uid gid w K :
  lookupTree (fs (snd (chownIfKnown path uid gid w))) K = lookupTree (fs w) K \/
  (K = resolve w path /\
   exists n, lookupTree (fs w) K = Some n /\
             lookupTree (fs (snd (chownIfKnown path uid gid w))) K
             = Some (withOwner uid gid n)).
Proof.
  unfold chownIfKnown. destruct (_ && _); [|by left].
  pose proof (Chown_effect path uid gid w K) as Heff. unfold orFail.
  destruct (Chown path uid gid w) as [[[]|e] w1]; simpl in *;
    (destruct Heff as [?|(? & _ & ?)]; [by left|by right]).
Qed.

Lemma OpenFile_node path perm w k w' :
  OpenFile path perm w = (OK k, w') ->
  exists u g,
    lookupTree (fs w') (resolve w path)
    = Some (File match lookupTree (fs w) (resolve w path) with
                 | Some (File mode _ _ _) => mode
                 | _ => masked perm w
                 end u g "").
Proof.
  unfold OpenFile. destruct (String.eqb path ""); [done|].
  change (resolve (log _ w) path) with (resolve w path).
  change (fs (log _ w)) with (fs w).
  destruct (lookupTree (fs w) (resolve w path)) as [[mode u g c|mode u g]|] eqn:Hhere;
    [|done|].
  - intros [= _ <-]. cbn [fs set_fs].
    assert (resolve w path <> []) as Hne by (intros E; by rewrite E in Hhere).
    rewrite lookupTree_insert by done. rewrite decide_True by done. by exists u, g.
  - destruct (lookupTree (fs w) (removelast (resolve w path)))
      as [[? ? ? ?|? ? ?]|]; [done| |done].
    intros [= _ <-]. cbn [fs set_fs].
    assert (resolve w path <> []) as Hne by (intros E; by rewrite E in Hhere).
    rewrite lookupTree_insert by done. rewrite decide_True by done. by eexists _, _.
Qed.

Lemma Write_node path k data w w' mode u g content :
  os.Write path k data w = (OK tt, w') -> k <> [] ->
  lookupTree (fs w) k = Some (File mode u g content) ->
  lookupTree (fs w') k = Some (File mode u g (content +:+ data)).
Proof.
  unfold os.Write. change (fs (log _ w)) with (fs w). intros Hrun Hk Hhere.
  rewrite lookupTree_nonempty in Hhere by done. rewrite Hhere in Hrun.
  injection Hrun as <-. cbn [fs set_fs].
  rewrite lookupTree_insert by done. by rewrite decide_True.
Qed.

Lemma removelast_neq (T : list string) : T <> [] -> removelast T <> T.
Proof.
  intros HT E. apply (removelast_not_prefix T HT). by rewrite E.
Qed.

(** The file one entry leaves. *)
Lemma extractFile_node uid gid targetPath header data complete w w' :
  extractFile uid gid targetPath header data complete w = (OK tt, w') ->
  resolve w (Dir targetPath) = removelast (resolve w targetPath) ->
  exists u g,
    lookupTree (fs w') (resolve w targetPath)
    = Some (File (modeAfter w (resolve w targetPath) header) u g data).
Proof.
  intros Hrun Hparent. revert Hrun.
  unfold extractFile, mbind, IO_bind, bind, orFail.
  set (T := resolve w targetPath) in *.
  pose proof (surroundings_MkdirAll (Dir targetPath) ModePerm w) as S1.
  pose proof (MkdirAll_effect (Dir targetPath) ModePerm w T) as E1.
  destruct (MkdirAll (Dir targetPath) ModePerm w) as [[[]|e1] w1]; [|done].
  pose proof (surroundings_chownIfKnown (Dir targetPath) uid gid w1) as S2.
  pose proof (chownIfKnown_effect (Dir targetPath) uid gid w1 T) as E2.
  destruct (chownIfKnown (Dir targetPath) uid gid w1) as [[[]|e2] w2]; [|done].
  pose proof (surroundings_OpenFile targetPath (Mode header) w2) as S3.
  destruct (OpenFile targetPath (Mode header) w2) as [[k|e3] w3] eqn:R3; [|done].
  pose proof (surroundings_Write targetPath k data w3) as S4.
  destruct (os.Write targetPath k data w3) as [[[]|e4] w4] eqn:R4; [|done].
  destruct complete; [|done]. unfold ret.
  pose proof (chownIfKnown_effect targetPath uid gid w4 T) as E5.
  destruct (chownIfKnown targetPath uid gid w4) as [[[]|e5] w5]; [|done].
  intros [= <-]. simpl in *.
  assert (sameSurroundings w w2) as S12 by (by etrans).
  assert (resolve w2 targetPath = T) as HT2 by (by apply resolve_surroundings).
  assert (T <> []) as HT.
  { rewrite <- HT2. by apply OpenFile_not_root in R3. }
  assert (lookupTree (fs w2) T = lookupTree (fs w) T) as Hsame.
  { destruct E2 as [->|(E & _)].
    - destruct E1 as [->|(_ & Hpre & _)]; [done|].
      rewrite Hparent in Hpre. by apply removelast_not_prefix in Hpre.
    - rewrite (resolve_surroundings w w1), Hparent in E by done.
      symmetry in E. by apply removelast_neq in E. }
  destruct (OpenFile_node _ _ _ _ _ R3) as (u & g & Hopen).
  rewrite HT2, Hsame in Hopen.
  assert (masked (Mode header) w2 = masked (Mode header) w) as Hm.
  { unfold masked. by destruct S12 as (_&_&_&_&_&_&->&_). }
  rewrite Hm in Hopen. fold (modeAfter w T header) in Hopen.
  apply OpenFile_handle in R3 as Hk. rewrite HT2 in Hk. subst k.
  pose proof (Write_node _ _ _ _ _ _ _ _ _ R4 HT Hopen) as Hwrite.
  rewrite str_app_nil_l in Hwrite.
  destruct E5 as [->|(_ & n & Hn & ->)]; [by exists u, g|].
  rewrite Hwrite in Hn. injection Hn as <-. by exists uid, gid.
Qed.

Lemma extractEntries_nodes uid gid destPath entries :
  forall w w',
    fits w destPath entries ->
    NoDup (map (fun e => resolve w (targetOf destPath e)) entries) ->
    (uid = (-1)%Z \/ gid = (-1)%Z \/ privileged w = true) ->
    extractEntries uid gid destPath (streamOf entries) w = (OK tt, w') ->
    forall e, e ∈ entries ->
      exists u g,
        lookupTree (fs w') (resolve w (targetOf destPath e))
        = Some (File (modeAfter w (resolve w (targetOf destPath e)) (fst e)) u g (snd e)).
Proof.
  induction entries as [|e rest IH]; intros w w' Hfits Hnodup Hids Hrun e0 He0;
    [by apply elem_of_nil in He0|].
  destruct (fits_entry _ _ _ Hfits e) as (Hty & Hne & Hdne & Hpar & Hfree & Hnodir);
    [apply elem_of_cons; by left|].
  destruct (extractFile_ok uid gid (targetOf destPath e) (fst e) (snd e) w
              Hne Hdne Hpar Hfree Hnodir Hids)
    as (w1 & Hrun1 & Hproc1 & Hnew1 & Hframe1).
  assert (fits w1 destPath rest) as Hfits1 by (eapply fits_tail; eauto).
  pose proof (surroundings_extractFile uid gid (targetOf destPath e) (fst e) (snd e) true w)
    as Hsur1. rewrite Hrun1 in Hsur1. simpl in Hsur1.
  assert (forall path, resolve w1 path = resolve w path) as Hres
    by (intros path; by apply resolve_surroundings).
  assert (extractEntries uid gid destPath (streamOf rest) w1 = (OK tt, w')) as Hrest.
  { destruct e as [h data]. simpl streamOf in Hrun. cbn [extractEntries] in Hrun.
    change (Join [destPath; Name h]) with (targetOf destPath (h, data)) in Hrun.
    simpl in Hty, Hrun1. unfold mbind, IO_bind, bind in Hrun.
    destruct (Type_ h); [|done|]; by rewrite Hrun1 in Hrun. }
  apply NoDup_cons in Hnodup as [Hfresh Hnodup].
  apply elem_of_cons in He0 as [->|He0].
  - (* the entry itself: what follows leaves it alone *)
    destruct (extractFile_node _ _ _ _ _ _ _ _ Hrun1 Hpar) as (u & g & Hnode).
    destruct (besides_extractEntries w1
                (fun k => exists e', e' ∈ rest /\
                                     (k = resolve w (targetOf destPath e') \/
                                      k = resolve w (Dir (targetOf destPath e'))))
                uid gid destPath (streamOf rest)) with (w := w1) as [_ Hk]; [|done|].
    { intros h Hh. rewrite headersOf_streamOf in Hh.
      apply list_elem_of_fmap in Hh as (e' & -> & He').
      rewrite !Hres. split; [|intros _]; exists e'; split; auto. }
    rewrite Hrest in Hk. simpl in Hk.
    destruct (Hk (resolve w (targetOf destPath e))) as [E|[E _]].
    + intros (e' & He' & [Heq|Heq]).
      * apply Hfresh. rewrite Heq.
        exact (list_elem_of_fmap_2 (fun e => resolve w (targetOf destPath e)) rest e' He').
      * apply (fits_apart _ _ _ Hfits e e'); [apply elem_of_cons; by left
                                              |apply elem_of_cons; by right|].
        by rewrite Heq.
    + exists u, g. by rewrite E.
    + by rewrite Hnode in E.
  - (* a later entry: this one has left its place alone *)
    destruct (IH w1 w' Hfits1) with (e := e0) as (u & g & Hnode); try done.
    { by erewrite map_ext; [exact Hnodup|]. }
    { destruct Hsur1 as (_&_&_&_&_&_&_&->&_). done. }
    exists u, g. rewrite Hres in Hnode. rewrite Hnode. do 2 f_equal.
    unfold modeAfter.
    assert (resolve w (targetOf destPath e0) <> resolve w (targetOf destPath e)) as Hne0.
    { intros Heq. apply Hfresh. rewrite <- Heq.
      exact (list_elem_of_fmap_2 (fun e => resolve w (targetOf destPath e)) rest e0 He0). }
    assert (lookupTree (fs w1) (resolve w (targetOf destPath e0))
            = lookupTree (fs w) (resolve w (targetOf destPath e0))) as ->.
    { destruct (besides_extractFile w
                  (fun k => k = resolve w (targetOf destPath e) \/
                            k = resolve w (Dir (targetOf destPath e)))
                  uid gid (targetOf destPath e) (fst e) (snd e) true) with (w := w)
        as [_ Hk]; [by left|by right|done|].
      rewrite Hrun1 in Hk. simpl in Hk.
      destruct (Hk (resolve w (targetOf destPath e0))) as [E|[Hnone Hdir]]; [|done|].
      - intros [Heq|Heq]; [done|].
        apply (fits_apart _ _ _ Hfits e0 e); [apply elem_of_cons; by right
                                             |apply elem_of_cons; by left|].
        by rewrite Heq.
      - destruct (Hframe1 _ Hne0) as [Hshape|(_ & Hpre & _)].
        + rewrite Hnone, Hdir in Hshape. done.
        + exfalso. apply (fits_apart _ _ _ Hfits e0 e);
            [apply elem_of_cons; by right|apply elem_of_cons; by left|done]. }
    unfold masked. by destruct Hsur1 as (_&_&_&_&_&_&->&_).
Qed.

(** Below the flags of a [FileMode] only the permission bits count. *)
Lemma syscallMode_perm perm :
  (0 <= perm < 1048576)%Z -> syscallMode perm = Z.land perm 511.
Proof.
  intros [Hlo Hhi]. unfold syscallMode.
  assert (forall n, (20 <= n)%Z -> Z.testbit perm n = false) as Hbit.
  { intros n Hn. destruct (decide (perm = 0%Z)) as [->|Hne]; [apply Z.bits_0|].
    apply Z.bits_above_log2; [done|].
    assert (Z.log2 perm < 20)%Z; [|lia].
    apply Z.log2_lt_pow2; [lia|]. by change (2 ^ 20)%Z with 1048576%Z. }
  rewrite !Hbit by lia. by rewrite !Z.lor_0_r.
Qed.

Section FileModes.
Context `{Libraries}.

(** X19.  The mode of a new file.  For an archive of regular files with
    distinct targets that fit below the destination and where no file is
    yet, extracted by a process without the ollama account or with the
    right to change owners, the extraction succeeds and every entry
    leaves a file with the content of the entry.  When the mode of the
    header is below the flags of a [FileMode] (as [tar.FileInfoHeader]
    writes it), the file has the permission bits of the header less the
    umask: the other bits of the header's mode, among them setuid,
    setgid and sticky as the archive records them, are dropped. *)
Theorem extractTarball_file_modes fileName destPath w w1 uid gid file codec entries :
  getOllamaUIDGID w = (OK (uid, gid), w1) ->
  uid = (-1)%Z \/ gid = (-1)%Z \/ privileged w = true ->
  os.nodeAt w fileName = Some file ->
  codecOf fileName = Some codec ->
  newTarReader codec file = OK (streamOf entries) ->
  fits w destPath entries ->
  NoDup (map (fun e => resolve w (targetOf destPath e)) entries) ->
  (forall e, e ∈ entries ->
     lookupTree (fs w) (resolve w (targetOf destPath e)) = None /\
     (0 <= Mode (fst e) < 1048576)%Z) ->
  exists w',
    extractTarball fileName destPath w = (OK tt, w') /\
    forall e, e ∈ entries ->
      exists u g,
        lookupTree (fs w') (resolve w (targetOf destPath e))
        = Some (File (Z.ldiff (Z.land (Mode (fst e)) 511) (umask w)) u g (snd e)).
Proof.
  intros Hids Hmay Hfile Hcodec Hreader Hfits Hnodup Hnew.
  pose proof (surroundings_getOllamaUIDGID w) as Hsur.
  pose proof (getOllamaUIDGID_frame w) as (Hfs & Hcwd & _).
  rewrite Hids in Hsur, Hfs, Hcwd. simpl in Hsur, Hfs, Hcwd.
  set (w2 := log (CallOpen fileName) w1).
  assert (sameSurroundings w w2) as Hsur2.
  { etrans; [exact Hsur|apply sameSurroundings_log]. }
  assert (forall path, resolve w2 path = resolve w path) as Hres
    by (intros path; by apply resolve_surroundings).
  assert (privileged w2 = privileged w) as Hpriv
    by (by destruct Hsur2 as (_&_&_&_&_&_&_&->&_)).
  destruct (extractEntries_fits uid gid destPath entries w2) as (w3 & Hrun & _).
  { by apply (fits_same_tree w). }
  { by rewrite Hpriv. }
  exists w3. split.
  - by rewrite (extractTarball_opened _ _ _ _ _ _ _ Hids Hfile), Hcodec, Hreader.
  - intros e He.
    destruct (extractEntries_nodes uid gid destPath entries w2 w3) with (e := e)
      as (u & g & Hnode); try done.
    { by apply (fits_same_tree w). }
    { by erewrite map_ext; [exact Hnodup|]. }
    { by rewrite Hpriv. }
    destruct (Hnew e He) as [Hnone Hmode].
    exists u, g. rewrite Hres in Hnode. rewrite Hnode. do 2 f_equal.
    unfold modeAfter. change (fs w2) with (fs w1). rewrite Hfs, Hnone.
    unfold masked. rewrite (syscallMode_perm _ Hmode).
    by destruct Hsur2 as (_&_&_&_&_&_&->&_).
Qed.

End FileModes.

Lemma extractTarball_file_modes_witness :
  fits exampleWorld "/restore/" exampleEntries /\
  NoDup (map (fun e => resolve exampleWorld (targetOf "/restore/" e)) exampleEntries) /\
  (forall e, e ∈ exampleEntries ->
     lookupTree (fs exampleWorld) (resolve exampleWorld (targetOf "/restore/" e)) = None /\
     (0 <= Mode (fst e) < 1048576)%Z) /\
  exists w',
    @extractTarball testLibraries "/tmp/llama2.tar" "/restore/" exampleWorld
    = (OK tt, w') /\
    forall e, e ∈ exampleEntries ->
      exists u g,
        lookupTree (fs w') (resolve exampleWorld (targetOf "/restore/" e))
        = Some (File (Z.ldiff (Z.land (Mode (fst e)) 511) (umask exampleWorld))
                     u g (snd e)).
Proof.
  assert (NoDup (map (fun e => resolve exampleWorld (targetOf "/restore/" e))
                     exampleEntries)) as Hnodup.
  { apply (bool_decide_unpack _). by vm_compute. }
  assert (forall e, e ∈ exampleEntries ->
            lookupTree (fs exampleWorld) (resolve exampleWorld (targetOf "/restore/" e))
            = None /\ (0 <= Mode (fst e) < 1048576)%Z) as Hnew.
  { intros e He.
    repeat (apply elem_of_cons in He as [->|He]; [by vm_compute|]).
    by apply elem_of_nil in He. }
  split; [exact example_fits|]. split; [exact Hnodup|]. split; [exact Hnew|].
  exact (@extractTarball_file_modes testLibraries "/tmp/llama2.tar" "/restore/"
           exampleWorld _ (-1)%Z (-1)%Z (File 420 1000 1000 "llama2 archive") NoCodec
           exampleEntries eq_refl (or_introl eq_refl) eq_refl eq_refl eq_refl
           example_fits Hnodup Hnew).
Defined.

(** ** load: an entry cut short *)





Section Truncated.
Context `{Libraries}.


End Truncated.


(** ** load: an account the process may not give files to *)

Section Unprivileged.
Context `{Libraries}.

(** X21.  When the ollama account is known, a process that is not the
    account and may not give files away cannot load: for a first entry
    that is a file in a directory that does not exist yet, the
    extraction creates the directory, fails to change its owner and
    returns [ChownError] for it; the directory stays behind, owned by the
    process. *)
Theorem extractTarball_unprivileged fileName destPath w w1 uid gid file codec header
    data complete rest :
  getOllamaUIDGID w = (OK (uid, gid), w1) ->
  uid <> (-1)%Z -> gid <> (-1)%Z ->
  privileged w = false -> euid w <> uid ->
  os.nodeAt w fileName = Some file ->
  codecOf fileName = Some codec ->
  newTarReader codec file = OK (Entry header data complete rest) ->
  Type_ header <> TypeDir ->
  lookupTree (fs w) (resolve w (Dir (Join [destPath; Name header]))) = None ->
  (forall k, k `prefix_of` resolve w (Dir (Join [destPath; Name header])) ->
             ~ isFile (lookupTree (fs w) k)) ->
  exists w',
    extractTarball fileName destPath w
    = (Err (ChownError (Dir (Join [destPath; Name header]))), w') /\
    lookupTree (fs w') (resolve w (Dir (Join [destPath; Name header])))
    = Some (Directory (Z.ldiff 511 (umask w)) (euid w) (egid w)).
Proof.
  intros Hids Hu Hg Hpriv Heuid Hfile Hcodec Hreader Hty Hnone Hfree.
  set (parentDir := Dir (Join [destPath; Name header])) in *.
  pose proof (surroundings_getOllamaUIDGID w) as Hsur.
  pose proof (getOllamaUIDGID_frame w) as (Hfs & _ & _).
  rewrite Hids in Hsur, Hfs. simpl in Hsur, Hfs.
  set (w2 := log (CallOpen fileName) w1).
  assert (sameSurroundings w w2) as Hsur2.
  { etrans; [exact Hsur|apply sameSurroundings_log]. }
  assert (fs w2 = fs w) as Hfs2 by done.
  assert (resolve w2 parentDir = resolve w parentDir) as Hres
    by (by apply resolve_surroundings).
  assert (parentDir <> "") as Hne by apply Clean_nonempty.
  destruct (MkdirAll_ok parentDir ModePerm w2 Hne) as (wa & Hmk & Hproc & Hdir & _).
  { rewrite Hres, Hfs2. exact Hfree. }
  pose proof (MkdirAll_effect parentDir ModePerm w2 (resolve w parentDir)) as Heff.
  rewrite Hmk in Heff. cbn [snd] in Heff. rewrite Hres in Hdir.
  assert (lookupTree (fs wa) (resolve w parentDir) = Some (newDirectory w)) as Hnew.
  { destruct Heff as [E|(_ & _ & ->)].
    - rewrite E in Hdir. change (fs w2) with (fs w1) in Hdir.
      rewrite Hfs, Hnone in Hdir. done.
    - f_equal. by apply newDirectory_same. }
  assert (resolve wa parentDir = resolve w parentDir) as Hresa.
  { rewrite <- Hres. by apply resolve_same. }
  assert (chownIfKnown parentDir uid gid wa
          = (Err (ChownError parentDir), log (CallChown parentDir uid gid) wa)) as Hch.
  { unfold chownIfKnown. apply Z.eqb_neq in Hu, Hg. rewrite Hu, Hg. simpl.
    unfold orFail, Chown. apply String.eqb_neq in Hne as ->.
    change (resolve (log _ wa) parentDir) with (resolve wa parentDir).
    change (fs (log _ wa)) with (fs wa).
    change (privileged (log _ wa)) with (privileged wa).
    rewrite Hresa, Hnew. unfold newDirectory.
    destruct Hproc as [_ ->]. destruct Hsur2 as (_&_&_&_&_&_&_&->&_). rewrite Hpriv.
    apply Z.eqb_neq in Heuid. by rewrite Heuid. }
  exists (log (CallChown parentDir uid gid) wa). split.
  - rewrite (extractTarball_opened _ _ _ _ _ _ _ Hids Hfile), Hcodec, Hreader.
    fold w2.
    assert (extractFile uid gid (Join [destPath; Name header]) header data complete w2
            = (Err (ChownError parentDir), log (CallChown parentDir uid gid) wa))
      as Hentry.
    { unfold extractFile, mbind, IO_bind, bind, orFail. fold parentDir.
      by rewrite Hmk, Hch. }
    cbn [extractEntries]. unfold mbind, IO_bind, bind.
    destruct (Type_ header); [|done|]; by rewrite Hentry.
  - exact Hnew.
Qed.

End Unprivileged.

Lemma extractTarball_unprivileged_witness :
  getOllamaUIDGID userWorld
  = (OK (998%Z, 997%Z),
     log (CallLookupGroup "ollama") (log (CallLookupUser "ollama") userWorld)) /\
  privileged userWorld = false /\ euid userWorld = 1000%Z /\
  lookupTree (fs userWorld)
    (resolve userWorld (Dir (Join ["/restore"; exampleManifestPath]))) = None /\
  exists w',
    @extractTarball testLibraries "/tmp/llama2.tar" "/restore" userWorld
    = (Err (ChownError "/restore/manifests/registry.ollama.ai/library/llama2"), w') /\
    lookupTree (fs w')
      ["restore"; "manifests"; "registry.ollama.ai"; "library"; "llama2"]
    = Some (Directory 493 1000 1000).
Proof.
  split; [reflexivity|]. split; [reflexivity|]. split; [reflexivity|].
  split; [reflexivity|].
  apply (@extractTarball_unprivileged testLibraries "/tmp/llama2.tar" "/restore" userWorld
           _ 998%Z 997%Z (File 420 1000 1000 "llama2 archive") NoCodec
           {| Name := exampleManifestPath; Mode := 420;
              Size := Z.of_nat (String.length exampleManifestText); Type_ := TypeReg |}
           exampleManifestText true
           (match exampleArchive with Entry _ _ _ r => r | _ => AtEOF end)
           eq_refl); try done.
  intros k Hk Hfile. apply isFile_isFileNode in Hfile as (n & Hn & Hfilenode).
  assert (fs userWorld !! k = None) as Hnone; [|by rewrite Hnone in Hn].
  destruct Hk as [r Hk]. vm_compute in Hk.
  destruct k as [|a k]; [done|]. injection Hk as <- Hk.
  apply eq_None_not_Some. intros [n' Hn'].
  assert (forall k', fs userWorld !! ("restore" :: k') = None) as Hempty.
  { intros k'. apply eq_None_not_Some. intros [m Hm].
    pose proof example_empty_root as [Hbelow _].
    destruct k' as [|b k'].
    - vm_compute in Hm. discriminate Hm.
    - specialize (Hbelow ("restore" :: b :: k')).
      unfold lookupTree in Hbelow. change (fs userWorld) with (fs exampleWorld) in Hm.
      rewrite Hbelow in Hm; [done| |done]. by exists (b :: k'). }
  by rewrite Hempty in Hn'.
Defined.

(** ** save, then load *)

Lemma getOllamaUIDGID_same w w' :
  sameSurroundings w w' -> fst (getOllamaUIDGID w') = fst (getOllamaUIDGID w).
Proof.
  intros (_&_&Hp&Hg&_). unfold getOllamaUIDGID, LookupUser, LookupGroup.
  change (passwd (log _ w')) with (passwd w'). change (passwd (log _ w)) with (passwd w).
  rewrite Hp. destruct (passwd w !! "ollama"); [|done].
  change (groups (log _ (log _ w'))) with (groups w').
  change (groups (log _ (log _ w))) with (groups w).
  rewrite Hg. destruct (groups w !! "ollama"); [|done].
  destruct (Atoi _); [|done]. by destruct (Atoi _).
Qed.

Lemma getOllamaModelsPath_nonempty w modelPath :
  fst (getOllamaModelsPath w) = OK modelPath -> modelPath <> "".
Proof.
  unfold getOllamaModelsPath.
  destruct (String.eqb_spec (Getenv "OLLAMA_MODELS" w) "") as [_|Hne];
    [|by intros [= <-]].
  unfold Stat. destruct (nodeAt _ systemPath); [by intros [= <-]|].
  unfold UserHomeDir.
  destruct (String.eqb_spec (Getenv "HOME" (log (CallStat systemPath) w)) "")
    as [|Hhome]; [done|].
  intros [= <-]. cbn [Join]. apply String.eqb_neq in Hhome as ->.
  apply Clean_nonempty.
Qed.

(** The elements of a relative path lead where its clean form leads. *)
Lemma walk_Clean_relative S base :
  IsAbs S = false ->
  fold_left walkStep (elements (Clean S)) base = fold_left walkStep (elements S) base.
Proof.
  intros Hrel. rewrite Clean_render, Hrel.
  pose proof (Clean_kept S) as Hkept. rewrite Hrel in Hkept.
  rewrite fold_walkStep_render by done.
  rewrite walk_clean; [done|done|done|apply elements_all_no_slash].
Qed.

(** Joining in one step or in two leads to the same place. *)
Lemma resolve_Join_nested w d e rest :
  d <> "" -> e <> "" -> IsAbs e = false ->
  resolve w (Join (d :: e :: rest)) = resolve w (Join [d; Join (e :: rest)]).
Proof.
  intros Hd He Hrel.
  rewrite resolve_Join_walk by done.
  cbn [Join]. apply String.eqb_neq in Hd as Hd', He as He'. rewrite Hd', He'.
  rewrite resolve_Clean, joinElements_cons.
  rewrite walk_Clean_relative.
  - unfold resolve. rewrite elements_app_slash, fold_left_app, IsAbs_app by done.
    by rewrite rev_involutive.
  - destruct rest as [|e' rest]; [done|].
    rewrite joinElements_cons. by rewrite IsAbs_app.
Qed.

Lemma nodeAt_Join_nested w d e rest :
  d <> "" -> e <> "" -> IsAbs e = false ->
  os.nodeAt w (Join (d :: e :: rest)) = os.nodeAt w (Join [d; Join (e :: rest)]).
Proof.
  intros Hd He Hrel. unfold os.nodeAt.
  rewrite (resolve_Join_nested w d e rest) by done.
  assert (forall l, Join (d :: l) <> "") as Hne.
  { intros l. cbn [Join]. apply String.eqb_neq in Hd as ->. apply Clean_nonempty. }
  pose proof (Hne (e :: rest)) as H1. pose proof (Hne [Join (e :: rest)]) as H2.
  apply String.eqb_neq in H1, H2. by rewrite H1, H2.
Qed.

Lemma contentOf_inv n content :
  contentOf n = Some content -> exists mode u g, n = Some (File mode u g content).
Proof.
  destruct n as [[mode u g c|mode u g]|]; try done. intros [= ->]. by eexists _, _, _.
Qed.

Section SaveThenLoad.
Context `{Libraries}.

(** The extraction of what was saved. *)
Lemma extract_saved w modelPath paths entries w2 destPath fileName file uid gid :
  Forall (fun p => isLocal p = true) paths ->
  Forall2 (fun p e => savedEntry w modelPath p = Some e) paths entries ->
  filesAreLeaves (fs w) ->
  emptyRoot (fs w2) (resolve w2 destPath) ->
  os.nodeAt w2 fileName = Some file ->
  codecOf fileName = Some NoCodec ->
  newTarReader NoCodec file = OK (streamOf entries) ->
  fst (getOllamaUIDGID w2) = OK (uid, gid) ->
  (uid = (-1)%Z \/ gid = (-1)%Z \/ privileged w2 = true) ->
  exists w3,
    extractTarball fileName destPath w2 = (OK tt, w3) /\
    sameSurroundings w2 w3 /\
    forall p, p ∈ paths ->
      exists content,
        contentOf (os.nodeAt w (Join [modelPath; p])) = Some content /\
        contentOf (os.nodeAt w3 (Join [destPath; p])) = Some content.
Proof.
  intros Hlocal Hsaved Hleaves Hempty Hfile Hcodec Hreader Hids Hmay.
  destruct (getOllamaUIDGID w2) as [r w2'] eqn:Hlookup. simpl in Hids. subst r.
  pose proof (getOllamaUIDGID_frame w2) as (Hfs2 & Hcwd2 & Hpriv2).
  rewrite Hlookup in Hfs2, Hcwd2, Hpriv2. simpl in Hfs2, Hcwd2, Hpriv2.
  pose proof (saved_entries_fit _ _ _ _ _ _ Hlocal Hsaved Hleaves Hempty) as Hfits.
  destruct (extractEntries_fits uid gid destPath entries (log (CallOpen fileName) w2'))
    as (w3 & Hext & Hproc & Hdone & _).
  { by apply (fits_same_tree w2). }
  { change (privileged (log _ w2')) with (privileged w2'). by rewrite Hpriv2. }
  assert (extractTarball fileName destPath w2 = (OK tt, w3)) as Hrun.
  { by rewrite (extractTarball_opened _ _ _ _ _ _ _ Hlookup Hfile), Hcodec, Hreader. }
  exists w3. split; [exact Hrun|]. split.
  { pose proof (surroundings_extractTarball fileName destPath w2) as Hsur.
    by rewrite Hrun in Hsur. }
  intros p Hp. destruct (Forall2_elem_of_l _ _ _ _ Hsaved Hp) as (e & He & Hs).
  rewrite Forall_forall in Hlocal. pose proof (Hlocal p Hp) as Hl.
  destruct (savedEntry_inv _ _ _ _ Hl Hs) as (Hname & _ & Hshape).
  exists (snd e). split.
  - apply contentOf_shape. by rewrite nodeAt_Join.
  - apply contentOf_shape. unfold os.nodeAt.
    destruct (join_target w3 destPath p Hl) as (Hne & _).
    apply String.eqb_neq in Hne. rewrite Hne.
    rewrite <- (Hdone e He). unfold targetOf. rewrite Hname.
    by rewrite (resolve_same _ _ _ Hproc).
Qed.

(** X22.  save on one machine, load on another.  When save succeeds for
    a model whose manifest and blobs are regular files at clean relative
    paths, and the bytes it wrote are the content of a file named *.tar
    that the tar reader reads back as written, then load of that file on
    a machine whose storage root is empty succeeds, for a process
    without the ollama account or with the right to change owners.
    Below the new root the manifest and every blob have the content they
    have below the old one, and [getFilePaths] finds there the same
    manifest and the same list of files: the model can be saved
    again. *)
Theorem save_then_load modelNameStr modelName modelPath mode uid gid data manifest w :
  stdout_tty w = false -> stdout w = [] ->
  parseModelName modelNameStr = OK modelName ->
  fst (getOllamaModelsPath w) = OK modelPath ->
  os.nodeAt w (manifestAbsPath modelName modelPath)
  = Some (File mode uid gid data) ->
  json_Unmarshal data = Some manifest ->
  let filePaths :=
    Join ["manifests"; Host modelName; Namespace modelName; Model modelName;
          Tag modelName]
    :: map (fun sha => Join ["blobs"; sha]) (blobShas manifest) in
  Forall (fun p => isLocal p = true) filePaths ->
  Forall (fun p => isFile (os.nodeAt w (Join [modelPath; p]))) filePaths ->
  filesAreLeaves (fs w) ->
  exists w1,
    saveCmd_RunE modelNameStr w = (OK tt, w1) /\
    forall w2 fileName destPath fmode fu fg luid lgid,
      fst (getOllamaModelsPath w2) = OK destPath ->
      emptyRoot (fs w2) (resolve w2 destPath) ->
      os.nodeAt w2 fileName = Some (File fmode fu fg (TarBytes (stdout w1))) ->
      codecOf fileName = Some NoCodec ->
      StreamOf NoCodec (TarBytes (stdout w1)) = Some (readBack (stdout w1)) ->
      fst (getOllamaUIDGID w2) = OK (luid, lgid) ->
      (luid = (-1)%Z \/ lgid = (-1)%Z \/ privileged w2 = true) ->
      exists w3,
        loadCmd_RunE fileName w2 = (OK tt, w3) /\
        (forall p, p ∈ filePaths ->
           exists content,
             contentOf (os.nodeAt w (Join [modelPath; p])) = Some content /\
             contentOf (os.nodeAt w3 (Join [destPath; p])) = Some content) /\
        fst (getFilePaths modelName destPath w3) = OK filePaths.
Proof.
  intros Htty Hout Hparse Hroot Hmanifest Hjson filePaths Hlocal Hfiles Hleaves.
  destruct (saveCmd_RunE_entries _ _ _ _ _ _ _ _ _ Htty Hparse Hroot Hmanifest Hjson
              Hfiles) as (entries & w1 & Hsave & _ & Hout1 & Hsaved).
  rewrite Hout in Hout1. simpl in Hout1.
  exists w1. split; [exact Hsave|].
  intros w2 fileName destPath fmode fu fg luid lgid Hdest Hempty Hfile Hcodec Hlib
    Hids Hmay.
  rewrite Hout1, readBack_eventsOf in Hlib. rewrite Hout1 in Hfile.
  pose proof (surroundings_getOllamaModelsPath w2) as Hsur.
  pose proof (reads_getOllamaModelsPath w2) as (Hfs & Hcwd & _).
  destruct (getOllamaModelsPath w2) as [r w2a] eqn:Hrun1. simpl in Hdest, Hsur, Hfs, Hcwd.
  subst r.
  destruct (extract_saved w modelPath filePaths entries w2a destPath fileName
              (File fmode fu fg (TarBytes (eventsOf entries ++ [Closed]))) luid lgid)
    as (w3 & Hrun2 & Hsur3 & Hsame); try done.
  { unfold resolve. by rewrite Hfs, Hcwd. }
  { by rewrite (nodeAt_same w2 w2a). }
  { unfold newTarReader. by rewrite Hlib. }
  { by rewrite (getOllamaUIDGID_same w2 w2a). }
  { destruct Hsur as (_&_&_&_&_&_&_&->&_). done. }
  set (w4 := print_err ("Successfully loaded model from " +:+ fileName
                        +:+ " to " +:+ destPath) (log CallWriteStderr w3)).
  assert (forall path, os.nodeAt w4 path = os.nodeAt w3 path) as Hnode by done.
  exists w4. split_and!.
  - unfold loadCmd_RunE, mbind, IO_bind, bind. by rewrite Hrun1, Hrun2.
  - intros p Hp. destruct (Hsame p Hp) as (content & H1 & H2).
    exists content. by rewrite Hnode.
  - assert (modelPath <> "") as Hmne.
    { apply (getOllamaModelsPath_nonempty w). by rewrite Hroot. }
    assert (destPath <> "") as Hdne.
    { apply (getOllamaModelsPath_nonempty w2). by rewrite Hrun1. }
    destruct (Hsame (Join ["manifests"; Host modelName; Namespace modelName;
                           Model modelName; Tag modelName]))
      as (content & H1 & H2); [apply elem_of_cons; by left|].
    rewrite <- nodeAt_Join_nested in H1, H2 by done.
    fold (manifestAbsPath modelName modelPath) in H1.
    fold (manifestAbsPath modelName destPath) in H2.
    rewrite Hmanifest in H1. injection H1 as <-.
    apply contentOf_inv in H2 as (m' & u' & g' & H2).
    rewrite (getFilePaths_run modelName destPath m' u' g' data manifest); [done| |done].
    by rewrite Hnode.
Qed.

End SaveThenLoad.

Lemma save_then_load_witness :
  stdout_tty exampleWorld = false /\
  parseModelName "llama2" = OK exampleModel /\
  fst (getOllamaModelsPath exampleWorld) = OK "/models" /\
  fst (getOllamaModelsPath targetWorld) = OK "/var/lib/models" /\
  emptyRoot (fs targetWorld) (resolve targetWorld "/var/lib/models") /\
  exists w1 w3,
    @saveCmd_RunE testLibraries "llama2" exampleWorld = (OK tt, w1) /\
    @loadCmd_RunE testLibraries "/tmp/llama2.tar" targetWorld = (OK tt, w3) /\
    (forall p, p ∈ examplePaths ->
       exists content,
         contentOf (os.nodeAt exampleWorld (Join ["/models"; p])) = Some content /\
         contentOf (os.nodeAt w3 (Join ["/var/lib/models"; p])) = Some content) /\
    fst (@getFilePaths testLibraries exampleModel "/var/lib/models" w3)
    = OK examplePaths.
Proof.
  assert (emptyRoot (fs targetWorld) (resolve targetWorld "/var/lib/models")) as Hempty.
  { apply emptyRootb_sound. by vm_compute. }
  split; [reflexivity|]. split; [reflexivity|]. split; [reflexivity|].
  split; [reflexivity|]. split; [exact Hempty|].
  destruct (@save_then_load testLibraries "llama2" exampleModel "/models" 420%Z 0%Z 0%Z
              exampleManifestText exampleManifest exampleWorld eq_refl eq_refl eq_refl
              eq_refl eq_refl eq_refl example_local example_files example_leaves)
    as (w1 & Hsave & Hload).
  assert (stdout w1 = eventsOf exampleEntries ++ [Closed]) as Hout.
  { assert (w1 = snd (@saveCmd_RunE testLibraries "llama2" exampleWorld)) as ->
      by (by rewrite Hsave).
    reflexivity. }
  destruct (Hload targetWorld "/tmp/llama2.tar" "/var/lib/models" 420%Z 1000%Z 1000%Z
              (-1)%Z (-1)%Z) as (w3 & Hrun & Hsame & Hpaths).
  - reflexivity.
  - exact Hempty.
  - reflexivity.
  - reflexivity.
  - rewrite Hout. reflexivity.
  - reflexivity.
  - by left.
  - exists w1, w3. split; [exact Hsave|]. split; [exact Hrun|].
    split; [exact Hsame|exact Hpaths].
Defined.

(** ** load, twice *)




Lemma mayRewrite_rewritable w perm n : mayRewrite w n -> rewritable w perm n.
Proof. intros (mode & g & content & -> & Hmode). done. Qed.


Section Twice.
Context `{Libraries}.



End Twice.

